(** * Encryptum: encrypted storage with on-chain pinning

    A shallow embedding of the core of the application:
    - [encryption.py]: [EncryptumCrypto] (key derivation, file encryption and
      decryption, integrity check);
    - [gui_app_blockchain.py]: the file registry kept by [EncryptumGUI] and the
      pinning workflow of [BlockchainPanel] (gas price resolution, pre-flight
      balance check, per-file transaction loop); the choice of a file to
      upload, the download of a file, the selection handed to the panel and
      the import of a wallet;
    - [ipfs_handler.py]: [EncryptumIPFS] (storage and retrieval of the
      ciphertext and of its metadata);
    - [config.py]: the gas settings of [EncryptumConfig] and the checks made on
      a file before it is uploaded.

    Python values are modelled as follows: [int] is [Z], [float] is an IEEE 754
    binary64 value ([spec_float] at precision 53), [bytes] is [list byte],
    [str] is [string], a [dict] with string keys is a [gmap string _], and a
    call that may raise returns a [result]. *)

From Stdlib Require Import ZArith List Ascii Bool Lia SpecFloat.
From Stdlib.Strings Require Import Byte.
From Stdlib Require String.
From stdpp Require Import base option list strings gmap pretty.

Local Open Scope Z_scope.

(** ** Exceptions and results *)

Inductive exn_class :=
| Exception_          (* a plain [Exception] *)
| FileNotFoundError
| ValueError
| OverflowError
| RecursionError
| InvalidToken        (* cryptography.fernet.InvalidToken *)
| UnicodeEncodeError
| ConnectionError_    (* anything raised by a remote call *)
| TimeExhausted.      (* web3: no receipt within the timeout *)

Record exn := Exn { exn_cls : exn_class; exn_msg : string }.

(** [str(e)] *)
Definition str_exn (e : exn) : string := exn_msg e.

Inductive result (A : Type) :=
| Ok (a : A)
| Raise (e : exn).
Arguments Ok {A} a.
Arguments Raise {A} e.

Definition bind {A B} (r : result A) (k : A -> result B) : result B :=
  match r with
  | Ok a => k a
  | Raise e => Raise e
  end.

Notation "x <- r ;; k" := (bind r (fun x => k))
  (at level 100, r at next level, right associativity, only parsing).

(** [try: r except Exception as e: h e] *)
Definition try_except {A} (r : result A) (h : exn -> result A) : result A :=
  match r with
  | Ok a => Ok a
  | Raise e => h e
  end.

Definition is_ok {A} (r : result A) : bool :=
  match r with Ok _ => true | Raise _ => false end.

(** ** Bytes and hexadecimal text *)

Abbreviation bytes := (list byte).

Definition Z_of_byte (b : byte) : Z := Z.of_N (Byte.to_N b).

Definition byte_of_Z (z : Z) : byte :=
  match Byte.of_N (Z.to_N (z mod 256)) with
  | Some b => b
  | None => x00
  end.

Definition hex_digit_lower (d : Z) : ascii :=
  ascii_of_N (Z.to_N (if d <? 10 then 48 + d else 87 + d)).

Definition hex_digit_upper (d : Z) : ascii :=
  ascii_of_N (Z.to_N (if d <? 10 then 48 + d else 55 + d)).

(** [bytes.hex()] and the text of [hexdigest()]: two lowercase digits per byte. *)
Fixpoint hex_of_bytes (bs : list Z) : string :=
  match bs with
  | [] => EmptyString
  | b :: rest =>
      String (hex_digit_lower (b / 16))
        (String (hex_digit_lower (b mod 16)) (hex_of_bytes rest))
  end.

Fixpoint hex_of_bytes_upper (bs : list Z) : string :=
  match bs with
  | [] => EmptyString
  | b :: rest =>
      String (hex_digit_upper (b / 16))
        (String (hex_digit_upper (b mod 16)) (hex_of_bytes_upper rest))
  end.

(** The value of one hexadecimal digit, either case. *)
Definition hex_value (c : ascii) : option Z :=
  let n := Z.of_N (N_of_ascii c) in
  if (48 <=? n) && (n <=? 57) then Some (n - 48)
  else if (97 <=? n) && (n <=? 102) then Some (n - 87)
  else if (65 <=? n) && (n <=? 70) then Some (n - 55)
  else None.

(** [bytes.fromhex]: the bytes a hexadecimal text denotes. *)
Fixpoint bytes_of_hex (s : string) : option (list Z) :=
  match s with
  | EmptyString => Some []
  | String c1 (String c2 rest) =>
      match hex_value c1, hex_value c2, bytes_of_hex rest with
      | Some h, Some l, Some bs => Some (16 * h + l :: bs)
      | _, _, _ => None
      end
  | String _ EmptyString => None
  end.

(** ** [hashlib.sha256] (FIPS 180-4) *)

Module Sha256.

Definition w32 (x : Z) : Z := x mod 4294967296.

Definition rotr (n x : Z) : Z :=
  w32 (Z.lor (Z.shiftr x n) (Z.shiftl x (32 - n))).

Definition Ch (x y z : Z) : Z :=
  Z.lxor (Z.land x y) (Z.land (Z.lxor x 4294967295) z).
Definition Maj (x y z : Z) : Z :=
  Z.lxor (Z.lxor (Z.land x y) (Z.land x z)) (Z.land y z).
Definition Sigma0 (x : Z) : Z := Z.lxor (Z.lxor (rotr 2 x) (rotr 13 x)) (rotr 22 x).
Definition Sigma1 (x : Z) : Z := Z.lxor (Z.lxor (rotr 6 x) (rotr 11 x)) (rotr 25 x).
Definition sigma0 (x : Z) : Z := Z.lxor (Z.lxor (rotr 7 x) (rotr 18 x)) (Z.shiftr x 3).
Definition sigma1 (x : Z) : Z := Z.lxor (Z.lxor (rotr 17 x) (rotr 19 x)) (Z.shiftr x 10).

(** The constants are derived as the standard defines them, from the first
    sixty-four primes. *)
Definition is_prime (n : Z) : bool :=
  forallb (fun d => negb (n mod Z.of_nat d =? 0)) (seq 2 (Z.to_nat n - 2)).

Definition primes : list Z :=
  Eval vm_compute in firstn 64 (List.filter is_prime (map Z.of_nat (seq 2 310))).

(** Integer cube root, one bit at a time from bit [n - 1] down. *)
Fixpoint cbrt_bits (n : nat) (x r : Z) : Z :=
  match n with
  | O => r
  | S n' =>
      let c := r + 2 ^ Z.of_nat n' in
      cbrt_bits n' x (if c * c * c <=? x then c else r)
  end.

(** The first 32 bits of the fractional part of the cube root and of the
    square root of [p]. *)
Definition frac32_cbrt (p : Z) : Z := w32 (cbrt_bits 40 (p * 2 ^ 96) 0).
Definition frac32_sqrt (p : Z) : Z := w32 (Z.sqrt (p * 2 ^ 64)).

Definition K : list Z := Eval vm_compute in map frac32_cbrt primes.

Definition H0 : list Z := Eval vm_compute in map frac32_sqrt (firstn 8 primes).

(** Big-endian bytes of a [n]-byte quantity. *)
Fixpoint be_bytes (n : nat) (x : Z) : list Z :=
  match n with
  | O => []
  | S n' => (x / 256 ^ Z.of_nat n') mod 256 :: be_bytes n' x
  end.

(** Message padding: a 1 bit, zeros up to 56 mod 64, the bit length on 8 bytes. *)
Definition pad (msg : list Z) : list Z :=
  let len := Z.of_nat (length msg) in
  let zeros := Z.to_nat ((55 - len) mod 64) in
  msg ++ 128 :: repeat 0 zeros ++ be_bytes 8 (8 * len).

Fixpoint words_of_bytes (n : nat) (bs : list Z) : list Z :=
  match n with
  | O => []
  | S n' =>
      match bs with
      | a :: b :: c :: d :: rest =>
          (((a * 256 + b) * 256 + c) * 256 + d) :: words_of_bytes n' rest
      | _ => []
      end
  end.

(** The message schedule, most recent word first: [ws] holds W(t-1), W(t-2), ... *)
Fixpoint schedule (n : nat) (ws : list Z) : list Z :=
  match n with
  | O => ws
  | S n' =>
      let w := w32 (sigma1 (nth 1 ws 0) + nth 6 ws 0 + sigma0 (nth 14 ws 0) + nth 15 ws 0) in
      schedule n' (w :: ws)
  end.

Definition round (st : list Z) (kw : Z * Z) : list Z :=
  match st with
  | [a; b; c; d; e; f; g; h] =>
      let t1 := h + Sigma1 e + Ch e f g + fst kw + snd kw in
      let t2 := Sigma0 a + Maj a b c in
      [w32 (t1 + t2); a; b; c; w32 (d + t1); e; f; g]
  | _ => st
  end.

Fixpoint zip_add (xs ys : list Z) : list Z :=
  match xs, ys with
  | x :: xs', y :: ys' => w32 (x + y) :: zip_add xs' ys'
  | _, _ => []
  end.

Definition compress (h : list Z) (block : list Z) : list Z :=
  let w := rev (schedule 48 (rev (words_of_bytes 16 block))) in
  zip_add h (fold_left round (combine K w) h).

Fixpoint blocks (n : nat) (h : list Z) (bs : list Z) : list Z :=
  match n with
  | O => h
  | S n' => blocks n' (compress h (firstn 64 bs)) (skipn 64 bs)
  end.

(** [hashlib.sha256(data).digest()] as a list of 32 byte values. *)
Definition digest (data : bytes) : list Z :=
  let p := pad (map Z_of_byte data) in
  flat_map (be_bytes 4) (blocks (length p / 64)%nat H0 p).

(** [hashlib.sha256(data).hexdigest()] *)
Definition hexdigest (data : bytes) : string := hex_of_bytes (digest data).

End Sha256.

Definition bytes_of_string (s : string) : bytes := String.list_byte_of_string s.

(** ** Text: the [str] methods the code uses (ASCII semantics) *)

Definition is_space (c : ascii) : bool :=
  let n := N_of_ascii c in
  ((9 <=? n) && (n <=? 13))%N || (n =? 32)%N.

Definition lower_ascii (c : ascii) : ascii :=
  let n := N_of_ascii c in
  if ((65 <=? n) && (n <=? 90))%N then ascii_of_N (n + 32) else c.

(** [s.lower()] *)
Fixpoint lower (s : string) : string :=
  match s with
  | EmptyString => EmptyString
  | String c rest => String (lower_ascii c) (lower rest)
  end.

Fixpoint lstrip (s : string) : string :=
  match s with
  | EmptyString => EmptyString
  | String c rest => if is_space c then lstrip rest else s
  end.

Fixpoint rstrip (s : string) : string :=
  match s with
  | EmptyString => EmptyString
  | String c rest =>
      match rstrip rest with
      | EmptyString => if is_space c then EmptyString else String c EmptyString
      | r => String c r
      end
  end.

(** [s.strip()] *)
Definition strip (s : string) : string := rstrip (lstrip s).

(** [s.startswith(p)] *)
Definition startswith (p s : string) : bool := String.prefix p s.

(** [p in s] *)
Fixpoint contains (p s : string) : bool :=
  String.prefix p s ||
  match s with
  | EmptyString => false
  | String _ rest => contains p rest
  end.

(** [s[:n]] *)
Definition take_str (n : nat) (s : string) : string := String.substring 0 n s.

(** [os.path.basename] (POSIX): the text after the last slash. *)
Fixpoint basename (p : string) : string :=
  match p with
  | EmptyString => EmptyString
  | String c rest =>
      if contains "/" p
      then basename rest
      else p
  end.

(** ** Python [float]: IEEE 754 binary64 *)

Module PyFloat.

Definition prec : Z := 53.
Definition emax : Z := 1024.

Abbreviation float := spec_float.

Definition mul : float -> float -> float := SFmul prec emax.
Definition add : float -> float -> float := SFadd prec emax.
Definition ltb : float -> float -> bool := SFltb.

(** Conversion of an [int] operand in mixed arithmetic: the nearest float, ties
    to even; [OverflowError] when it is too large. *)
Definition of_int (n : Z) : result float :=
  match binary_normalize prec emax n 0 false with
  | S754_infinity _ => Raise (Exn OverflowError "int too large to convert to float")
  | f => Ok f
  end.

(** [int(x)]: truncation toward zero. *)
Definition to_int (x : float) : result Z :=
  match x with
  | S754_zero _ => Ok 0
  | S754_finite s m e =>
      let v := if 0 <=? e then Zpos m * 2 ^ e else Zpos m / 2 ^ (- e) in
      Ok (if s then - v else v)
  | S754_infinity _ => Raise (Exn OverflowError "cannot convert float infinity to integer")
  | S754_nan => Raise (Exn ValueError "cannot convert float NaN to integer")
  end.

(** [int(n * x)] for an [int] [n] and a [float] [x]. *)
Definition int_mul_trunc (n : Z) (x : float) : result Z :=
  fn <- of_int n ;; to_int (mul fn x).

Definition div_round (s : bool) (p d : positive) : float :=
  let sh := Z.max 0 (Zdigits2 (Zpos d) + 55 - Zdigits2 (Zpos p)) in
  let '(q, r) := Z.div_eucl (Z.shiftl (Zpos p) sh) (Zpos d) in
  binary_round_aux prec emax s q (- sh) (new_location (Zpos d) r).

(** The float nearest to the fraction [n / d] (ties to even): the value of a
    decimal literal, and of [float(Decimal)]. *)
Definition of_ratio (n : Z) (d : positive) : float :=
  match n with
  | Z0 => S754_zero false
  | Zpos p => div_round false p d
  | Zneg p => div_round true p d
  end.

(** [floor (x * 10^k)] for a finite [x >= 0], exactly. *)
Definition scaled_floor (x : float) (k : Z) : option Z :=
  match x with
  | S754_zero _ => Some 0
  | S754_finite false m e =>
      Some (if 0 <=? e then Zpos m * 2 ^ e * 10 ^ k else (Zpos m * 10 ^ k) / 2 ^ (- e))
  | _ => None
  end.

End PyFloat.

Abbreviation float := spec_float.

(** The float literals of the source. *)
Definition float_1_0 : float := PyFloat.of_ratio 1 1.
Definition float_1_1 : float := PyFloat.of_ratio 11 10.
Definition float_1_2 : float := PyFloat.of_ratio 12 10.

(** ** JSON-like values held in the registry *)

Inductive pyval :=
| VNone
| VBool (b : bool)
| VInt (z : Z)
| VFloat (x : float)
| VStr (s : string)
| VDict (kvs : list (string * string)).

(** A [dict] with string keys. *)
Abbreviation pydict := (gmap string pyval).

(** Truthiness of [d.get(k, False)]. *)
Definition truthy (v : pyval) : bool :=
  match v with
  | VNone => false
  | VBool b => b
  | VInt z => negb (z =? 0)
  | VFloat x => negb (SFeqb x (S754_zero false))
  | VStr s => negb (String.eqb s "")
  | VDict kvs => match kvs with [] => false | _ => true end
  end.

Definition get_truthy (d : pydict) (k : string) : bool :=
  match d !! k with
  | Some v => truthy v
  | None => false
  end.

(** * encryption.py *)

Module Encryption.

(** The primitives of the [cryptography] package that [EncryptumCrypto] calls.
    Their code is not part of the application; the application is verified
    against this interface. *)
Class Cryptography := {
  (** [PBKDF2HMAC(algorithm=SHA256(), length=32, salt, iterations).derive(pw)] *)
  pbkdf2_hmac_sha256 : bytes -> bytes -> Z -> result bytes;
  (** [base64.urlsafe_b64encode] *)
  urlsafe_b64encode : bytes -> bytes;
  (** A [Fernet] object, and [Fernet(key)], which rejects a malformed key. *)
  fernet : Type;
  Fernet : bytes -> result fernet;
  (** What [Fernet.encrypt] draws by itself: the IV and the clock. *)
  fernet_nonce : Type;
  fernet_encrypt : fernet -> fernet_nonce -> bytes -> bytes;
  (** [Fernet.decrypt]; raises [InvalidToken]. *)
  fernet_decrypt : fernet -> bytes -> result bytes
}.

(** The functional contract of Fernet: a token decrypts, under the key that
    made it, to the data it was made from. *)
Class FernetCorrect `{Cryptography} : Prop :=
  fernet_decrypt_encrypt :
    forall (f : fernet) (n : fernet_nonce) (data : bytes),
      fernet_decrypt f (fernet_encrypt f n data) = Ok data.

(** The dict returned by [encrypt_file]. *)
Record EncryptionResult := {
  encrypted_data : bytes;
  salt : bytes;
  original_hash : string;
  original_name : string;
  original_size : Z;
  encrypted_size : Z
}.

Section EncryptumCrypto.

Context `{Cryptography}.

(** [self.iterations] *)
Variable iterations : Z.

(** The files on disk: [os.path.exists] and [open(path, 'rb').read()]. *)
Variable fs : gmap string bytes.

(** [generate_key_from_password(password, salt)]; [urandom] is what
    [os.urandom(16)] returns if it is called. *)
Definition generate_key_from_password
    (urandom : bytes) (password : string) (salt : option bytes)
  : result (bytes * bytes) :=
  let salt := match salt with None => urandom | Some s => s end in
  raw <- pbkdf2_hmac_sha256 (bytes_of_string password) salt iterations ;;
  let key := urlsafe_b64encode raw in
  Ok (key, salt).

Definition encrypt_file
    (urandom : bytes) (nonce : fernet_nonce) (file_path password : string)
  : result EncryptionResult :=
  try_except
    (match fs !! file_path with
     | None => Raise (Exn FileNotFoundError ("File not found: " +:+ file_path))
     | Some file_data =>
         ks <- generate_key_from_password urandom password None ;;
         f <- Fernet (fst ks) ;;
         if (length file_data =? 0)%nat
         then Raise (Exn ValueError "Cannot encrypt empty file")
         else
           let encrypted := fernet_encrypt f nonce file_data in
           let file_hash := Sha256.hexdigest file_data in
           Ok {| encrypted_data := encrypted;
                 salt := snd ks;
                 original_hash := file_hash;
                 original_name := basename file_path;
                 original_size := Z.of_nat (length file_data);
                 encrypted_size := Z.of_nat (length encrypted) |}
     end)
    (fun e => Raise (Exn Exception_ ("Encryption failed: " +:+ str_exn e))).

Definition decrypt_file
    (encrypted : bytes) (password : string) (salt : bytes) : result bytes :=
  try_except
    (ks <- generate_key_from_password [] password (Some salt) ;;
     f <- Fernet (fst ks) ;;
     decrypted <- fernet_decrypt f encrypted ;;
     Ok decrypted)
    (fun e => Raise (Exn Exception_ ("Decryption failed: " +:+ str_exn e))).

End EncryptumCrypto.

(** [verify_file_integrity(decrypted_data, original_hash)] *)
Definition verify_file_integrity (decrypted_data : bytes) (original_hash : string) : bool :=
  let current_hash := Sha256.hexdigest decrypted_data in
  String.eqb current_hash original_hash.

(** A small stand-in for the [cryptography] primitives, to run the definitions
    on concrete inputs: the key is the password followed by the salt, and a
    token is the key followed by the data with every byte's low bit flipped;
    decryption checks the key. *)
Definition flip_low (b : byte) : byte := byte_of_Z (Z.lxor (Z_of_byte b) 1).

Fixpoint bytes_eqb (a b : bytes) : bool :=
  match a, b with
  | [], [] => true
  | x :: a', y :: b' => Byte.eqb x y && bytes_eqb a' b'
  | _, _ => false
  end.

#[export] Instance demo_cryptography : Cryptography := {|
  pbkdf2_hmac_sha256 pw s _ := Ok (pw ++ s);
  urlsafe_b64encode raw := raw;
  fernet := bytes;
  Fernet key := Ok key;
  fernet_nonce := unit;
  fernet_encrypt key _ data := key ++ map flip_low data;
  fernet_decrypt key token :=
    if bytes_eqb (firstn (length key) token) key
    then Ok (map flip_low (skipn (length key) token))
    else Raise (Exn InvalidToken "")
|}.

(** A disk with one ten-byte file. *)
Definition demo_fs : gmap string bytes :=
  {[ "/home/user/notes.txt" := bytes_of_string "ten bytes!" ]}.

(** What [encrypt_file] returns for that file under the password [pw1]. *)
Definition notes_encrypted : EncryptionResult :=
  Eval vm_compute in
    match
      encrypt_file (H := demo_cryptography) 100000 demo_fs
        (bytes_of_string "0123456789abcdef") tt "/home/user/notes.txt" "pw1"
    with
    | Ok r => r
    | Raise _ =>
        {| encrypted_data := []; salt := []; original_hash := ""; original_name := "";
           original_size := 0; encrypted_size := 0 |}
    end.

(** A disk with one empty file. *)
Definition empty_fs : gmap string bytes := {[ "/tmp/empty.bin" := [] ]}.

End Encryption.

(** * gui_app_blockchain.py: the file registry of [EncryptumGUI] *)

Module Registry.

(** [self.file_registry]: file id to record. *)
Abbreviation registry := (gmap string pydict).

(** The IPFS node that ipfs_handler.py reaches over HTTP. *)
Class IpfsNode := {
  (** POST [/api/v0/add] of a named part: the [Hash] field of the last line of
      the answer (empty when there is none); raises on a status other than 200. *)
  ipfs_add : string -> bytes -> result string;
  (** [json.dumps(d, indent=2).encode()] *)
  json_dumps : pydict -> bytes
}.

Section Upload.

Context `{Encryption.Cryptography} `{IpfsNode}.

(** [self.gateway_url] *)
Variable gateway_url : string.

(** [EncryptumIPFS.store_encrypted_file]; [now] is [datetime.now().isoformat()]. *)
Definition store_encrypted_file
    (now : string) (encrypted_data : bytes) (metadata : pydict) : result pydict :=
  try_except
    (cid <- ipfs_add "encrypted_file" encrypted_data ;;
     if String.eqb cid "" then Raise (Exn Exception_ "No CID returned from IPFS")
     else
       let enhanced_metadata :=
         <["file_cid" := VStr cid]> (<["upload_timestamp" := VStr now]> metadata) in
       metadata_cid <- ipfs_add "metadata.json" (json_dumps enhanced_metadata) ;;
       if String.eqb metadata_cid ""
       then Raise (Exn Exception_ "No metadata CID returned from IPFS")
       else
         Ok (<["file_cid" := VStr cid]>
            (<["metadata_cid" := VStr metadata_cid]>
            (<["gateway_url" := VStr (gateway_url +:+ cid)]>
            (<["metadata_gateway_url" := VStr (gateway_url +:+ metadata_cid)]>
            (<["ipfs_urls" := VDict [("file", "ipfs://" +:+ cid);
                                     ("metadata", "ipfs://" +:+ metadata_cid)]]>
             ∅))))))
    (fun e => Raise (Exn Exception_ ("IPFS storage failed: " +:+ str_exn e))).

(** The registry entry written by [upload_file_thread] ("Create file entry"):
    the keys of [ipfs_result], then the listed keys on top of them. *)
Definition file_entry
    (encrypted_result : Encryption.EncryptionResult) (ipfs_result : pydict) (now : string)
  : pydict :=
  <["blockchain_pinned" := VBool false]>
  (<["file_hash" := VStr (Encryption.original_hash encrypted_result)]>
  (<["upload_date" := VStr now]>
  (<["original_size" := VInt (Encryption.original_size encrypted_result)]>
  (<["original_name" := VStr (Encryption.original_name encrypted_result)]>
   ipfs_result)))).

(** [self.file_registry[file_id] = {...}] with [file_id = original_hash[:16]]. *)
Definition create_file_entry
    (reg : registry) (encrypted_result : Encryption.EncryptionResult)
    (ipfs_result : pydict) (now : string) : string * registry :=
  let file_id := take_str 16 (Encryption.original_hash encrypted_result) in
  (file_id, <[file_id := file_entry encrypted_result ipfs_result now]> reg).

Inductive upload_outcome :=
| UploadSuccess (file_id : string) (ipfs_result : pydict)   (* [on_upload_success] *)
| UploadError (error : string).                             (* [on_upload_error] *)

(** The metadata dict [upload_file_thread] stores beside the ciphertext. *)
Definition upload_metadata (encrypted_result : Encryption.EncryptionResult) : pydict :=
  <["encrypted_size" := VInt (Encryption.encrypted_size encrypted_result)]>
  (<["original_size" := VInt (Encryption.original_size encrypted_result)]>
  (<["original_name" := VStr (Encryption.original_name encrypted_result)]>
  (<["original_hash" := VStr (Encryption.original_hash encrypted_result)]>
  (<["salt" := VStr (hex_of_bytes (map Z_of_byte (Encryption.salt encrypted_result)))]>
   ∅)))).

(** [upload_file_thread(file_path, password)] on the registry. *)
Definition upload_file_thread
    (iterations : Z) (fs : gmap string bytes)
    (urandom : bytes) (nonce : Encryption.fernet_nonce) (now : string)
    (file_path password : string) (reg : registry) : registry * upload_outcome :=
  match
    (encrypted_result <- Encryption.encrypt_file iterations fs urandom nonce file_path password ;;
     ipfs_result <-
       store_encrypted_file now (Encryption.encrypted_data encrypted_result)
         (upload_metadata encrypted_result) ;;
     Ok (encrypted_result, ipfs_result))
  with
  | Ok (encrypted_result, ipfs_result) =>
      let '(file_id, reg') := create_file_entry reg encrypted_result ipfs_result now in
      (reg', UploadSuccess file_id ipfs_result)
  | Raise e => (reg, UploadError (str_exn e))
  end.

End Upload.

(** [update_file_pinning_status(file_id, pin_info)]: [dict.update] on the record
    when the id is known, nothing otherwise. *)
Definition update_file_pinning_status
    (file_id : string) (pin_info : pydict) (reg : registry) : registry :=
  match reg !! file_id with
  | Some record => <[file_id := pin_info ∪ record]> reg
  | None => reg
  end.

(** The loop of [delete_file] over the selected rows [(file_id, file_name)];
    [askyesno] is the user's answer to the "File Pinned" question. *)
Fixpoint delete_loop
    (askyesno : string -> bool) (selection : list (string * string))
    (reg : registry) (deleted : Z) : registry * Z :=
  match selection with
  | [] => (reg, deleted)
  | (file_id, file_name) :: rest =>
      match reg !! file_id with
      | Some record =>
          if get_truthy record "blockchain_pinned" && negb (askyesno file_name)
          then delete_loop askyesno rest reg deleted
          else delete_loop askyesno rest (delete file_id reg) (deleted + 1)
      | None => delete_loop askyesno rest reg deleted
      end
  end.

Definition delete_file
    (askyesno : string -> bool) (selection : list (string * string))
    (reg : registry) : registry :=
  fst (delete_loop askyesno selection reg 0).

(** "[blockchain_pinned == true] implies [pin_tx] is set", for every record. *)
Definition pin_invariant (reg : registry) : Prop :=
  forall (file_id : string) (record : pydict),
    reg !! file_id = Some record ->
    get_truthy record "blockchain_pinned" = true ->
    is_Some (record !! "pin_tx").

(** What [on_upload_success] is told, if the upload succeeded. *)
Definition uploaded_id (o : upload_outcome) : option string :=
  match o with UploadSuccess file_id _ => Some file_id | UploadError _ => None end.

(** A stand-in for the IPFS node: the content id is derived from the hash of
    the content. *)
#[export] Instance demo_ipfs : IpfsNode := {|
  ipfs_add _ data := Ok ("Qm" +:+ take_str 12 (Sha256.hexdigest data));
  json_dumps d := flat_map (fun kv => bytes_of_string (fst kv)) (map_to_list d)
|}.

(** A registry holding one pinned record, under the id of the file whose
    content is [abc]. *)
Definition pinned_record : pydict :=
  <["blockchain_pinned" := VBool true]>
  (<["pin_tx" := VStr "5e1f"]>
  (<["file_cid" := VStr "QmOld"]> ∅)).

Definition demo_registry : registry :=
  {[ "ba7816bf8f01cfea" := pinned_record ]}.

Definition abc_fs : gmap string bytes := {[ "/tmp/abc.txt" := bytes_of_string "abc" ]}.

(** What encryption and storage return for [/tmp/abc.txt]. *)
Definition abc_encrypted : Encryption.EncryptionResult :=
  Eval vm_compute in
    match
      Encryption.encrypt_file (H := Encryption.demo_cryptography) 100000 abc_fs
        (bytes_of_string "0123456789abcdef") tt "/tmp/abc.txt" "pw"
    with
    | Ok r => r
    | Raise _ =>
        {| Encryption.encrypted_data := []; Encryption.salt := [];
           Encryption.original_hash := ""; Encryption.original_name := "";
           Encryption.original_size := 0; Encryption.encrypted_size := 0 |}
    end.

Definition abc_stored : pydict :=
  Eval vm_compute in
    match
      store_encrypted_file "https://ipfs.io/ipfs/" "2025-01-01T00:00:00"
        (Encryption.encrypted_data abc_encrypted) (upload_metadata abc_encrypted)
    with
    | Ok d => d
    | Raise _ => ∅
    end.

(** Uploading [/tmp/abc.txt] into [demo_registry]. *)
Definition overwrite_run : registry * upload_outcome :=
  upload_file_thread (H := Encryption.demo_cryptography) "https://ipfs.io/ipfs/" 100000 abc_fs
    (bytes_of_string "0123456789abcdef") tt "2025-01-01T00:00:00" "/tmp/abc.txt" "pw"
    demo_registry.

End Registry.

(** * config.py and gui_app_blockchain.py: [BlockchainPanel] *)

Module Blockchain.

Import Registry.

(** The gas settings of [EncryptumConfig]. *)
Record EncryptumConfig := {
  gas_limit_buffer : float;
  gas_price_buffer : float;
  min_gas_price_gwei : float;
  default_gas_limit : Z;
  max_gas_limit : Z
}.

(** The defaults of the dataclass. *)
Definition default_config : EncryptumConfig := {|
  gas_limit_buffer := float_1_2;
  gas_price_buffer := float_1_1;
  min_gas_price_gwei := float_1_0;
  default_gas_limit := 500000;
  max_gas_limit := 2000000
|}.

Inductive wei_unit := Gwei | Ether.

(** One entry of [self.selected_files], as [on_file_selection_changed] builds it. *)
Record FileSel := {
  file_id : string;
  file_cid : string;
  metadata_cid : string;
  original_size : Z;
  original_name : string
}.

(** The arguments of [contract.functions.pinFile(...)]. *)
Record PinFileCall := {
  call_file_cid : string;
  call_metadata_cid : string;
  call_file_size : Z;
  call_duration : Z;
  call_name : string
}.

(** [tx_params] *)
Record TxParams := {
  tx_from : string;
  tx_value : Z;
  tx_gas : Z;
  tx_gasPrice : Z;
  tx_nonce : Z;
  tx_chainId : Z
}.

Record Transaction := { tx_call : PinFileCall; tx_params : TxParams }.

Record Receipt := { status : Z; gasUsed : Z }.

(** Library functions the panel calls: the [float] constructor on text, the
    unit conversions of web3 (with the [float(...)] around [from_wei]), and
    local signing by eth_account. *)
Class Runtime := {
  float_of_str : string -> result float;
  to_wei : float -> wei_unit -> result Z;
  from_wei_float : Z -> wei_unit -> result float;
  sign_transaction : Transaction -> string -> result bytes
}.

(** The answers of the node and of the contract while one file is processed
    (each is asked at most once per file), or during the pre-flight check. *)
Record Ledger := {
  eth_gas_price : result Z;
  eth_chain_id : result Z;
  eth_get_balance : result Z;
  eth_get_transaction_count : result Z;
  calculatePinCost_call : result Z;
  pinFile_estimate_gas : result Z;
  pinFile_build_transaction : result unit;
  eth_send_raw_transaction : result bytes;
  eth_wait_for_transaction_receipt : result Receipt
}.

(** The widgets and fields of the panel that the workflow reads. *)
Record Panel := {
  gas_price_var : string;
  duration_var : Z;
  network_var : string;
  account : string;
  private_key : string;
  selected_files : list FileSel;
  file_registry_callback : option (string -> pydict -> registry -> result registry)
}.

Inductive log_level := Info | Success | Warning | Error.

(** The lines written by [self.log], by the place that writes them. *)
Inductive log_msg :=
| MsgPinning (i n : Z) (name : string)
| MsgUsingGasPrice (gwei : float)
| MsgEstimatedGas (estimated limit : Z)
| MsgGasEstimationFailed (error : string)
| MsgTransactionCost (eth : float)
| MsgSigningError (error : string)
| MsgTransactionSent (tx_hash : bytes)
| MsgWaiting
| MsgPinned (gas_used : Z) (cost_eth : float)
| MsgTransactionFailed (name : string)
| MsgFailedToPin (name error : string)
| MsgInsufficientFunds
| MsgGasLimitTooLow
| MsgGasPriceTooLowHint
| MsgNonceIssue
| MsgGasPriceTooLow (minimum : float)
| MsgInvalidGasPrice
| MsgSummary (successful failed : Z)
| MsgProcessError (error : string).

(** What a run touches: the registry behind the callback, the transaction
    log, the transactions built and the raw transactions handed to the node,
    the registry callbacks made, and the two counters of [pin_thread]. *)
Record State := {
  st_registry : registry;
  st_log : list (log_level * log_msg);
  st_built : list Transaction;
  st_sent : list bytes;
  st_callbacks : list (string * pydict);
  successful : Z;
  failed : Z
}.

Definition initial_state (reg : registry) : State := {|
  st_registry := reg; st_log := []; st_built := []; st_sent := [];
  st_callbacks := []; successful := 0; failed := 0
|}.

(** Computations that read and write the [State] and may raise. *)
Definition M (A : Type) : Type := State -> State * result A.

Definition ret {A} (a : A) : M A := fun s => (s, Ok a).
Definition raise {A} (e : exn) : M A := fun s => (s, Raise e).
Definition lift {A} (r : result A) : M A := fun s => (s, r).

Definition mbind {A B} (m : M A) (k : A -> M B) : M B :=
  fun s =>
    match m s with
    | (s', Ok a) => k a s'
    | (s', Raise e) => (s', Raise e)
    end.

Notation "x <~ m ;; k" := (mbind m (fun x => k))
  (at level 100, m at next level, right associativity, only parsing).
Notation "m ;;; k" := (mbind m (fun _ => k))
  (at level 100, right associativity, only parsing).

(** [try: m except Exception as e: h e] *)
Definition catch {A} (m : M A) (h : exn -> M A) : M A :=
  fun s =>
    match m s with
    | (s', Ok a) => (s', Ok a)
    | (s', Raise e) => h e s'
    end.

(** [try: m except ValueError: h] *)
Definition catch_ValueError {A} (m : M A) (h : M A) : M A :=
  fun s =>
    match m s with
    | (s', Raise (Exn ValueError msg)) => h s'
    | r => r
    end.

Definition add_logs (lines : list (log_level * log_msg)) (s : State) : State :=
  {| st_registry := st_registry s; st_log := st_log s ++ lines;
     st_built := st_built s; st_sent := st_sent s;
     st_callbacks := st_callbacks s;
     successful := successful s; failed := failed s |}.

(** [self.log(message, level)] *)
Definition log (level : log_level) (msg : log_msg) : M unit :=
  fun s => (add_logs [(level, msg)] s, Ok tt).

Definition record_built (tx : Transaction) : M unit :=
  fun s =>
    ({| st_registry := st_registry s; st_log := st_log s;
        st_built := st_built s ++ [tx]; st_sent := st_sent s;
        st_callbacks := st_callbacks s;
        successful := successful s; failed := failed s |}, Ok tt).

Definition record_sent (raw : bytes) : M unit :=
  fun s =>
    ({| st_registry := st_registry s; st_log := st_log s;
        st_built := st_built s; st_sent := st_sent s ++ [raw];
        st_callbacks := st_callbacks s;
        successful := successful s; failed := failed s |}, Ok tt).

(** [successful += 1] *)
Definition incr_successful : M unit :=
  fun s =>
    ({| st_registry := st_registry s; st_log := st_log s;
        st_built := st_built s; st_sent := st_sent s;
        st_callbacks := st_callbacks s;
        successful := successful s + 1; failed := failed s |}, Ok tt).

(** [failed += 1] *)
Definition incr_failed : M unit :=
  fun s =>
    ({| st_registry := st_registry s; st_log := st_log s;
        st_built := st_built s; st_sent := st_sent s;
        st_callbacks := st_callbacks s;
        successful := successful s; failed := failed s + 1 |}, Ok tt).

(** [self.file_registry_callback(file_id, pin_info)] *)
Definition call_registry_callback
    (cb : string -> pydict -> registry -> result registry)
    (file_id : string) (pin_info : pydict) : M unit :=
  fun s =>
    let s1 := {| st_registry := st_registry s; st_log := st_log s;
                 st_built := st_built s; st_sent := st_sent s;
                 st_callbacks := st_callbacks s ++ [(file_id, pin_info)];
                 successful := successful s; failed := failed s |} in
    match cb file_id pin_info (st_registry s) with
    | Ok reg' =>
        ({| st_registry := reg'; st_log := st_log s1;
            st_built := st_built s1; st_sent := st_sent s1;
            st_callbacks := st_callbacks s1;
            successful := successful s1; failed := failed s1 |}, Ok tt)
    | Raise e => (s1, Raise e)
    end.

(** The callback [EncryptumGUI.setup_blockchain_tab] installs. *)
Definition gui_callback : string -> pydict -> registry -> result registry :=
  fun file_id pin_info reg => Ok (update_file_pinning_status file_id pin_info reg).

(** The [pin_info] dict passed to the callback; [now] is
    [datetime.now().isoformat()]. *)
Definition make_pin_info
    (tx_hash : bytes) (now : string) (duration : Z) (network : string)
    (actual_gas_used : Z) (gas_price_gwei : float) : pydict :=
  <["blockchain_pinned" := VBool true]>
  (<["pin_tx" := VStr (hex_of_bytes (map Z_of_byte tx_hash))]>
  (<["pin_date" := VStr now]>
  (<["pin_duration_days" := VInt duration]>
  (<["pin_network" := VStr network]>
  (<["pin_gas_used" := VInt actual_gas_used]>
  (<["pin_gas_price_gwei" := VFloat gas_price_gwei]> ∅)))))).

Section Panel.

Context `{Runtime}.
Variable config : EncryptumConfig.
Variable self : Panel.

(** [get_manual_gas_price()]; [depth] is the number of Python frames left
    before the interpreter raises [RecursionError]. *)
Fixpoint get_manual_gas_price (ledger : Ledger) (depth : nat) : M Z :=
  match depth with
  | O => raise (Exn RecursionError "maximum recursion depth exceeded")
  | S depth' =>
      let gas_price_str := strip (gas_price_var self) in
      if String.eqb (lower gas_price_str) "auto" || String.eqb gas_price_str ""
      then
        gas_price_wei <~ lift (eth_gas_price ledger) ;;
        gas_price_wei <~ lift (PyFloat.int_mul_trunc gas_price_wei (gas_price_buffer config)) ;;
        min_gas_wei <~ lift (to_wei (min_gas_price_gwei config) Gwei) ;;
        ret (if gas_price_wei <? min_gas_wei then min_gas_wei else gas_price_wei)
      else
        catch_ValueError
          (gas_price_gwei <~ lift (float_of_str gas_price_str) ;;
           gas_price_gwei <~
             (if PyFloat.ltb gas_price_gwei (min_gas_price_gwei config)
              then log Warning (MsgGasPriceTooLow (min_gas_price_gwei config)) ;;;
                   ret (min_gas_price_gwei config)
              else ret gas_price_gwei) ;;
           lift (to_wei gas_price_gwei Gwei))
          (log Warning MsgInvalidGasPrice ;;;
           get_manual_gas_price ledger depth')
  end.

(** The gas limit of one transaction: the inner [try] of [pin_thread]. *)
Definition estimate_gas_limit (ledger : Ledger) : M Z :=
  catch
    (estimated_gas <~ lift (pinFile_estimate_gas ledger) ;;
     gas_limit <~ lift (PyFloat.int_mul_trunc estimated_gas (gas_limit_buffer config)) ;;
     let gas_limit :=
       if gas_limit >? max_gas_limit config then max_gas_limit config else gas_limit in
     log Info (MsgEstimatedGas estimated_gas gas_limit) ;;;
     ret gas_limit)
    (fun gas_error =>
       log Warning (MsgGasEstimationFailed (str_exn gas_error)) ;;;
       ret (default_gas_limit config)).

(** The hint that follows a failure, chosen from the error text. *)
Definition log_hint (error_msg : string) : M unit :=
  let m := lower error_msg in
  if contains "insufficient funds" m then log Warning MsgInsufficientFunds
  else if contains "gas required exceeds" m then log Warning MsgGasLimitTooLow
  else if contains "replacement transaction underpriced" m then log Warning MsgGasPriceTooLowHint
  else if contains "nonce too low" m then log Warning MsgNonceIssue
  else ret tt.

(** The body of the outer [try] in the loop of [pin_thread], for the file at
    index [i]; [now] is the clock read when the pin is recorded. *)
Definition pin_attempt
    (ledger : Ledger) (depth : nat) (now : string) (i : nat) (file : FileSel) : M unit :=
  log Info (MsgPinning (Z.of_nat i + 1) (Z.of_nat (length (selected_files self)))
              (original_name file)) ;;;
  let duration_seconds := duration_var self * 86400 in
  cost_wei <~ lift (calculatePinCost_call ledger) ;;
  nonce <~ lift (eth_get_transaction_count ledger) ;;
  gas_price_wei <~ get_manual_gas_price ledger depth ;;
  gas_price_gwei <~ lift (from_wei_float gas_price_wei Gwei) ;;
  log Info (MsgUsingGasPrice gas_price_gwei) ;;;
  gas_limit <~ estimate_gas_limit ledger ;;
  chain_id <~ lift (eth_chain_id ledger) ;;
  let params := {| tx_from := account self; tx_value := cost_wei; tx_gas := gas_limit;
                   tx_gasPrice := gas_price_wei; tx_nonce := nonce;
                   tx_chainId := chain_id |} in
  let call := {| call_file_cid := file_cid file; call_metadata_cid := metadata_cid file;
                 call_file_size := original_size file; call_duration := duration_seconds;
                 call_name := original_name file |} in
  lift (pinFile_build_transaction ledger) ;;;
  let transaction := {| tx_call := call; tx_params := params |} in
  record_built transaction ;;;
  tx_cost_eth <~ lift (from_wei_float (cost_wei + gas_limit * gas_price_wei) Ether) ;;
  log Info (MsgTransactionCost tx_cost_eth) ;;;
  tx_hash <~
    catch
      (let pk := private_key self in
       let pk := if startswith "0x" pk then pk else "0x" +:+ pk in
       raw_tx <~ lift (sign_transaction transaction pk) ;;
       record_sent raw_tx ;;;
       tx_hash <~ lift (eth_send_raw_transaction ledger) ;;
       log Info (MsgTransactionSent tx_hash) ;;;
       ret tx_hash)
      (fun signing_error =>
         log Error (MsgSigningError (str_exn signing_error)) ;;;
         raise signing_error) ;;
  log Info MsgWaiting ;;;
  receipt <~ lift (eth_wait_for_transaction_receipt ledger) ;;
  if status receipt =? 1 then
    let actual_gas_used := gasUsed receipt in
    actual_gas_cost <~ lift (from_wei_float (actual_gas_used * gas_price_wei) Ether) ;;
    log Success (MsgPinned actual_gas_used actual_gas_cost) ;;;
    incr_successful ;;;
    match file_registry_callback self with
    | Some cb =>
        call_registry_callback cb (file_id file)
          (make_pin_info tx_hash now (duration_var self) (network_var self)
             actual_gas_used gas_price_gwei)
    | None => ret tt
    end
  else
    log Error (MsgTransactionFailed (original_name file)) ;;;
    incr_failed.

(** One iteration of the loop: the attempt and its [except Exception] handler. *)
Definition pin_one
    (ledger : Ledger) (depth : nat) (now : string) (i : nat) (file : FileSel) : M unit :=
  catch
    (pin_attempt ledger depth now i file)
    (fun e =>
       let error_msg := str_exn e in
       log Error (MsgFailedToPin (original_name file) error_msg) ;;;
       log_hint error_msg ;;;
       incr_failed).

(** [for i, file in enumerate(self.selected_files)], from index [i] on; the
    node's answers and the clock are given per index. *)
Fixpoint pin_loop
    (chain : nat -> Ledger) (depth : nat) (clock : nat -> string)
    (i : nat) (files : list FileSel) : M unit :=
  match files with
  | [] => ret tt
  | file :: rest =>
      pin_one (chain i) depth (clock i) i file ;;;
      pin_loop chain depth clock (S i) rest
  end.

Inductive pinning_outcome :=
| PinningComplete (successful failed : Z)   (* [on_pinning_complete] *)
| PinningError (error : string).            (* [on_pinning_error] *)

(** [execute_pinning()]: the work of [pin_thread], run to its end. *)
Definition execute_pinning
    (chain : nat -> Ledger) (depth : nat) (clock : nat -> string)
    (s : State) : State * pinning_outcome :=
  let s0 := {| st_registry := st_registry s; st_log := st_log s;
               st_built := st_built s; st_sent := st_sent s;
               st_callbacks := st_callbacks s;
               successful := 0; failed := 0 |} in
  match pin_loop chain depth clock 0 (selected_files self) s0 with
  | (s1, Ok _) =>
      let '(s2, _) :=
        log (if failed s1 =? 0 then Success else Warning)
            (MsgSummary (successful s1) (failed s1)) s1 in
      (s2, PinningComplete (successful s1) (failed s1))
  | (s1, Raise e) =>
      let '(s2, _) := log Error (MsgProcessError (str_exn e)) s1 in
      (s2, PinningError (str_exn e))
  end.

(** The quote of [pin_files]: pin cost plus estimated gas cost, in ETH, and
    the gas price in Gwei. *)
Definition quote_total_cost (ledger : Ledger) (depth : nat) : M (float * float) :=
  cost_wei <~ lift (calculatePinCost_call ledger) ;;
  cost_eth <~ lift (from_wei_float cost_wei Ether) ;;
  gas_price_wei <~ get_manual_gas_price ledger depth ;;
  gas_price_gwei <~ lift (from_wei_float gas_price_wei Gwei) ;;
  let estimated_gas_per_file := 350000 in
  let total_gas := estimated_gas_per_file * Z.of_nat (length (selected_files self)) in
  gas_cost_eth <~ lift (from_wei_float (total_gas * gas_price_wei) Ether) ;;
  let total_cost := PyFloat.add cost_eth gas_cost_eth in
  ret (total_cost, gas_price_gwei).

Inductive pin_files_outcome :=
| NoFiles                                   (* "Please select files" *)
| BalanceQueryFailed (error : string)       (* raised before the [try] *)
| InsufficientBalance (required balance : float)
| Declined                                  (* the user answered no *)
| EstimateFailed (error : string)           (* "Failed to estimate cost" *)
| Started (outcome : pinning_outcome).      (* [execute_pinning] ran *)

(** [pin_files()]; [ledger] answers the pre-flight queries, [confirm] is the
    user's answer to "Proceed with transaction?". *)
Definition pin_files
    (ledger : Ledger) (confirm : bool)
    (chain : nat -> Ledger) (depth : nat) (clock : nat -> string)
    (s : State) : State * pin_files_outcome :=
  match selected_files self with
  | [] => (s, NoFiles)
  | _ =>
      match (balance_wei <- eth_get_balance ledger ;; from_wei_float balance_wei Ether) with
      | Raise e => (s, BalanceQueryFailed (str_exn e))
      | Ok balance_eth =>
          match quote_total_cost ledger depth s with
          | (s1, Raise e) => (s1, EstimateFailed (str_exn e))
          | (s1, Ok (total_cost, gas_price_gwei)) =>
              let required := PyFloat.mul total_cost float_1_1 in
              if PyFloat.ltb balance_eth required
              then (s1, InsufficientBalance required balance_eth)
              else if negb confirm then (s1, Declined)
              else
                let '(s2, outcome) := execute_pinning chain depth clock s1 in
                (s2, Started outcome)
          end
      end
  end.

(** *** Vocabulary for the statements about the panel *)

(** The test that selects automatic pricing in [get_manual_gas_price]. *)
Definition is_automatic : bool :=
  let gas_price_str := strip (gas_price_var self) in
  String.eqb (lower gas_price_str) "auto" || String.eqb gas_price_str "".

(** What [get_manual_gas_price] returns or raises (its only effect is on the log). *)
Definition resolved_gas_price (ledger : Ledger) (depth : nat) : result Z :=
  snd (get_manual_gas_price ledger depth (initial_state ∅)).

(** The gas limit [estimate_gas_limit] settles on. *)
Definition gas_limit_of (ledger : Ledger) : Z :=
  match
    (estimated_gas <- pinFile_estimate_gas ledger ;;
     PyFloat.int_mul_trunc estimated_gas (gas_limit_buffer config))
  with
  | Ok buffered => Z.min buffered (max_gas_limit config)
  | Raise _ => default_gas_limit config
  end.

(** The key handed to [sign_transaction]. *)
Definition signing_key : string :=
  if startswith "0x" (private_key self) then private_key self
  else "0x" +:+ private_key self.

(** The transaction built for [file]. *)
Definition transaction_for
    (file : FileSel) (cost_wei gas_limit gas_price_wei nonce chain_id : Z) : Transaction :=
  {| tx_call := {| call_file_cid := file_cid file; call_metadata_cid := metadata_cid file;
                   call_file_size := original_size file;
                   call_duration := duration_var self * 86400;
                   call_name := original_name file |};
     tx_params := {| tx_from := account self; tx_value := cost_wei; tx_gas := gas_limit;
                     tx_gasPrice := gas_price_wei; tx_nonce := nonce;
                     tx_chainId := chain_id |} |}.

(** The values met along a run of [pin_attempt] in which every step succeeds. *)
Record PinRun := {
  run_cost : Z;
  run_nonce : Z;
  run_price : Z;
  run_gwei : float;
  run_chain : Z;
  run_tx_cost : float;
  run_raw : bytes;
  run_hash : bytes;
  run_receipt : Receipt;
  run_gas_cost : float
}.

Definition run_transaction (ledger : Ledger) (file : FileSel) (r : PinRun) : Transaction :=
  transaction_for file (run_cost r) (gas_limit_of ledger) (run_price r)
    (run_nonce r) (run_chain r).

(** Every step of the attempt for [file] succeeds, with a receipt of status 1. *)
Definition went_through
    (ledger : Ledger) (depth : nat) (file : FileSel) (r : PinRun) : Prop :=
  calculatePinCost_call ledger = Ok (run_cost r) /\
  eth_get_transaction_count ledger = Ok (run_nonce r) /\
  resolved_gas_price ledger depth = Ok (run_price r) /\
  from_wei_float (run_price r) Gwei = Ok (run_gwei r) /\
  eth_chain_id ledger = Ok (run_chain r) /\
  pinFile_build_transaction ledger = Ok tt /\
  from_wei_float (run_cost r + gas_limit_of ledger * run_price r) Ether
    = Ok (run_tx_cost r) /\
  sign_transaction (run_transaction ledger file r) signing_key = Ok (run_raw r) /\
  eth_send_raw_transaction ledger = Ok (run_hash r) /\
  eth_wait_for_transaction_receipt ledger = Ok (run_receipt r) /\
  status (run_receipt r) = 1 /\
  from_wei_float (gasUsed (run_receipt r) * run_price r) Ether = Ok (run_gas_cost r).

Definition goes_through (ledger : Ledger) (depth : nat) (file : FileSel) : Prop :=
  exists r : PinRun, went_through ledger depth file r.




(** The "Pinning file i/n: name" lines of a log, in order. *)
Definition pinning_line (entry : log_level * log_msg) : option (Z * Z * string) :=
  match snd entry with
  | MsgPinning i n name => Some (i, n, name)
  | _ => None
  end.

Definition pinning_lines (lines : list (log_level * log_msg)) : list (Z * Z * string) :=
  omap pinning_line lines.

(** The lines the loop is expected to open each file with, from index [i] on. *)
Fixpoint expected_lines (i : nat) (files : list FileSel) : list (Z * Z * string) :=
  match files with
  | [] => []
  | file :: rest =>
      (Z.of_nat i + 1, Z.of_nat (length (selected_files self)), original_name file)
        :: expected_lines (S i) rest
  end.

(** The run of [pin_attempt] for [file], computed step by step, when every
    step succeeds. *)
Definition find_run (ledger : Ledger) (depth : nat) (file : FileSel) : result PinRun :=
  cost <- calculatePinCost_call ledger ;;
  nonce <- eth_get_transaction_count ledger ;;
  price <- resolved_gas_price ledger depth ;;
  gwei <- from_wei_float price Gwei ;;
  chain_id <- eth_chain_id ledger ;;
  _ <- pinFile_build_transaction ledger ;;
  tx_cost <- from_wei_float (cost + gas_limit_of ledger * price) Ether ;;
  raw <- sign_transaction
           (transaction_for file cost (gas_limit_of ledger) price nonce chain_id)
           signing_key ;;
  tx_hash <- eth_send_raw_transaction ledger ;;
  receipt <- eth_wait_for_transaction_receipt ledger ;;
  if status receipt =? 1 then
    gas_cost <- from_wei_float (gasUsed receipt * price) Ether ;;
    Ok {| run_cost := cost; run_nonce := nonce; run_price := price; run_gwei := gwei;
          run_chain := chain_id; run_tx_cost := tx_cost; run_raw := raw;
          run_hash := tx_hash; run_receipt := receipt; run_gas_cost := gas_cost |}
  else Raise (Exn Exception_ "transaction failed").

(** The files, from index [i] on, whose attempt goes through. *)
Inductive through (chain : nat -> Ledger) (depth : nat)
  : nat -> list FileSel -> list FileSel -> Prop :=
| through_nil i : through chain depth i [] []
| through_yes i file rest done :
    goes_through (chain i) depth file ->
    through chain depth (S i) rest done ->
    through chain depth i (file :: rest) (file :: done)
| through_no i file rest done :
    ~ goes_through (chain i) depth file ->
    through chain depth (S i) rest done ->
    through chain depth i (file :: rest) done.

End Panel.

(** The effect of one loop iteration that pins [file]. *)
Definition pinned_effect (file : FileSel) (tx : Transaction) (raw : bytes) (info : pydict)
    (s s' : State) : Prop :=
  successful s' = successful s + 1 /\ failed s' = failed s /\
  st_built s' = st_built s ++ [tx] /\ st_sent s' = st_sent s ++ [raw] /\
  st_callbacks s' = st_callbacks s ++ [(file_id file, info)] /\
  st_registry s' = update_file_pinning_status (file_id file) info (st_registry s).

(** At most one transaction was built, with gas limit [limit]. *)
Definition built_at_most_one (limit : Z) (s s' : State) : Prop :=
  st_built s' = st_built s \/
  exists tx, st_built s' = st_built s ++ [tx] /\ tx_gas (tx_params tx) = limit.

(** The effect of one loop iteration that fails. *)
Definition failed_effect (limit : Z) (s s' : State) : Prop :=
  successful s' = successful s /\ failed s' = failed s + 1 /\
  st_callbacks s' = st_callbacks s /\ st_registry s' = st_registry s /\
  built_at_most_one limit s s'.

(** The state is the same but for the log. *)
Definition same_but_log (s s' : State) : Prop :=
  st_registry s' = st_registry s /\ st_built s' = st_built s /\
  st_sent s' = st_sent s /\ st_callbacks s' = st_callbacks s /\
  successful s' = successful s /\ failed s' = failed s.

(** The registry after the callbacks [calls], in order. *)
Definition apply_callbacks (calls : list (string * pydict)) (reg : registry) : registry :=
  fold_left (fun reg cb => update_file_pinning_status (fst cb) (snd cb) reg) calls reg.

(** A dict of the shape [pin_thread] passes to the callback. *)
Definition is_pin_info (info : pydict) : Prop :=
  exists tx_hash now duration network gas_used gwei,
    info = make_pin_info tx_hash now duration network gas_used gwei.

(** *** A reference [Runtime]

    Used to run the panel on concrete inputs. Text is read as a decimal
    numeral with an optional sign, fraction and exponent, or as [inf] or [nan];
    amounts are converted exactly ([to_wei] keeps the whole number of wei in
    the float's value). *)

Definition is_digit (c : ascii) : bool :=
  let n := N_of_ascii c in ((48 <=? n) && (n <=? 57))%N.

Definition digit_value (c : ascii) : Z := Z.of_N (N_of_ascii c) - 48.

(** Leading digits of [s]: their value on top of [acc], how many, the rest. *)
Fixpoint read_digits (s : string) (acc : Z) (count : Z) : Z * Z * string :=
  match s with
  | String c rest =>
      if is_digit c then read_digits rest (10 * acc + digit_value c) (count + 1)
      else (acc, count, s)
  | EmptyString => (acc, count, s)
  end.

Definition read_sign (s : string) : bool * string :=
  match s with
  | String "-" rest => (true, rest)
  | String "+" rest => (false, rest)
  | _ => (false, s)
  end.

Definition could_not_convert : exn :=
  Exn ValueError "could not convert string to float".

Definition read_exponent (s : string) : option Z :=
  match s with
  | EmptyString => Some 0
  | String c rest =>
      if String.eqb (lower (String c EmptyString)) "e" then
        let '(neg, rest) := read_sign rest in
        let '(e, n, rest) := read_digits rest 0 0 in
        if (0 <? n) && String.eqb rest "" then Some (if neg then - e else e)
        else None
      else None
  end.

Definition ref_float_of_str (text : string) : result float :=
  let '(neg, body) := read_sign (strip text) in
  let name := lower body in
  if String.eqb name "inf" || String.eqb name "infinity" then Ok (S754_infinity neg)
  else if String.eqb name "nan" then Ok S754_nan
  else
    let '(ip, ni, rest) := read_digits body 0 0 in
    let '(mant, nf, rest) :=
      match rest with
      | String "." rest' => read_digits rest' ip 0
      | _ => (ip, 0, rest)
      end in
    if ni + nf =? 0 then Raise could_not_convert
    else
      match read_exponent rest with
      | None => Raise could_not_convert
      | Some e =>
          let scale := e - nf in
          let v := if neg then - mant else mant in
          if mant =? 0 then Ok (S754_zero neg)
          else if 0 <=? scale then Ok (PyFloat.of_ratio (v * 10 ^ scale) 1)
          else Ok (PyFloat.of_ratio v (Z.to_pos (10 ^ (- scale))))
      end.

Definition unit_digits (u : wei_unit) : Z :=
  match u with Gwei => 9 | Ether => 18 end.

Definition MAX_WEI : Z := 2 ^ 256 - 1.

Definition ref_to_wei (x : float) (u : wei_unit) : result Z :=
  match x with
  | S754_nan => Raise (Exn Exception_ "InvalidOperation")
  | _ =>
      match PyFloat.scaled_floor x (unit_digits u) with
      | Some v =>
          if v <=? MAX_WEI then Ok v
          else Raise (Exn ValueError "Resulting wei value must be between 1 and 2**256 - 1")
      | None => Raise (Exn ValueError "Resulting wei value must be between 1 and 2**256 - 1")
      end
  end.

Definition ref_from_wei_float (n : Z) (u : wei_unit) : result float :=
  if n =? 0 then Ok (S754_zero false)
  else if (n <? 0) || (MAX_WEI <? n)
  then Raise (Exn ValueError "value must be between 1 and 2**256 - 1")
  else Ok (PyFloat.of_ratio n (Z.to_pos (10 ^ unit_digits u))).

(** A stand-in for signing: the raw transaction spells out the sender's nonce
    and the gas limit after the key. *)
Definition ref_sign_transaction (tx : Transaction) (pk : string) : result bytes :=
  Ok (bytes_of_string pk
      ++ map byte_of_Z (Sha256.be_bytes 8 (tx_nonce (tx_params tx)))
      ++ map byte_of_Z (Sha256.be_bytes 8 (tx_gas (tx_params tx)))).

#[export] Instance reference_runtime : Runtime := {|
  float_of_str := ref_float_of_str;
  to_wei := ref_to_wei;
  from_wei_float := ref_from_wei_float;
  sign_transaction := ref_sign_transaction
|}.

(** *** Scenarios *)

Definition demo_files : list FileSel :=
  [ {| file_id := "aaaa000000000001"; file_cid := "QmFile1"; metadata_cid := "QmMeta1";
       original_size := 1024; original_name := "a.txt" |};
    {| file_id := "bbbb000000000002"; file_cid := "QmFile2"; metadata_cid := "QmMeta2";
       original_size := 2048; original_name := "b.txt" |};
    {| file_id := "cccc000000000003"; file_cid := "QmFile3"; metadata_cid := "QmMeta3";
       original_size := 4096; original_name := "c.txt" |} ].

Definition second_file : FileSel :=
  {| file_id := "bbbb000000000002"; file_cid := "QmFile2"; metadata_cid := "QmMeta2";
     original_size := 2048; original_name := "b.txt" |}.

(** The panel as [EncryptumGUI] wires it, with three files selected and
    [gas_price] typed in the gas price field. *)
Definition demo_panel (gas_price : string) : Panel :=
  {| gas_price_var := gas_price; duration_var := 30; network_var := "sepolia";
     account := "0xA11CE"; private_key := "ab12"; selected_files := demo_files;
     file_registry_callback := Some gui_callback |}.

Definition node_error : exn := Exn ConnectionError_ "execution reverted".

(** A node at 20 Gwei that answers every call; [balance], [estimate] and
    [send] are the answers that vary between scenarios. *)
Definition demo_ledger (balance : Z) (estimate : result Z) (send : result bytes) : Ledger :=
  {| eth_gas_price := Ok 20000000000;
     eth_chain_id := Ok 11155111;
     eth_get_balance := Ok balance;
     eth_get_transaction_count := Ok 7;
     calculatePinCost_call := Ok 1000000000000000;
     pinFile_estimate_gas := estimate;
     pinFile_build_transaction := Ok tt;
     eth_send_raw_transaction := send;
     eth_wait_for_transaction_receipt := Ok {| status := 1; gasUsed := 90000 |} |}.

Definition good_ledger : Ledger :=
  demo_ledger (10 ^ 18) (Ok 100000) (Ok (bytes_of_string "tx")).



(** The second file's submission is refused. *)
Definition chain_rejecting_second (i : nat) : Ledger :=
  if (i =? 1)%nat then demo_ledger (10 ^ 18) (Ok 100000) (Raise node_error)
  else good_ledger.

(** Gas estimation fails for the second file only. *)
Definition chain_no_estimate_for_second (i : nat) : Ledger :=
  if (i =? 1)%nat then demo_ledger (10 ^ 18) (Raise node_error) (Ok (bytes_of_string "tx"))
  else good_ledger.

Definition demo_clock (i : nat) : string := "2025-01-01T00:00:00".

Definition unpinned (cid : string) : pydict :=
  <["blockchain_pinned" := VBool false]> (<["file_cid" := VStr cid]> ∅).

Definition three_files_registry : registry :=
  <["aaaa000000000001" := unpinned "QmFile1"]>
  (<["bbbb000000000002" := unpinned "QmFile2"]>
  (<["cccc000000000003" := unpinned "QmFile3"]> ∅)).


Definition no_estimate_run : State * pinning_outcome :=
  execute_pinning default_config (demo_panel "Auto") chain_no_estimate_for_second 1000
    demo_clock (initial_state three_files_registry).



End Blockchain.

(** * ipfs_handler.py and gui_app_blockchain.py: retrieval and download *)

Module Download.

Import Registry.

(** A [requests] response, as far as the handler reads it. *)
Record Response := {
  status_code : Z;
  content : bytes;
  text : string
}.

(** What [json.loads] returns: an object, or another JSON value, of which
    only the text of the [TypeError] that indexing it by a key raises is
    kept. *)
Inductive json_value :=
| JObject (d : pydict)
| JOther (index_error : string).

(** The node's HTTP API as [retrieve_file] and [retrieve_metadata] reach it,
    and the JSON parser they use. *)
Class IpfsGateway := {
  (** POST [/api/v0/cat] with [params={'arg': cid}]; raises when the request
      itself fails. *)
  post_cat : pyval -> result Response;
  (** [json.loads(content.decode())] *)
  json_loads : bytes -> result json_value
}.

(** What the [try] block of a worker thread has reached: a value, or the text
    [str(e)] of the exception that ended it, which is all its handler reads. *)
Inductive attempt (A : Type) :=
| Got (a : A)
| Failed (error : string).
Arguments Got {A} a.
Arguments Failed {A} error.

Definition and_then {A B} (r : attempt A) (k : A -> attempt B) : attempt B :=
  match r with
  | Got a => k a
  | Failed error => Failed error
  end.

Notation "x <<- r ;; k" := (and_then r (fun x => k))
  (at level 100, r at next level, right associativity, only parsing).

Definition of_result {A} (r : result A) : attempt A :=
  match r with
  | Ok a => Got a
  | Raise e => Failed (str_exn e)
  end.

(** [type(v).__name__] *)
Definition type_name (v : pyval) : string :=
  match v with
  | VNone => "NoneType"
  | VBool _ => "bool"
  | VInt _ => "int"
  | VFloat _ => "float"
  | VStr _ => "str"
  | VDict _ => "dict"
  end.

(** The whitespace [bytes.fromhex] skips between bytes. *)
Definition is_hex_space (c : ascii) : bool :=
  let n := N_of_ascii c in
  ((9 <=? n) && (n <=? 13))%N || (n =? 32)%N.

(** [bytes.fromhex(s)] for a text [s]: two adjacent digits per byte,
    whitespace allowed between bytes; [None] stands for its [ValueError]. *)
Fixpoint fromhex_text (s : string) : option bytes :=
  match s with
  | EmptyString => Some []
  | String c1 rest =>
      if is_hex_space c1 then fromhex_text rest
      else
        match rest with
        | String c2 rest' =>
            match hex_value c1, hex_value c2, fromhex_text rest' with
            | Some h, Some l, Some bs => Some (byte_of_Z (16 * h + l) :: bs)
            | _, _, _ => None
            end
        | EmptyString => None
        end
  end.

(** [bytes.fromhex(v)] for any value (the position of the offending
    character is left out of the message of the [ValueError]). *)
Definition fromhex (v : pyval) : attempt bytes :=
  match v with
  | VStr s =>
      match fromhex_text s with
      | Some bs => Got bs
      | None => Failed "non-hexadecimal number found in fromhex() arg"
      end
  | _ => Failed ("fromhex() argument must be str, not " +:+ type_name v)
  end.

(** [current_hash == original_hash] inside [verify_file_integrity], for any
    value of [original_hash]: a value that is not a text is never equal. *)
Definition verify_against (decrypted_data : bytes) (original_hash : pyval) : bool :=
  match original_hash with
  | VStr h => Encryption.verify_file_integrity decrypted_data h
  | _ => false
  end.

Inductive download_outcome :=
| DownloadSuccess (save_path : string)     (* [on_download_success] *)
| DownloadError (error : string).          (* [on_download_error] *)

Inductive download_request :=
| NoSelection                              (* "Please select a file" *)
| NotInRegistry                            (* "File not found in registry" *)
| Cancelled                                (* no password, or no save path *)
| Downloaded (outcome : download_outcome). (* the thread ran *)

Section Retrieval.

Context `{Encryption.Cryptography} `{IpfsGateway}.

(** [self.crypto.iterations] *)
Variable iterations : Z.

(** [repr] of a text, which is what [str] of a [KeyError] shows. *)
Variable repr_str : string -> string.

(** The answer of the system to [open(save_path, 'wb')]. *)
Variable open_wb : string -> result unit.

(** [EncryptumIPFS.retrieve_file] *)
Definition retrieve_file (cid : pyval) : result bytes :=
  try_except
    (response <- post_cat cid ;;
     if negb (status_code response =? 200)
     then Raise (Exn Exception_
                   ("Failed to retrieve file: HTTP " +:+ pretty (status_code response)
                    +:+ ": " +:+ text response))
     else Ok (content response))
    (fun e => Raise (Exn Exception_ ("IPFS retrieval failed: " +:+ str_exn e))).

(** [EncryptumIPFS.retrieve_metadata] *)
Definition retrieve_metadata (metadata_cid : pyval) : result json_value :=
  try_except
    (response <- post_cat metadata_cid ;;
     if negb (status_code response =? 200)
     then Raise (Exn Exception_
                   ("Failed to retrieve metadata: HTTP " +:+ pretty (status_code response)))
     else json_loads (content response))
    (fun e => Raise (Exn Exception_ ("Metadata retrieval failed: " +:+ str_exn e))).

(** [d[k]] on a dict. *)
Definition getitem {V} (d : gmap string V) (k : string) : attempt V :=
  match d !! k with
  | Some v => Got v
  | None => Failed (repr_str k)
  end.

(** [metadata[k]] on what [json.loads] returned. *)
Definition index (metadata : json_value) (k : string) : attempt pyval :=
  match metadata with
  | JObject d => getitem d k
  | JOther index_error => Failed index_error
  end.

(** The [try] block of [download_file_thread]: the content to write. *)
Definition download_attempt (file_id password save_path : string) (reg : registry)
  : attempt bytes :=
  file_info <<- getitem reg file_id ;;
  file_cid <<- getitem file_info "file_cid" ;;
  encrypted_data <<- of_result (retrieve_file file_cid) ;;
  metadata_cid <<- getitem file_info "metadata_cid" ;;
  metadata <<- of_result (retrieve_metadata metadata_cid) ;;
  salt_text <<- index metadata "salt" ;;
  salt <<- fromhex salt_text ;;
  decrypted_data <<-
    of_result (Encryption.decrypt_file iterations encrypted_data password salt) ;;
  original_hash <<- index metadata "original_hash" ;;
  if verify_against decrypted_data original_hash
  then
    _ <<- of_result (open_wb save_path) ;;
    Got decrypted_data
  else Failed "File integrity check failed".

(** [download_file_thread(file_id, password, save_path)] on the disk. *)
Definition download_file_thread
    (file_id password save_path : string) (reg : registry) (fs : gmap string bytes)
  : gmap string bytes * download_outcome :=
  match download_attempt file_id password save_path reg with
  | Got decrypted_data => (<[save_path := decrypted_data]> fs, DownloadSuccess save_path)
  | Failed error => (fs, DownloadError error)
  end.

(** [download_file()]: [selection] holds the selected rows [(file_id, name)],
    [askstring] is the answer to the password dialog and [asksaveasfilename]
    the answer to the save dialog (empty when it is dismissed). *)
Definition download_file
    (selection : list (string * string)) (askstring : option string)
    (asksaveasfilename : string) (reg : registry) (fs : gmap string bytes)
  : gmap string bytes * download_request :=
  match selection with
  | [] => (fs, NoSelection)
  | (file_id, _) :: _ =>
      match reg !! file_id with
      | None => (fs, NotInRegistry)
      | Some _ =>
          match askstring with
          | None => (fs, Cancelled)
          | Some password =>
              if String.eqb password "" || String.eqb asksaveasfilename ""
              then (fs, Cancelled)
              else
                let '(fs', outcome) :=
                  download_file_thread file_id password asksaveasfilename reg fs in
                (fs', Downloaded outcome)
          end
      end
  end.

End Retrieval.

(** The node gives back what an upload stored: the ciphertext under the
    record's [file_cid], and under its [metadata_cid] a JSON object that still
    has the [salt] and the [original_hash] of the upload. *)
Definition serves_back `{Encryption.Cryptography} `{IpfsGateway}
    (ipfs_result : pydict) (encrypted_result : Encryption.EncryptionResult) : Prop :=
  exists cid mcid r1 r2 metadata,
    ipfs_result !! "file_cid" = Some cid /\
    ipfs_result !! "metadata_cid" = Some mcid /\
    post_cat cid = Ok r1 /\ status_code r1 = 200 /\
    content r1 = Encryption.encrypted_data encrypted_result /\
    post_cat mcid = Ok r2 /\ status_code r2 = 200 /\
    json_loads (content r2) = Ok (JObject metadata) /\
    metadata !! "salt" = upload_metadata encrypted_result !! "salt" /\
    metadata !! "original_hash" = upload_metadata encrypted_result !! "original_hash".

(** The metadata stored beside the ciphertext of [/tmp/abc.txt]. *)
Definition abc_metadata : pydict :=
  <["file_cid" := default VNone (abc_stored !! "file_cid")]>
  (<["upload_timestamp" := VStr "2025-01-01T00:00:00"]> (upload_metadata abc_encrypted)).

Definition pyval_eqb_str (v : pyval) (w : pyval) : bool :=
  match v, w with
  | VStr a, VStr b => String.eqb a b
  | _, _ => false
  end.

(** A node that holds the two blocks of that upload, and nothing else. *)
#[export] Instance demo_gateway : IpfsGateway := {|
  post_cat cid :=
    if pyval_eqb_str cid (default VNone (abc_stored !! "file_cid"))
    then Ok {| status_code := 200;
               content := Encryption.encrypted_data abc_encrypted; text := "" |}
    else if pyval_eqb_str cid (default VNone (abc_stored !! "metadata_cid"))
    then Ok {| status_code := 200; content := json_dumps abc_metadata; text := "" |}
    else Ok {| status_code := 500; content := []; text := "block not found" |};
  json_loads data :=
    if Encryption.bytes_eqb data (json_dumps abc_metadata)
    then Ok (JObject abc_metadata)
    else Raise (Exn ValueError "Expecting value")
|}.

(** [repr] for the texts of the scenarios, which need no escaping. *)
Definition quoted (s : string) : string := "'" +:+ s +:+ "'".

(** A disk that accepts every write. *)
Definition open_always (path : string) : result unit := Ok tt.


End Download.

(** * gui_app_blockchain.py: from the file list to the panel *)

Module Selection.

Import Registry Blockchain.

(** What [on_file_selection_changed] ends with: the list handed to
    [update_selected_files], or the [KeyError] that leaves the handler. *)
Inductive selection_result :=
| Selected (files : list pydict)
| MissingKey (key : string).

(** The dict appended for one row. *)
Definition selected_entry (file_id : string) (file_info : pydict) : string + pydict :=
  match file_info !! "file_cid" with
  | None => inl "file_cid"
  | Some file_cid =>
      match file_info !! "metadata_cid" with
      | None => inl "metadata_cid"
      | Some metadata_cid =>
          inr (<["file_id" := VStr file_id]>
              (<["file_cid" := file_cid]>
              (<["metadata_cid" := metadata_cid]>
              (<["original_size" := default (VInt 0) (file_info !! "original_size")]>
              (<["original_name" :=
                   default (VStr "Unknown") (file_info !! "original_name")]> ∅)))))
      end
  end.

(** The loop of [on_file_selection_changed] over the selected rows
    [(file_id, file_name)], with the list built so far. *)
Fixpoint selection_loop
    (selection : list (string * string)) (reg : registry) (selected_files : list pydict)
  : selection_result :=
  match selection with
  | [] => Selected selected_files
  | (file_id, _) :: rest =>
      match reg !! file_id with
      | Some file_info =>
          if negb (get_truthy file_info "blockchain_pinned")
          then
            match selected_entry file_id file_info with
            | inr entry => selection_loop rest reg (selected_files ++ [entry])
            | inl key => MissingKey key
            end
          else selection_loop rest reg selected_files
      | None => selection_loop rest reg selected_files
      end
  end.

Definition on_file_selection_changed
    (selection : list (string * string)) (reg : registry) : selection_result :=
  selection_loop selection reg [].

(** The rows that the loop keeps: known to the registry and not pinned. *)
Definition selectable (reg : registry) (file_id : string) : bool :=
  match reg !! file_id with
  | Some file_info => negb (get_truthy file_info "blockchain_pinned")
  | None => false
  end.


(** A registry holding the records of the three files of [demo_files], none
    of them pinned, and the three rows of the file list. *)
Definition listed (file : Blockchain.FileSel) : pydict :=
  <["blockchain_pinned" := VBool false]>
  (<["original_name" := VStr (Blockchain.original_name file)]>
  (<["original_size" := VInt (Blockchain.original_size file)]>
  (<["metadata_cid" := VStr (Blockchain.metadata_cid file)]>
  (<["file_cid" := VStr (Blockchain.file_cid file)]> ∅)))).

Definition listed_registry : registry :=
  foldr (fun file reg => <[Blockchain.file_id file := listed file]> reg) ∅
    Blockchain.demo_files.

Definition listed_rows : list (string * string) :=
  map (fun file => (Blockchain.file_id file, Blockchain.original_name file))
    Blockchain.demo_files.

(** The second file's submission is refused; the other two are pinned. *)
Definition listed_run : Blockchain.State * Blockchain.pinning_outcome :=
  Blockchain.execute_pinning Blockchain.default_config (Blockchain.demo_panel "Auto")
    Blockchain.chain_rejecting_second 1000 Blockchain.demo_clock
    (Blockchain.initial_state listed_registry).

End Selection.

(** * gui_app_blockchain.py: more about the pinning loop *)

Module Pinning.

Import Registry Blockchain.

(** The attempt for [file] reaches the node: every step up to
    [send_raw_transaction] succeeds, and [raw] is what was sent. *)
Definition handed_to_node `{Runtime}
    (config : EncryptumConfig) (self : Panel) (ledger : Ledger) (depth : nat)
    (file : FileSel) (raw : bytes) : Prop :=
  exists cost nonce price gwei chain tx_cost tx_hash,
    calculatePinCost_call ledger = Ok cost /\
    eth_get_transaction_count ledger = Ok nonce /\
    resolved_gas_price config self ledger depth = Ok price /\
    from_wei_float price Gwei = Ok gwei /\
    eth_chain_id ledger = Ok chain /\
    pinFile_build_transaction ledger = Ok tt /\
    from_wei_float (cost + gas_limit_of config ledger * price) Ether = Ok tx_cost /\
    sign_transaction
      (transaction_for self file cost (gas_limit_of config ledger) price nonce chain)
      (signing_key self) = Ok raw /\
    eth_send_raw_transaction ledger = Ok tx_hash.

(** The panel of the scenarios with another registry callback. *)
Definition panel_with_callback
    (cb : option (string -> pydict -> registry -> result registry)) : Panel :=
  {| gas_price_var := "Auto"; duration_var := 30; network_var := "sepolia";
     account := "0xA11CE"; private_key := "ab12"; selected_files := demo_files;
     file_registry_callback := cb |}.

(** A callback that fails, as the one of [EncryptumGUI] does when the file
    list cannot be redrawn. *)
Definition failing_callback : string -> pydict -> registry -> result registry :=
  fun _ _ _ => Raise (Exn Exception_ "main thread is not in main loop").

(** The run of the second file against [good_ledger]. *)
Definition second_run : PinRun :=
  Eval vm_compute in
    match
      find_run default_config (panel_with_callback (Some failing_callback)) good_ledger
        1000 second_file
    with
    | Ok r => r
    | Raise _ =>
        {| run_cost := 0; run_nonce := 0; run_price := 0; run_gwei := S754_zero false;
           run_chain := 0; run_tx_cost := S754_zero false; run_raw := []; run_hash := [];
           run_receipt := {| status := 0; gasUsed := 0 |};
           run_gas_cost := S754_zero false |}
    end.

(** A node that accepts the transaction and then gives no receipt in time. *)
Definition silent_ledger : Ledger :=
  {| eth_gas_price := eth_gas_price good_ledger;
     eth_chain_id := eth_chain_id good_ledger;
     eth_get_balance := eth_get_balance good_ledger;
     eth_get_transaction_count := eth_get_transaction_count good_ledger;
     calculatePinCost_call := calculatePinCost_call good_ledger;
     pinFile_estimate_gas := pinFile_estimate_gas good_ledger;
     pinFile_build_transaction := pinFile_build_transaction good_ledger;
     eth_send_raw_transaction := eth_send_raw_transaction good_ledger;
     eth_wait_for_transaction_receipt :=
       Raise (Exn TimeExhausted "Transaction is not in the chain after 120 seconds") |}.

End Pinning.

(** * gui_app_blockchain.py: the wallet of [BlockchainPanel] *)

Module Wallet.

Import Blockchain.

(** [self.account] and [self.private_key]; [None] until a wallet is loaded. *)
Record wallet := {
  wallet_account : option string;
  wallet_private_key : option string
}.

Inductive import_outcome :=
| NotConnected                       (* "Please connect to blockchain first" *)
| NoKeyEntered                       (* the dialog was dismissed or left empty *)
| WalletImported (address : string)  (* "Wallet imported: ..." *)
| ImportError (error : string).      (* "Failed to import private key" *)

Section ImportPrivateKey.

Context `{Runtime}.

(** [Account.from_key(private_key).address] *)
Variable from_key : string -> result string.

(** [self.w3.eth.get_balance(address)] *)
Variable eth_get_balance_of : string -> result Z.

(** [s[2:]] *)
Definition drop2 (s : string) : string := String.substring 2 (String.length s - 2) s.

(** [import_private_key()]; [connected] tells whether [self.w3] is set and
    [askstring] is the answer to the dialog. The length of a text is counted
    in bytes, which is Python's [len] for ASCII text. *)
Definition import_private_key
    (connected : bool) (askstring : option string) (w : wallet)
  : wallet * import_outcome :=
  if negb connected then (w, NotConnected)
  else
    match askstring with
    | None => (w, NoKeyEntered)
    | Some private_key =>
        if String.eqb private_key "" then (w, NoKeyEntered)
        else
          let private_key :=
            if startswith "0x" private_key then drop2 private_key else private_key in
          if negb (String.length private_key =? 64)%nat
          then (w, ImportError ("Invalid private key length: "
                                +:+ pretty (String.length private_key)
                                +:+ " (should be 64)"))
          else
            match from_key private_key with
            | Raise e => (w, ImportError (str_exn e))
            | Ok address =>
                let w' := {| wallet_account := Some address;
                             wallet_private_key := Some ("0x" +:+ private_key) |} in
                match
                  (balance_wei <- eth_get_balance_of address ;;
                   from_wei_float balance_wei Ether)
                with
                | Raise e => (w', ImportError (str_exn e))
                | Ok _ => (w', WalletImported address)
                end
            end
    end.

End ImportPrivateKey.

(** A stand-in for [Account.from_key]: hexadecimal keys are accepted. *)
Definition demo_from_key (key : string) : result string :=
  match bytes_of_hex key with
  | Some _ => Ok ("0x" +:+ take_str 8 key)
  | None => Raise (Exn ValueError "Non-hexadecimal digit found")
  end.

Definition demo_key : string :=
  "4c0883a69102937d6231471b5dbb6204fe5129617082792ae468d01a3f362318".

Definition no_wallet : wallet :=
  {| wallet_account := None; wallet_private_key := None |}.

(** A node that does not answer the balance query. *)
Definition no_balance (address : string) : result Z :=
  Raise (Exn ConnectionError_ "connection refused").

End Wallet.

(** * config.py and gui_app_blockchain.py: choosing a file to upload *)

Module Files.

(** [config.max_file_size_bytes] *)
Definition max_file_size_bytes (max_file_size_mb : Z) : Z :=
  max_file_size_mb * 1024 * 1024.

(** [validate_file_size(file_path, max_size_bytes)]: [os.path.getsize] raises
    for a path that does not exist, and the function then answers [False]. *)
Definition validate_file_size
    (fs : gmap string bytes) (file_path : string) (max_size_bytes : Z) : bool :=
  match fs !! file_path with
  | Some data => Z.of_nat (length data) <=? max_size_bytes
  | None => false
  end.

(** [s.rfind(c)]: the index of the last [c] in [s], or -1. *)
Fixpoint rfind_from (c : ascii) (s : string) (i found : Z) : Z :=
  match s with
  | EmptyString => found
  | String a rest => rfind_from c rest (i + 1) (if Ascii.eqb a c then i else found)
  end.

Definition rfind (c : ascii) (s : string) : Z := rfind_from c s 0 (-1).

(** Some character of [s] is not a dot. *)
Fixpoint has_non_dot (s : string) : bool :=
  match s with
  | EmptyString => false
  | String a rest => negb (Ascii.eqb a ".") || has_non_dot rest
  end.

(** [s[i:j]] for [0 <= i]. *)
Definition slice (s : string) (i j : Z) : string :=
  String.substring (Z.to_nat i) (Z.to_nat (j - i)) s.

(** [os.path.splitext] (POSIX): the extension starts at the last dot of the
    last component, unless only dots precede it there. *)
Definition splitext (p : string) : string * string :=
  let sepIndex := rfind "/" p in
  let dotIndex := rfind "." p in
  if (sepIndex <? dotIndex) && has_non_dot (slice p (sepIndex + 1) dotIndex)
  then (slice p 0 dotIndex, slice p dotIndex (Z.of_nat (String.length p)))
  else (p, "").

(** [get_supported_file_types()] *)
Definition get_supported_file_types : list string :=
  [ ".txt"; ".pdf"; ".doc"; ".docx"; ".rtf"; ".odt";
    ".jpg"; ".jpeg"; ".png"; ".gif"; ".bmp"; ".svg"; ".webp";
    ".mp3"; ".wav"; ".flac"; ".aac"; ".ogg"; ".m4a";
    ".mp4"; ".avi"; ".mkv"; ".mov"; ".wmv"; ".flv"; ".webm";
    ".zip"; ".rar"; ".7z"; ".tar"; ".gz"; ".bz2";
    ".py"; ".js"; ".html"; ".css"; ".json"; ".xml"; ".yaml";
    ".xls"; ".xlsx"; ".csv"; ".ods";
    ".ppt"; ".pptx"; ".odp" ].

(** [is_supported_file_type(file_path)] *)
Definition is_supported_file_type (file_path : string) : bool :=
  let ext := snd (splitext (lower file_path)) in
  existsb (String.eqb ext) get_supported_file_types.

Inductive upload_request :=
| NoFileChosen                                 (* the file dialog was dismissed *)
| FileTooLarge                                 (* "File size exceeds ... limit" *)
| TypeRefused                                  (* the user declined the file type *)
| NoPassword                                   (* the password dialog was left empty *)
| UploadStarted (file_path password : string). (* [upload_file_thread] is started *)

(** [select_and_upload_file()]: [askopenfilename] is the path chosen (empty
    when the dialog is dismissed), [askyesno] the answer to "continue anyway?"
    and [askstring] the answer to the password dialog. *)
Definition select_and_upload_file
    (max_file_size_mb : Z) (fs : gmap string bytes)
    (askopenfilename : string) (askyesno : bool) (askstring : option string)
  : upload_request :=
  let file_path := askopenfilename in
  if String.eqb file_path "" then NoFileChosen
  else if negb (validate_file_size fs file_path (max_file_size_bytes max_file_size_mb))
  then FileTooLarge
  else if negb (is_supported_file_type file_path) && negb askyesno then TypeRefused
  else
    match askstring with
    | None => NoPassword
    | Some password =>
        if String.eqb password "" then NoPassword else UploadStarted file_path password
    end.

End Files.

(** * Theorems *)

(** ** SHA-256 against the test vectors of the standard *)

Example sha256_abc :
  Sha256.hexdigest (bytes_of_string "abc")
  = "ba7816bf8f01cfea414140de5dae2223b00361a396177a9cb410ff61f20015ad".
Proof. vm_compute. reflexivity. Qed.

Example sha256_empty :
  Sha256.hexdigest []
  = "e3b0c44298fc1c149afbf4c8996fb92427ae41e4649b934ca495991b7852b855".
Proof. vm_compute. reflexivity. Qed.

Example sha256_two_blocks :
  Sha256.hexdigest
    (bytes_of_string "abcdbcdecdefdefgefghfghighijhijkijkljklmklmnlmnomnopnopq")
  = "248d6a61d20638b8e5c026930c3e6039a33ce45964ff2167f6ecedd419db06c1".
Proof. vm_compute. reflexivity. Qed.

(** ** Python floats against the interpreter's results *)

Example int_20_gwei_times_1_1 :
  PyFloat.int_mul_trunc 20000000000 float_1_1 = Ok 22000000000.
Proof. vm_compute. reflexivity. Qed.

Example int_21001_times_1_2 :
  PyFloat.int_mul_trunc 21001 float_1_2 = Ok 25201.
Proof. vm_compute. reflexivity. Qed.

Example float_1_1_bits : float_1_1 = S754_finite false 4953959590107546 (-52).
Proof. vm_compute. reflexivity. Qed.

(** ** encryption.py *)

Module EncryptionFacts.
Import Encryption.

Lemma flip_low_involutive (b : byte) : flip_low (flip_low b) = b.
Proof. destruct b; vm_compute; reflexivity. Qed.

Lemma bytes_eqb_refl (a : bytes) : bytes_eqb a a = true.
Proof.
  induction a as [|x a IH]; simpl; [reflexivity|].
  rewrite IH, andb_true_r. destruct x; reflexivity.
Qed.

(** The stand-in satisfies the contract of Fernet. *)
Lemma demo_fernet_correct : @FernetCorrect demo_cryptography.
Proof.
  intros key n data. simpl.
  rewrite firstn_app, Nat.sub_diag, firstn_all. simpl. rewrite app_nil_r.
  rewrite bytes_eqb_refl.
  rewrite skipn_app, Nat.sub_diag, skipn_all. simpl. rewrite skipn_O.
  f_equal. rewrite map_map. rewrite <- (map_id data) at 2.
  apply map_ext. intros b. apply flip_low_involutive.
Qed.

Section Facts.
Context `{Cryptography}.
Variable iterations : Z.
Variable fs : gmap string bytes.

(** Deriving the key again from the salt that was drawn gives the same key. *)
Lemma generate_key_fresh_salt urandom password ks :
  generate_key_from_password iterations urandom password None = Ok ks ->
  generate_key_from_password iterations [] password (Some (snd ks)) = Ok ks.
Proof.
  unfold generate_key_from_password.
  destruct (pbkdf2_hmac_sha256 _ urandom _) as [raw|e] eqn:E; simpl; [|discriminate].
  intros [= <-]. simpl. rewrite E. reflexivity.
Qed.

(** What a successful [encrypt_file] went through. *)
Lemma encrypt_file_inv urandom nonce path W r :
  encrypt_file iterations fs urandom nonce path W = Ok r ->
  exists P ks f,
    fs !! path = Some P /\ P <> [] /\
    generate_key_from_password iterations urandom W None = Ok ks /\
    Fernet (fst ks) = Ok f /\
    r = {| encrypted_data := fernet_encrypt f nonce P;
           salt := snd ks;
           original_hash := Sha256.hexdigest P;
           original_name := basename path;
           original_size := Z.of_nat (length P);
           encrypted_size := Z.of_nat (length (fernet_encrypt f nonce P)) |}.
Proof.
  unfold encrypt_file, try_except.
  destruct (fs !! path) as [P|] eqn:EP; [|discriminate].
  destruct (generate_key_from_password _ _ _ _) as [ks|e] eqn:EK; simpl; [|discriminate].
  destruct (Fernet (fst ks)) as [f|e] eqn:EF; simpl; [|discriminate].
  destruct P as [|b P]; simpl; [discriminate|].
  intros [= <-]. exists (b :: P), ks, f. repeat split; try done.
Qed.

(** [encrypt_file] succeeds on a non-empty file once the key is derived and
    accepted. *)
Lemma encrypt_file_succeeds urandom nonce path W P ks f :
  fs !! path = Some P -> P <> [] ->
  generate_key_from_password iterations urandom W None = Ok ks ->
  Fernet (fst ks) = Ok f ->
  is_ok (encrypt_file iterations fs urandom nonce path W) = true.
Proof.
  intros HP Hne HK HF. unfold encrypt_file, try_except.
  rewrite HP, HK. simpl. rewrite HF. simpl.
  destruct P; [contradiction|reflexivity].
Qed.

(** A missing or empty file is refused. *)
Lemma encrypt_file_rejects_empty urandom nonce path W :
  fs !! path = None \/ fs !! path = Some [] ->
  is_ok (encrypt_file iterations fs urandom nonce path W) = false.
Proof.
  intros [HP|HP]; unfold encrypt_file, try_except; rewrite HP; [reflexivity|].
  destruct (generate_key_from_password _ _ _ _) as [ks|e]; simpl; [|reflexivity].
  destruct (Fernet (fst ks)); reflexivity.
Qed.

(** When the primitive rejects the token, [decrypt_file] raises
    "Decryption failed" and returns nothing. *)
Lemma decrypt_file_rejects encrypted W s ks f e :
  generate_key_from_password iterations [] W (Some s) = Ok ks ->
  Fernet (fst ks) = Ok f ->
  fernet_decrypt f encrypted = Raise e ->
  decrypt_file iterations encrypted W s
  = Raise (Exn Exception_ ("Decryption failed: " +:+ str_exn e)).
Proof.
  intros EK EF ED. unfold decrypt_file, try_except. rewrite EK. simpl.
  rewrite EF. simpl. rewrite ED. reflexivity.
Qed.

(** [decrypt_file] returns only what the primitive released. *)
Lemma decrypt_file_returns encrypted W s P :
  decrypt_file iterations encrypted W s = Ok P ->
  exists ks f,
    generate_key_from_password iterations [] W (Some s) = Ok ks /\
    Fernet (fst ks) = Ok f /\ fernet_decrypt f encrypted = Ok P.
Proof.
  unfold decrypt_file, try_except.
  destruct (generate_key_from_password _ _ _ _) as [ks|e] eqn:EK; simpl; [|discriminate].
  destruct (Fernet (fst ks)) as [f|e] eqn:EF; simpl; [|discriminate].
  destruct (fernet_decrypt f encrypted) as [d|e] eqn:ED; simpl; [|discriminate].
  intros [= <-]. eauto.
Qed.

(** Every error of [decrypt_file] is a plain exception whose text starts
    with "Decryption failed: ". *)
Lemma decrypt_file_error encrypted W s e :
  decrypt_file iterations encrypted W s = Raise e ->
  exists cause, e = Exn Exception_ ("Decryption failed: " +:+ cause).
Proof.
  unfold decrypt_file, try_except.
  destruct (generate_key_from_password _ _ _ _) as [ks|e1]; simpl;
    [|intros [= <-]; eauto].
  destruct (Fernet (fst ks)) as [f|e1]; simpl; [|intros [= <-]; eauto].
  destruct (fernet_decrypt f encrypted) as [d|e1]; simpl; [discriminate|].
  intros [= <-]; eauto.
Qed.

End Facts.

(** C1. Round trip: when [encrypt_file] has encrypted the (non-empty) content
    [P] of a file under password [W], [decrypt_file] applied to the returned
    ciphertext, the same password and the returned salt yields exactly [P]. *)
Theorem encrypt_decrypt_roundtrip `{FernetCorrect}
    (iterations : Z) (fs : gmap string bytes) (urandom : bytes)
    (nonce : fernet_nonce) (path W : string) (P : bytes) (r : EncryptionResult) :
  fs !! path = Some P ->
  encrypt_file iterations fs urandom nonce path W = Ok r ->
  P <> [] /\ decrypt_file iterations (encrypted_data r) W (salt r) = Ok P.
Proof.
  intros HP HE.
  destruct (encrypt_file_inv _ _ _ _ _ _ _ HE) as (P' & ks & f & HP' & Hne & HK & HF & ->).
  assert (P' = P) as -> by congruence. split; [exact Hne|].
  simpl. unfold decrypt_file.
  rewrite (generate_key_fresh_salt _ _ _ _ HK). simpl. rewrite HF. simpl.
  rewrite fernet_decrypt_encrypt. reflexivity.
Qed.

Lemma encrypt_decrypt_roundtrip_witness :
  exists r,
    demo_fs !! "/home/user/notes.txt" = Some (bytes_of_string "ten bytes!") /\
    encrypt_file (H := demo_cryptography) 100000 demo_fs (bytes_of_string "0123456789abcdef") tt
      "/home/user/notes.txt" "pw1" = Ok r /\
    decrypt_file (H := demo_cryptography) 100000 (encrypted_data r) "pw1" (salt r)
    = Ok (bytes_of_string "ten bytes!").
Proof.
  eexists. split; [vm_compute; reflexivity|]. split; [vm_compute; reflexivity|].
  eapply (encrypt_decrypt_roundtrip (H0 := demo_fernet_correct) 100000 demo_fs
            (bytes_of_string "0123456789abcdef") tt "/home/user/notes.txt" "pw1").
  - vm_compute. reflexivity.
  - vm_compute. reflexivity.
Defined.

(** C10. [verify_file_integrity] accepts exactly one text, the lowercase
    hexadecimal digest of the data: it returns true for it whatever the data,
    and there is data (the three bytes [abc]) for which the uppercase spelling
    of the same digest, which denotes the same 32 bytes, is refused. *)
Theorem verify_file_integrity_exact :
  (forall (P : bytes) (expected : string),
      verify_file_integrity P expected = true <-> expected = Sha256.hexdigest P) /\
  (forall P : bytes, verify_file_integrity P (Sha256.hexdigest P) = true) /\
  (exists P : bytes,
      let upper := hex_of_bytes_upper (Sha256.digest P) in
      bytes_of_hex upper = Some (Sha256.digest P) /\
      bytes_of_hex (Sha256.hexdigest P) = Some (Sha256.digest P) /\
      verify_file_integrity P upper = false).
Proof.
  assert (Hiff : forall P expected,
             verify_file_integrity P expected = true <-> expected = Sha256.hexdigest P).
  { intros P expected. unfold verify_file_integrity.
    rewrite String.eqb_eq. split; intros ->; reflexivity. }
  split; [exact Hiff|]. split.
  - intros P. apply Hiff. reflexivity.
  - exists (bytes_of_string "abc"). vm_compute. repeat split; reflexivity.
Qed.

(** ** Error reporting and integrity *)

(** What [decrypt_file] does with the primitive's verdict: a rejection by
    [Fernet.decrypt] comes out as the exception "Decryption failed: ..." with
    the primitive's text; every error of [decrypt_file] has that form; and a
    value is returned only when the primitive released it. *)
Theorem decrypt_file_reports_rejection `{Cryptography}
    (iterations : Z) (encrypted : bytes) (W : string) (s : bytes) :
  (forall ks f e,
      generate_key_from_password iterations [] W (Some s) = Ok ks ->
      Fernet (fst ks) = Ok f ->
      fernet_decrypt f encrypted = Raise e ->
      decrypt_file iterations encrypted W s
      = Raise (Exn Exception_ ("Decryption failed: " +:+ str_exn e))) /\
  (forall e,
      decrypt_file iterations encrypted W s = Raise e ->
      exists cause, e = Exn Exception_ ("Decryption failed: " +:+ cause)) /\
  (forall P,
      decrypt_file iterations encrypted W s = Ok P ->
      exists ks f,
        generate_key_from_password iterations [] W (Some s) = Ok ks /\
        Fernet (fst ks) = Ok f /\ fernet_decrypt f encrypted = Ok P).
Proof.
  split; [|split].
  - intros ks f e. apply decrypt_file_rejects.
  - intros e. apply decrypt_file_error.
  - intros P. apply decrypt_file_returns.
Qed.

(** The token made under [pw1] is refused under [pw2]. *)
Lemma decrypt_file_reports_rejection_witness :
  decrypt_file (H := demo_cryptography) 100000 (encrypted_data notes_encrypted) "pw2"
    (bytes_of_string "0123456789abcdef")
  = Raise (Exn Exception_ "Decryption failed: ").
Proof.
  destruct (decrypt_file_reports_rejection (H := demo_cryptography) 100000 (encrypted_data notes_encrypted) "pw2"
              (bytes_of_string "0123456789abcdef")) as (Hrej & _).
  apply (Hrej (bytes_of_string "pw20123456789abcdef", bytes_of_string "0123456789abcdef")
              (bytes_of_string "pw20123456789abcdef") (Exn InvalidToken ""));
    vm_compute; reflexivity.
Defined.

(** [encrypt_file] refuses a path that does not exist ("File not found") and
    a file with no content ("Cannot encrypt empty file"), both wrapped as
    "Encryption failed: ..."; a result is returned only for a file with at
    least one byte, whose length it records. *)
Theorem encrypt_file_refuses_missing_and_empty `{Cryptography}
    (iterations : Z) (fs : gmap string bytes) (urandom : bytes)
    (nonce : fernet_nonce) (path W : string) :
  (fs !! path = None ->
   encrypt_file iterations fs urandom nonce path W
   = Raise (Exn Exception_ ("Encryption failed: File not found: " +:+ path))) /\
  (fs !! path = Some [] ->
   forall ks f,
     generate_key_from_password iterations urandom W None = Ok ks ->
     Fernet (fst ks) = Ok f ->
     encrypt_file iterations fs urandom nonce path W
     = Raise (Exn Exception_ "Encryption failed: Cannot encrypt empty file")) /\
  (forall r, encrypt_file iterations fs urandom nonce path W = Ok r ->
             0 < original_size r /\
             exists P, fs !! path = Some P /\ original_size r = Z.of_nat (length P)).
Proof.
  split; [|split].
  - intros HP. unfold encrypt_file, try_except. rewrite HP. reflexivity.
  - intros HP ks f HK HF. unfold encrypt_file, try_except.
    rewrite HP, HK. simpl. rewrite HF. reflexivity.
  - intros r Hr.
    destruct (encrypt_file_inv _ _ _ _ _ _ _ Hr) as (P & ks & f & HP & Hne & _ & _ & ->).
    simpl. split; [destruct P; [contradiction|simpl; lia]|].
    exists P. split; [exact HP|reflexivity].
Qed.

Lemma encrypt_file_refuses_missing_and_empty_witness :
  encrypt_file (H := demo_cryptography) 100000 empty_fs (bytes_of_string "0123456789abcdef") tt
    "/tmp/none.bin" "pw"
  = Raise (Exn Exception_ "Encryption failed: File not found: /tmp/none.bin") /\
  encrypt_file (H := demo_cryptography) 100000 empty_fs (bytes_of_string "0123456789abcdef") tt
    "/tmp/empty.bin" "pw"
  = Raise (Exn Exception_ "Encryption failed: Cannot encrypt empty file").
Proof.
  split.
  - apply (proj1 (encrypt_file_refuses_missing_and_empty (H := demo_cryptography) 100000
                    empty_fs (bytes_of_string "0123456789abcdef") tt "/tmp/none.bin" "pw")).
    vm_compute. reflexivity.
  - apply (proj1 (proj2 (encrypt_file_refuses_missing_and_empty (H := demo_cryptography)
                           100000 empty_fs (bytes_of_string "0123456789abcdef") tt
                           "/tmp/empty.bin" "pw"))
             eq_refl
             (bytes_of_string "pw0123456789abcdef", bytes_of_string "0123456789abcdef")
             (bytes_of_string "pw0123456789abcdef")); reflexivity.
Defined.

(** What [encrypt_file] returns fits what the other two methods expect: the
    ciphertext decrypts, under the same password and the returned salt, to
    the content of the file, [original_hash] is the SHA-256 of that content,
    and [verify_file_integrity] accepts the decrypted content against it. *)
Theorem decrypted_file_passes_integrity_check `{FernetCorrect}
    (iterations : Z) (fs : gmap string bytes) (urandom : bytes)
    (nonce : fernet_nonce) (path W : string) (r : EncryptionResult) :
  encrypt_file iterations fs urandom nonce path W = Ok r ->
  exists P,
    fs !! path = Some P /\
    decrypt_file iterations (encrypted_data r) W (salt r) = Ok P /\
    original_hash r = Sha256.hexdigest P /\
    verify_file_integrity P (original_hash r) = true.
Proof.
  intros HE.
  destruct (encrypt_file_inv _ _ _ _ _ _ _ HE) as (P & ks & f & HP & Hne & HK & HF & ->).
  exists P. simpl. split; [exact HP|]. split; [|split].
  - unfold decrypt_file.
    rewrite (generate_key_fresh_salt _ _ _ _ HK). simpl. rewrite HF. simpl.
    rewrite fernet_decrypt_encrypt. reflexivity.
  - reflexivity.
  - unfold verify_file_integrity. apply String.eqb_refl.
Qed.

Lemma decrypted_file_passes_integrity_check_witness :
  exists P,
    demo_fs !! "/home/user/notes.txt" = Some P /\
    decrypt_file (H := demo_cryptography) 100000 (encrypted_data notes_encrypted) "pw1"
      (salt notes_encrypted) = Ok P /\
    original_hash notes_encrypted = Sha256.hexdigest P /\
    verify_file_integrity P (original_hash notes_encrypted) = true.
Proof.
  apply (decrypted_file_passes_integrity_check (H0 := demo_fernet_correct) 100000 demo_fs
           (bytes_of_string "0123456789abcdef") tt "/home/user/notes.txt" "pw1").
  vm_compute. reflexivity.
Defined.

End EncryptionFacts.

(** ** The file registry *)

Module RegistryFacts.
Import Registry.

Lemma file_entry_not_pinned er ir now :
  get_truthy (file_entry er ir now) "blockchain_pinned" = false.
Proof. unfold get_truthy, file_entry. rewrite lookup_insert_eq. reflexivity. Qed.

(** The new entry carries a [pin_tx] only if the IPFS result did. *)
Lemma file_entry_pin_tx er ir now :
  file_entry er ir now !! "pin_tx" = ir !! "pin_tx".
Proof. unfold file_entry. rewrite !lookup_insert_ne by discriminate. reflexivity. Qed.

Lemma pin_invariant_insert (reg : gmap string pydict) id rec :
  pin_invariant reg ->
  (get_truthy rec "blockchain_pinned" = true -> is_Some (rec !! "pin_tx")) ->
  pin_invariant (<[id := rec]> reg).
Proof.
  intros Hinv Hrec j r Hj. destruct (decide (id = j)) as [->|Hne].
  - rewrite lookup_insert_eq in Hj. injection Hj as <-. exact Hrec.
  - rewrite lookup_insert_ne in Hj by exact Hne. eauto.
Qed.

Lemma pin_invariant_delete (reg : gmap string pydict) id :
  pin_invariant reg -> pin_invariant (delete id reg).
Proof.
  intros Hinv j r Hj. apply lookup_delete_Some in Hj as [_ Hj]. eauto.
Qed.

Lemma pin_invariant_create (reg : gmap string pydict) er ir now :
  pin_invariant reg -> pin_invariant (snd (create_file_entry reg er ir now)).
Proof.
  intros Hinv. unfold create_file_entry. simpl.
  apply pin_invariant_insert; [exact Hinv|].
  rewrite file_entry_not_pinned. discriminate.
Qed.

(** An upload either creates the entry or leaves the registry alone. *)
Lemma upload_file_thread_cases `{Encryption.Cryptography} `{IpfsNode}
    gateway_url iterations fs urandom nonce now file_path password
    (reg : gmap string pydict) :
  let r := upload_file_thread gateway_url iterations fs urandom nonce now
             file_path password reg in
  (exists er ir, r = (snd (create_file_entry reg er ir now),
                      UploadSuccess (fst (create_file_entry reg er ir now)) ir)) \/
  (exists msg, r = (reg, UploadError msg)).
Proof.
  unfold upload_file_thread.
  destruct (Encryption.encrypt_file _ _ _ _ _ _) as [er|e]; simpl; [|eauto].
  destruct (store_encrypted_file _ _ _ _) as [ir|e]; simpl; [|eauto].
  left. exists er, ir. reflexivity.
Qed.

Lemma pin_invariant_upload `{Encryption.Cryptography} `{IpfsNode}
    gateway_url iterations fs urandom nonce now file_path password
    (reg : gmap string pydict) :
  pin_invariant reg ->
  pin_invariant (fst (upload_file_thread gateway_url iterations fs urandom nonce now
                        file_path password reg)).
Proof.
  intros Hinv.
  destruct (upload_file_thread_cases gateway_url iterations fs urandom nonce now
              file_path password reg) as [(er & ir & ->)|(msg & ->)]; simpl.
  - apply pin_invariant_create, Hinv.
  - exact Hinv.
Qed.

Lemma pin_invariant_update (reg : gmap string pydict) id pin_info :
  is_Some (pin_info !! "pin_tx") ->
  pin_invariant reg -> pin_invariant (update_file_pinning_status id pin_info reg).
Proof.
  intros [v Hv] Hinv. unfold update_file_pinning_status.
  destruct (reg !! id) as [rec|] eqn:E; [|exact Hinv].
  apply pin_invariant_insert; [exact Hinv|]. intros _.
  exists v. apply lookup_union_Some_l. exact Hv.
Qed.

Lemma pin_invariant_delete_loop askyesno selection :
  forall (reg : gmap string pydict) deleted,
    pin_invariant reg -> pin_invariant (fst (delete_loop askyesno selection reg deleted)).
Proof.
  induction selection as [|[id name] rest IH]; intros reg deleted Hinv; simpl; [exact Hinv|].
  destruct (reg !! id) as [rec|]; [|apply IH; exact Hinv].
  destruct (get_truthy rec "blockchain_pinned" && negb (askyesno name)).
  - apply IH; exact Hinv.
  - apply IH, pin_invariant_delete, Hinv.
Qed.

Lemma make_pin_info_pin_tx tx_hash now d net gas gwei :
  is_Some (Blockchain.make_pin_info tx_hash now d net gas gwei !! "pin_tx").
Proof.
  unfold Blockchain.make_pin_info.
  rewrite lookup_insert_ne by discriminate. rewrite lookup_insert_eq. eauto.
Qed.

Lemma make_pin_info_pinned tx_hash now d net gas gwei :
  Blockchain.make_pin_info tx_hash now d net gas gwei !! "blockchain_pinned"
  = Some (VBool true).
Proof. unfold Blockchain.make_pin_info. rewrite lookup_insert_eq. reflexivity. Qed.

(** After the update a known record is marked pinned and names its transaction. *)
Lemma update_file_pinning_status_marks (reg : gmap string pydict) id tx_hash now d net gas gwei :
  is_Some (reg !! id) ->
  exists rec,
    update_file_pinning_status id (Blockchain.make_pin_info tx_hash now d net gas gwei) reg
      !! id = Some rec /\
    get_truthy rec "blockchain_pinned" = true /\
    rec !! "pin_tx" = Some (VStr (hex_of_bytes (map Z_of_byte tx_hash))).
Proof.
  intros [old Hold]. unfold update_file_pinning_status. rewrite Hold.
  eexists. split; [apply lookup_insert_eq|]. split.
  - unfold get_truthy.
    erewrite lookup_union_Some_l by apply make_pin_info_pinned. reflexivity.
  - apply lookup_union_Some_l. unfold Blockchain.make_pin_info.
    rewrite lookup_insert_ne by discriminate. apply lookup_insert_eq.
Qed.

(** C8, as the code has it. Uploading a file whose id is already in the
    registry succeeds and replaces the record: here a record that was pinned,
    with its [pin_tx], is replaced by a fresh unpinned record with no [pin_tx];
    no error is raised. *)
Lemma upload_overwrites_existing_record :
  demo_registry !! "ba7816bf8f01cfea" = Some pinned_record /\
  get_truthy pinned_record "blockchain_pinned" = true /\
  uploaded_id (snd overwrite_run) = Some "ba7816bf8f01cfea" /\
  (fun r => get_truthy r "blockchain_pinned") <$> (fst overwrite_run !! "ba7816bf8f01cfea")
    = Some false /\
  (fst overwrite_run !! "ba7816bf8f01cfea") ≫= (fun r => r !! "pin_tx") = None.
Proof.
  split; [vm_compute; reflexivity|].
  split; [vm_compute; reflexivity|].
  split; [vm_compute; reflexivity|].
  split; vm_compute; reflexivity.
Qed.

(** C8, amended. When encryption and storage succeed, [upload_file_thread]
    reports success and stores the new record under the first 16 hexadecimal
    characters of the content hash whatever the registry held under that id:
    the record found there afterwards is the new one, unpinned; the other
    records are untouched. *)
Theorem upload_replaces_record `{Encryption.Cryptography} `{IpfsNode}
    (gateway_url : string) (iterations : Z) (fs : gmap string bytes)
    (urandom : bytes) (nonce : Encryption.fernet_nonce) (now file_path password : string)
    (reg : gmap string pydict)
    (er : Encryption.EncryptionResult) (ir : pydict) :
  Encryption.encrypt_file iterations fs urandom nonce file_path password = Ok er ->
  store_encrypted_file gateway_url now (Encryption.encrypted_data er) (upload_metadata er)
  = Ok ir ->
  let file_id := take_str 16 (Encryption.original_hash er) in
  let reg' := fst (upload_file_thread gateway_url iterations fs urandom nonce now
                     file_path password reg) in
  upload_file_thread gateway_url iterations fs urandom nonce now file_path password reg
  = (<[file_id := file_entry er ir now]> reg, UploadSuccess file_id ir) /\
  (exists P, fs !! file_path = Some P /\ file_id = take_str 16 (Sha256.hexdigest P)) /\
  reg' !! file_id = Some (file_entry er ir now) /\
  get_truthy (file_entry er ir now) "blockchain_pinned" = false /\
  (forall other, other <> file_id -> reg' !! other = reg !! other).
Proof.
  intros Henc Hstore file_id reg'.
  assert (Hrun : upload_file_thread gateway_url iterations fs urandom nonce now
                   file_path password reg
                 = (<[file_id := file_entry er ir now]> reg, UploadSuccess file_id ir)).
  { unfold upload_file_thread. rewrite Henc. simpl. rewrite Hstore. reflexivity. }
  subst reg'. rewrite Hrun. simpl.
  split; [reflexivity|]. split.
  - destruct (EncryptionFacts.encrypt_file_inv _ _ _ _ _ _ _ Henc)
      as (P & ks & f & HP & _ & _ & _ & ->).
    exists P. split; [exact HP|reflexivity].
  - split; [apply lookup_insert_eq|].
    split; [apply file_entry_not_pinned|].
    intros other Hne. apply lookup_insert_ne. congruence.
Qed.

Lemma upload_replaces_record_witness :
  overwrite_run
  = (<[take_str 16 (Encryption.original_hash abc_encrypted)
       := file_entry abc_encrypted abc_stored "2025-01-01T00:00:00"]> demo_registry,
     UploadSuccess (take_str 16 (Encryption.original_hash abc_encrypted)) abc_stored).
Proof.
  assert (Henc : Encryption.encrypt_file (H := Encryption.demo_cryptography) 100000 abc_fs
                   (bytes_of_string "0123456789abcdef") tt "/tmp/abc.txt" "pw"
                 = Ok abc_encrypted)
    by (vm_compute; reflexivity).
  assert (Hstore : store_encrypted_file (H0 := demo_ipfs) "https://ipfs.io/ipfs/"
                     "2025-01-01T00:00:00" (Encryption.encrypted_data abc_encrypted)
                     (upload_metadata abc_encrypted)
                   = Ok abc_stored)
    by (vm_compute; reflexivity).
  unfold overwrite_run.
  exact (proj1 (upload_replaces_record (H := Encryption.demo_cryptography)
                  (H0 := demo_ipfs) "https://ipfs.io/ipfs/" 100000 abc_fs
                  (bytes_of_string "0123456789abcdef") tt "2025-01-01T00:00:00"
                  "/tmp/abc.txt" "pw" demo_registry abc_encrypted abc_stored
                  Henc Hstore)).
Defined.

(** ** Deletion and pin updates *)







(** [update_file_pinning_status] does nothing for an id that is not in the
    registry; for a known id the record becomes [pin_info] laid over the old
    record ([dict.update]): the keys of [pin_info] take its values, the other
    keys keep theirs; the other records are untouched. *)
Theorem update_file_pinning_status_spec
    (reg : gmap string pydict) (id : string) (pin_info : pydict) :
  (reg !! id = None -> update_file_pinning_status id pin_info reg = reg) /\
  (forall record,
      reg !! id = Some record ->
      update_file_pinning_status id pin_info reg !! id = Some (pin_info ∪ record) /\
      (forall k v, pin_info !! k = Some v -> (pin_info ∪ record) !! k = Some v) /\
      (forall k, pin_info !! k = None -> (pin_info ∪ record) !! k = record !! k)) /\
  (forall other, other <> id ->
                 update_file_pinning_status id pin_info reg !! other = reg !! other).
Proof.
  unfold update_file_pinning_status. split; [|split].
  - intros ->. reflexivity.
  - intros record ->. split; [apply lookup_insert_eq|]. split.
    + intros k v Hk. apply lookup_union_Some_l, Hk.
    + intros k Hk. apply lookup_union_r, Hk.
  - intros other Hne. destruct (reg !! id); [|reflexivity].
    apply lookup_insert_ne. congruence.
Qed.

Lemma update_file_pinning_status_spec_witness :
  update_file_pinning_status "0000000000000000" (<["pin_tx" := VStr "77"]> ∅) demo_registry
  = demo_registry /\
  update_file_pinning_status "ba7816bf8f01cfea" (<["pin_tx" := VStr "77"]> ∅) demo_registry
    !! "ba7816bf8f01cfea" = Some ((<["pin_tx" := VStr "77"]> ∅) ∪ pinned_record).
Proof.
  destruct (update_file_pinning_status_spec demo_registry "0000000000000000"
              (<["pin_tx" := VStr "77"]> ∅)) as (Hnone & _).
  destruct (update_file_pinning_status_spec demo_registry "ba7816bf8f01cfea"
              (<["pin_tx" := VStr "77"]> ∅)) as (_ & Hsome & _).
  split.
  - apply Hnone. vm_compute. reflexivity.
  - apply (Hsome pinned_record). vm_compute. reflexivity.
Defined.

End RegistryFacts.

(** ** The pinning workflow *)

Module BlockchainFacts.
Import Registry Blockchain RegistryFacts.

Lemma add_logs_nil s : add_logs [] s = s.
Proof. destruct s. unfold add_logs. simpl. rewrite app_nil_r. reflexivity. Qed.

Lemma add_logs_add_logs l1 l2 s : add_logs l2 (add_logs l1 s) = add_logs (l1 ++ l2) s.
Proof. unfold add_logs. simpl. rewrite app_assoc. reflexivity. Qed.

Lemma same_but_log_add_logs logs s : same_but_log s (add_logs logs s).
Proof. repeat split. Qed.

Lemma same_but_log_refl s : same_but_log s s.
Proof. repeat split. Qed.

Lemma pinning_lines_app l1 l2 :
  pinning_lines (l1 ++ l2) = pinning_lines l1 ++ pinning_lines l2.
Proof. apply omap_app. Qed.

Lemma pinning_lines_cons_quiet x l :
  pinning_line x = None -> pinning_lines (x :: l) = pinning_lines l.
Proof. intros Hx. unfold pinning_lines. simpl. rewrite Hx. reflexivity. Qed.

(** Closes [pinning_lines l = []] for a list made of lines known to be quiet. *)
Ltac quiet :=
  repeat first
    [ rewrite pinning_lines_app
    | rewrite pinning_lines_cons_quiet by (first [reflexivity | assumption])
    | match goal with
      | Hq : pinning_lines ?l = [] |- context [pinning_lines ?l] => rewrite Hq
      end ];
  reflexivity.

Section PanelFacts.
Context `{Runtime}.
Variable config : EncryptumConfig.
Variable self : Panel.

(** *** Gas price *)

(** Whatever the node and the libraries answer, [get_manual_gas_price] only
    writes to the log, and what it writes and returns does not depend on the
    state. *)
Lemma get_manual_gas_price_effect ledger depth :
  exists logs r,
    pinning_lines logs = [] /\
    forall s, get_manual_gas_price config self ledger depth s = (add_logs logs s, r).
Proof.
  induction depth as [|depth (logs & r & Hq & IH)].
  - exists [], (Raise (Exn RecursionError "maximum recursion depth exceeded")).
    split; [reflexivity|]. intros s. simpl. unfold raise.
    rewrite add_logs_nil. reflexivity.
  - simpl.
    destruct (String.eqb (lower (strip (gas_price_var self))) "auto"
              || String.eqb (strip (gas_price_var self)) "").
    + exists [], (node <- eth_gas_price ledger ;;
                  buffered <- PyFloat.int_mul_trunc node (gas_price_buffer config) ;;
                  minimum <- to_wei (min_gas_price_gwei config) Gwei ;;
                  Ok (if buffered <? minimum then minimum else buffered)).
      split; [reflexivity|]. intros s. rewrite add_logs_nil.
      unfold mbind, lift, ret.
      destruct (eth_gas_price ledger); simpl; [|reflexivity].
      destruct (PyFloat.int_mul_trunc _ _); simpl; [|reflexivity].
      destruct (to_wei _ _); simpl; reflexivity.
    + unfold catch_ValueError, mbind, lift, log, ret.
      destruct (float_of_str _) as [x|[[] msg]];
        try (exists []; eexists; split; [reflexivity|]; intros s;
             rewrite add_logs_nil; reflexivity).
      * destruct (PyFloat.ltb x (min_gas_price_gwei config)).
        -- destruct (to_wei (min_gas_price_gwei config) Gwei) as [v|[[] msg]];
             try (exists [(Warning, MsgGasPriceTooLow (min_gas_price_gwei config))];
                  eexists; split; [reflexivity|]; intros s; reflexivity).
           exists ((Warning, MsgGasPriceTooLow (min_gas_price_gwei config))
                     :: (Warning, MsgInvalidGasPrice) :: logs), r.
           split; [exact Hq|]. intros s.
           rewrite IH, !add_logs_add_logs. reflexivity.
        -- destruct (to_wei x Gwei) as [v|[[] msg]];
             try (exists []; eexists; split; [reflexivity|]; intros s;
                  rewrite add_logs_nil; reflexivity).
           exists ((Warning, MsgInvalidGasPrice) :: logs), r. split; [exact Hq|]. intros s.
           rewrite IH, !add_logs_add_logs. reflexivity.
      * exists ((Warning, MsgInvalidGasPrice) :: logs), r. split; [exact Hq|]. intros s.
        rewrite IH, !add_logs_add_logs. reflexivity.
Qed.

Lemma get_manual_gas_price_frame ledger depth :
  exists logs,
    pinning_lines logs = [] /\
    forall s, get_manual_gas_price config self ledger depth s
              = (add_logs logs s, resolved_gas_price config self ledger depth).
Proof.
  destruct (get_manual_gas_price_effect ledger depth) as (logs & r & Hq & Hs).
  exists logs. split; [exact Hq|]. intros s.
  unfold resolved_gas_price. rewrite (Hs (initial_state _)). apply Hs.
Qed.


(** The fallback reads the same field again: each level logs the warning and
    calls itself, until the interpreter gives up. *)
Lemma get_manual_gas_price_unparsable ledger msg :
  is_automatic self = false ->
  float_of_str (strip (gas_price_var self)) = Raise (Exn ValueError msg) ->
  forall depth s,
    get_manual_gas_price config self ledger depth s
    = (add_logs (repeat (Warning, MsgInvalidGasPrice) depth) s,
       Raise (Exn RecursionError "maximum recursion depth exceeded")).
Proof.
  unfold is_automatic. intros Hauto Hparse.
  induction depth as [|depth IH]; intros s.
  - simpl. unfold raise. rewrite add_logs_nil. reflexivity.
  - simpl. rewrite Hauto.
    unfold catch_ValueError, mbind, lift at 1. rewrite Hparse.
    unfold log. rewrite IH, add_logs_add_logs. reflexivity.
Qed.

(** *** Gas limit *)

Lemma estimate_gas_limit_spec ledger :
  exists line,
    pinning_line line = None /\
    forall s, estimate_gas_limit config ledger s
              = (add_logs [line] s, Ok (gas_limit_of config ledger)).
Proof.
  unfold estimate_gas_limit, gas_limit_of, catch, mbind, lift, log, ret.
  destruct (pinFile_estimate_gas ledger) as [est|e]; simpl.
  - destruct (PyFloat.int_mul_trunc est _) as [b|e]; simpl.
    + assert (Hcap : (if b >? max_gas_limit config then max_gas_limit config else b)
                     = Z.min b (max_gas_limit config))
        by (destruct (Z.gtb_spec b (max_gas_limit config)); lia).
      rewrite Hcap.
      exists (Info, MsgEstimatedGas est (Z.min b (max_gas_limit config))).
      split; [reflexivity|]. intros s. reflexivity.
    + exists (Warning, MsgGasEstimationFailed (str_exn e)).
      split; [reflexivity|]. intros s. reflexivity.
  - exists (Warning, MsgGasEstimationFailed (str_exn e)).
    split; [reflexivity|]. intros s. reflexivity.
Qed.

Lemma log_hint_spec msg :
  exists lines,
    pinning_lines lines = [] /\
    forall s, log_hint msg s = (add_logs lines s, Ok tt).
Proof.
  unfold log_hint, log, ret.
  destruct (contains "insufficient funds" (lower msg)).
  { exists [(Warning, MsgInsufficientFunds)]. split; [reflexivity|]. reflexivity. }
  destruct (contains "gas required exceeds" (lower msg)).
  { exists [(Warning, MsgGasLimitTooLow)]. split; [reflexivity|]. reflexivity. }
  destruct (contains "replacement transaction underpriced" (lower msg)).
  { exists [(Warning, MsgGasPriceTooLowHint)]. split; [reflexivity|]. reflexivity. }
  destruct (contains "nonce too low" (lower msg)).
  { exists [(Warning, MsgNonceIssue)]. split; [reflexivity|]. reflexivity. }
  exists []. split; [reflexivity|]. intros s. rewrite add_logs_nil. reflexivity.
Qed.

End PanelFacts.

Section OneFile.
Context `{Runtime}.
Variable config : EncryptumConfig.
Variable self : Panel.

(** Refutes [goes_through] from the equation of the step that failed. *)
Ltac not_through :=
  let r := fresh "r" in
  let Hr := fresh "Hr" in
  intros [r Hr]; unfold went_through, run_transaction in Hr;
  repeat match goal with
         | Hc : _ /\ _ |- _ => destruct Hc
         end;
  congruence.

(** Closes the case of [pin_one_spec] in which the attempt has failed. *)
Ltac fail_leaf :=
  eexists _, _; split; [reflexivity|];
  split; [simpl; rewrite <- ?app_assoc; simpl; reflexivity|];
  split; [quiet|];
  right; split; [not_through|];
  repeat (split; [reflexivity|]);
  first [left; reflexivity | right; eexists; split; reflexivity].

(** The attempt raised [e]: the handler logs, hints and counts the failure. *)
Ltac failing e :=
  let hl := fresh "hl" in
  let Hhq := fresh "Hhq" in
  let Hh := fresh "Hh" in
  destruct (log_hint_spec (str_exn e)) as (hl & Hhq & Hh);
  unfold mbind, log, incr_failed; rewrite Hh; fail_leaf.

(** One iteration of the loop never raises. It opens the log with the line
    of the file, and then either every step went through and the file is
    counted as successful, its transaction built and sent and the registry
    callback made, or some step failed and the file is counted as failed, with
    no callback and no change to the registry. *)
Lemma pin_one_spec ledger depth now i file s :
  file_registry_callback self = Some gui_callback ->
  exists s' logs,
    pin_one config self ledger depth now i file s = (s', Ok tt) /\
    st_log s' = st_log s
                ++ (Info, MsgPinning (Z.of_nat i + 1)
                            (Z.of_nat (length (selected_files self)))
                            (original_name file)) :: logs /\
    pinning_lines logs = [] /\
    ((exists r,
         went_through config self ledger depth file r /\
         pinned_effect file (run_transaction config self ledger file r) (run_raw r)
           (make_pin_info (run_hash r) now (duration_var self) (network_var self)
              (gasUsed (run_receipt r)) (run_gwei r)) s s')
     \/ (~ goes_through config self ledger depth file /\
         failed_effect (gas_limit_of config ledger) s s')).
Proof.
  intros Hcb.
  destruct (get_manual_gas_price_frame config self ledger depth) as (glogs & Hgq & Hg).
  destruct (estimate_gas_limit_spec config ledger) as (eline & Heq & He).
  unfold pin_one, pin_attempt, catch.
  unfold mbind at 1. unfold log at 1. cbn beta iota.
  unfold mbind at 1. unfold lift at 1.
  destruct (calculatePinCost_call ledger) as [cost|e] eqn:Ecost; cbn beta iota;
    [|failing e].
  unfold mbind at 1. unfold lift at 1.
  destruct (eth_get_transaction_count ledger) as [nonce|e] eqn:Enonce; cbn beta iota;
    [|failing e].
  unfold mbind at 1. rewrite Hg.
  destruct (resolved_gas_price config self ledger depth) as [price|e] eqn:Eprice;
    cbn beta iota; [|failing e].
  unfold mbind at 1. unfold lift at 1.
  destruct (from_wei_float price Gwei) as [gwei|e] eqn:Egwei; cbn beta iota;
    [|failing e].
  unfold mbind at 1. unfold log at 1. cbn beta iota.
  unfold mbind at 1. rewrite He. cbn beta iota.
  unfold mbind at 1. unfold lift at 1.
  destruct (eth_chain_id ledger) as [chain|e] eqn:Echain; cbn beta iota;
    [|failing e].
  unfold mbind at 1. unfold lift at 1.
  destruct (pinFile_build_transaction ledger) as [[]|e] eqn:Ebuild; cbn beta iota;
    [|failing e].
  unfold mbind at 1. unfold record_built at 1. cbn beta iota.
  unfold mbind at 1. unfold lift at 1.
  destruct (from_wei_float (cost + gas_limit_of config ledger * price) Ether)
    as [tx_cost|e] eqn:Etxcost; cbn beta iota; [|failing e].
  unfold mbind at 1. unfold log at 1. cbn beta iota.
  unfold mbind at 1. cbn beta iota.
  unfold mbind at 1. unfold lift at 1.
  fold (signing_key self).
  fold (transaction_for self file cost (gas_limit_of config ledger) price nonce chain).
  destruct (sign_transaction _ _) as [raw|e] eqn:Esign; cbn beta iota.
  2:{ unfold mbind at 1. unfold log at 1. cbn beta iota. unfold raise at 1. cbn beta iota.
      failing e. }
  unfold mbind at 1. unfold record_sent at 1. cbn beta iota.
  unfold mbind at 1. unfold lift at 1.
  destruct (eth_send_raw_transaction ledger) as [tx_hash|e] eqn:Esend; cbn beta iota.
  2:{ unfold mbind at 1. unfold log at 1. cbn beta iota. unfold raise at 1. cbn beta iota.
      failing e. }
  unfold mbind at 1. unfold log at 1. cbn beta iota. unfold ret at 1. cbn beta iota.
  unfold mbind at 1. unfold log at 1. cbn beta iota.
  unfold mbind at 1. unfold lift at 1.
  destruct (eth_wait_for_transaction_receipt ledger) as [receipt|e] eqn:Ereceipt;
    cbn beta iota; [|failing e].
  destruct (status receipt =? 1) eqn:Estatus.
  2:{ unfold mbind, log, incr_failed. cbn beta iota.
      apply Z.eqb_neq in Estatus. fail_leaf. }
  apply Z.eqb_eq in Estatus.
  unfold mbind at 1. unfold lift at 1.
  destruct (from_wei_float (gasUsed receipt * price) Ether) as [gas_cost|e] eqn:Egascost;
    cbn beta iota; [|failing e].
  rewrite Hcb.
  unfold mbind, log, incr_successful, call_registry_callback, gui_callback. cbn beta iota.
  eexists _, _; split; [reflexivity|];
  split; [simpl; rewrite <- ?app_assoc; simpl; reflexivity|];
  split; [quiet|].
  left.
  exists {| run_cost := cost; run_nonce := nonce; run_price := price; run_gwei := gwei;
            run_chain := chain; run_tx_cost := tx_cost; run_raw := raw;
            run_hash := tx_hash; run_receipt := receipt; run_gas_cost := gas_cost |}.
  split.
  - unfold went_through, run_transaction. simpl. repeat split; assumption.
  - unfold pinned_effect, run_transaction. simpl. repeat split; reflexivity.
Qed.


(** The values of a run that goes through are determined by the answers. *)
Lemma went_through_functional ledger depth file r r' :
  went_through config self ledger depth file r ->
  went_through config self ledger depth file r' ->
  r = r'.
Proof.
  unfold went_through, run_transaction.
  destruct r, r'. simpl.
  intros (H1 & H2 & H3 & H4 & H5 & H6 & H7 & H8 & H9 & H10 & H11 & H12)
         (G1 & G2 & G3 & G4 & G5 & G6 & G7 & G8 & G9 & G10 & G11 & G12).
  f_equal; congruence.
Qed.

Lemma pin_one_through ledger depth now i file s r :
  file_registry_callback self = Some gui_callback ->
  went_through config self ledger depth file r ->
  exists s',
    pin_one config self ledger depth now i file s = (s', Ok tt) /\
    pinned_effect file (run_transaction config self ledger file r) (run_raw r)
      (make_pin_info (run_hash r) now (duration_var self) (network_var self)
         (gasUsed (run_receipt r)) (run_gwei r)) s s'.
Proof.
  intros Hcb Hr.
  destruct (pin_one_spec ledger depth now i file s Hcb)
    as (s' & logs & Hrun & _ & _ & [(r' & Hr' & Heff)|(Hnot & _)]).
  - rewrite (went_through_functional _ _ _ _ _ Hr Hr'). eauto.
  - exfalso. apply Hnot. exists r. exact Hr.
Qed.

End OneFile.

Section Batch.
Context `{Runtime}.
Variable config : EncryptumConfig.
Variable self : Panel.
Variable chain : nat -> Ledger.
Variable depth : nat.

Lemma through_length i files done :
  through config self chain depth i files done -> (length done <= length files)%nat.
Proof. induction 1; simpl; lia. Qed.

(** The loop visits every file in order and never raises; the files counted as
    successful are those whose attempt goes through, and the registry receives
    one callback for each of them, in order. *)
Lemma pin_loop_spec clock :
  file_registry_callback self = Some gui_callback ->
  forall files i s,
  exists s' done new,
    pin_loop config self chain depth clock i files s = (s', Ok tt) /\
    through config self chain depth i files done /\
    successful s' = successful s + Z.of_nat (length done) /\
    failed s' = failed s + Z.of_nat (length files - length done) /\
    pinning_lines (st_log s') = pinning_lines (st_log s) ++ expected_lines self i files /\
    st_callbacks s' = st_callbacks s ++ new /\
    map fst new = map file_id done /\
    Forall (fun cb : string * pydict => is_pin_info (snd cb)) new /\
    st_registry s' = apply_callbacks new (st_registry s).
Proof.
  intros Hcb. induction files as [|file rest IH]; intros i s.
  - exists s, [], []. simpl. unfold ret. rewrite !app_nil_r, Z.add_0_r.
    split; [reflexivity|]. split; [apply through_nil|].
    repeat split; try reflexivity; try lia. constructor.
  - simpl. unfold mbind.
    destruct (pin_one_spec config self (chain i) depth (clock i) i file s Hcb)
      as (s1 & logs & Hrun & Hlog & Hquiet & Hcase).
    rewrite Hrun.
    destruct (IH (S i) s1)
      as (s' & done & new & Hloop & Hthr & Hsucc & Hfail & Hlines & Hcbs & Hids
          & Hinfo & Hreg).
    rewrite Hloop.
    assert (Hlines' : pinning_lines (st_log s')
                      = pinning_lines (st_log s) ++ expected_lines self i (file :: rest)).
    { rewrite Hlines, Hlog, !pinning_lines_app. simpl.
      unfold pinning_lines at 2. simpl. fold (pinning_lines logs). rewrite Hquiet.
      simpl. rewrite <- app_assoc. reflexivity. }
    pose proof (through_length _ _ _ Hthr) as Hlen.
    destruct Hcase as [(r & Hwent & Hs & Hf & _ & _ & Hc & Hr)|(Hnot & Hs & Hf & Hc & Hr & _)].
    + exists s', (file :: done),
        ((file_id file,
          make_pin_info (run_hash r) (clock i) (duration_var self) (network_var self)
            (gasUsed (run_receipt r)) (run_gwei r)) :: new).
      split; [reflexivity|].
      split; [apply through_yes; [exists r; exact Hwent|exact Hthr]|].
      split; [rewrite Hsucc, Hs; simpl length; lia|].
      split; [rewrite Hfail, Hf; simpl length; lia|].
      split; [exact Hlines'|].
      split; [rewrite Hcbs, Hc, <- app_assoc; reflexivity|].
      split; [simpl; rewrite Hids; reflexivity|].
      split; [constructor; [simpl; unfold is_pin_info; eauto 10|exact Hinfo]|].
      rewrite Hreg, Hr. reflexivity.
    + exists s', done, new.
      split; [reflexivity|].
      split; [apply through_no; assumption|].
      split; [rewrite Hsucc, Hs; reflexivity|].
      split; [rewrite Hfail, Hf; simpl length; lia|].
      split; [exact Hlines'|].
      split; [rewrite Hcbs, Hc; reflexivity|].
      split; [exact Hids|].
      split; [exact Hinfo|].
      rewrite Hreg, Hr. reflexivity.
Qed.



Lemma apply_callbacks_invariant new :
  Forall (fun cb : string * pydict => is_pin_info (snd cb)) new ->
  forall reg : gmap string pydict,
    pin_invariant reg -> pin_invariant (apply_callbacks new reg).
Proof.
  unfold apply_callbacks.
  induction 1 as [|[id info] new (tx & now & d & net & g & gw & Hinfo) _ IH];
    intros reg Hinv; simpl; [exact Hinv|].
  apply IH. simpl in Hinfo. subst info.
  apply pin_invariant_update; [apply make_pin_info_pin_tx|exact Hinv].
Qed.


Lemma execute_pinning_spec clock s :
  file_registry_callback self = Some gui_callback ->
  exists s' done new,
    execute_pinning config self chain depth clock s
    = (s', PinningComplete (Z.of_nat (length done))
             (Z.of_nat (length (selected_files self) - length done))) /\
    through config self chain depth 0 (selected_files self) done /\
    successful s' = Z.of_nat (length done) /\
    failed s' = Z.of_nat (length (selected_files self) - length done) /\
    pinning_lines (st_log s')
    = pinning_lines (st_log s) ++ expected_lines self 0 (selected_files self) /\
    st_callbacks s' = st_callbacks s ++ new /\
    map fst new = map file_id done /\
    Forall (fun cb : string * pydict => is_pin_info (snd cb)) new /\
    st_registry s' = apply_callbacks new (st_registry s).
Proof.
  intros Hcb. unfold execute_pinning.
  match goal with
  | |- context [pin_loop _ _ _ _ _ _ _ ?s0] =>
      destruct (pin_loop_spec clock Hcb (selected_files self) 0%nat s0)
        as (s1 & done & new & Hloop & Hthr & Hsucc & Hfail & Hlines & Hcbs & Hids
            & Hinfo & Hreg)
  end.
  rewrite Hloop. simpl in Hsucc, Hfail, Hlines, Hcbs, Hreg.
  unfold log. eexists _, done, new.
  split; [rewrite Hsucc, Hfail; reflexivity|].
  split; [exact Hthr|].
  simpl. rewrite pinning_lines_app, Hlines. simpl. rewrite app_nil_r.
  repeat split; assumption.
Qed.

(** Whatever the node answers, [quote_total_cost] only writes to the log. *)
Lemma quote_total_cost_frame ledger :
  exists logs r,
    forall s, quote_total_cost config self ledger depth s = (add_logs logs s, r).
Proof.
  destruct (get_manual_gas_price_frame config self ledger depth) as (glogs & _ & Hg).
  unfold quote_total_cost, mbind, lift, ret.
  destruct (calculatePinCost_call ledger) as [cost|e].
  2:{ exists [], (Raise e). intros s. rewrite add_logs_nil. reflexivity. }
  destruct (from_wei_float cost Ether) as [cost_eth|e].
  2:{ exists [], (Raise e). intros s. rewrite add_logs_nil. reflexivity. }
  destruct (resolved_gas_price config self ledger depth) as [price|e] eqn:Eprice.
  2:{ exists glogs, (Raise e). intros s. rewrite Hg. reflexivity. }
  destruct (from_wei_float price Gwei) as [gwei|e] eqn:Egwei.
  2:{ exists glogs, (Raise e). intros s. rewrite Hg, Egwei. reflexivity. }
  destruct (from_wei_float (350000 * Z.of_nat (length (selected_files self)) * price) Ether)
    as [gas_eth|e] eqn:Egas.
  2:{ exists glogs, (Raise e). intros s. rewrite Hg, Egwei, Egas. reflexivity. }
  eexists glogs, _. intros s. rewrite Hg, Egwei, Egas. reflexivity.
Qed.

(** Unless [pin_files] reaches [execute_pinning], it changes nothing but the
    log: no transaction is built or sent, and the registry is not touched. *)
Lemma pin_files_abort_frame ledger confirm clock s :
  (forall outcome,
      snd (pin_files config self ledger confirm chain depth clock s) <> Started outcome) ->
  same_but_log s (fst (pin_files config self ledger confirm chain depth clock s)).
Proof.
  unfold pin_files.
  destruct (quote_total_cost_frame ledger) as (logs & r & Hq).
  destruct (selected_files self); [intros _; apply same_but_log_refl|].
  destruct (balance_wei <- eth_get_balance ledger;; from_wei_float balance_wei Ether);
    [|intros _; apply same_but_log_refl].
  rewrite Hq. destruct r as [[total gwei]|e]; [|intros _; apply same_but_log_add_logs].
  destruct (PyFloat.ltb _ _); [intros _; apply same_but_log_add_logs|].
  destruct confirm; simpl; [|intros _; apply same_but_log_add_logs].
  destruct (execute_pinning _ _ _ _ _ _) as [s2 outcome]. simpl.
  intros Hne. exfalso. apply (Hne outcome). reflexivity.
Qed.

End Batch.

(** *** Gas price resolution *)




(** C6 does not hold of the code. For a text that is neither "auto", empty nor
    a number, every level of [get_manual_gas_price] logs "Invalid gas price,
    using automatic" and calls itself on the same field: with [depth] frames
    left the warning is logged [depth] times, no price is returned, and the
    call ends in [RecursionError]. *)
Theorem invalid_gas_price_exhausts_the_stack `{Runtime}
    (config : EncryptumConfig) (self : Panel) (ledger : Ledger) (msg : string) :
  is_automatic self = false ->
  float_of_str (strip (gas_price_var self)) = Raise (Exn ValueError msg) ->
  forall (depth : nat) (s : State),
    get_manual_gas_price config self ledger depth s
    = (add_logs (repeat (Warning, MsgInvalidGasPrice) depth) s,
       Raise (Exn RecursionError "maximum recursion depth exceeded")).
Proof. apply get_manual_gas_price_unparsable. Qed.

Lemma invalid_gas_price_exhausts_the_stack_witness :
  get_manual_gas_price default_config (demo_panel "abc") good_ledger 1000
    (initial_state three_files_registry)
  = (add_logs (repeat (Warning, MsgInvalidGasPrice) 1000)
       (initial_state three_files_registry),
     Raise (Exn RecursionError "maximum recursion depth exceeded")).
Proof.
  apply (invalid_gas_price_exhausts_the_stack default_config (demo_panel "abc") good_ledger
           "could not convert string to float"); reflexivity.
Defined.

(** *** Gas limit *)

(** C7. For the file being processed: when gas estimation succeeds, the gas
    limit is the estimate times the configured buffer (truncated to an
    integer), capped at the configured maximum; when it fails, a warning is
    logged and the limit is the configured default. Either way the attempt
    goes on: [estimate_gas_limit] never raises, any transaction built for the
    file carries that limit, and when the other steps succeed the file is
    pinned with it. *)
Theorem gas_limit_resolution `{Runtime}
    (config : EncryptumConfig) (self : Panel) (ledger : Ledger)
    (depth : nat) (now : string) (i : nat) (file : FileSel) (s : State) :
  file_registry_callback self = Some gui_callback ->
  (forall estimated buffered,
      pinFile_estimate_gas ledger = Ok estimated ->
      PyFloat.int_mul_trunc estimated (gas_limit_buffer config) = Ok buffered ->
      gas_limit_of config ledger = Z.min buffered (max_gas_limit config)) /\
  (forall e,
      pinFile_estimate_gas ledger = Raise e ->
      gas_limit_of config ledger = default_gas_limit config /\
      estimate_gas_limit config ledger s
      = (add_logs [(Warning, MsgGasEstimationFailed (str_exn e))] s,
         Ok (default_gas_limit config))) /\
  (exists line,
      estimate_gas_limit config ledger s
      = (add_logs [line] s, Ok (gas_limit_of config ledger))) /\
  (exists s',
      pin_one config self ledger depth now i file s = (s', Ok tt) /\
      built_at_most_one (gas_limit_of config ledger) s s') /\
  (forall r,
      went_through config self ledger depth file r ->
      exists s',
        pin_one config self ledger depth now i file s = (s', Ok tt) /\
        st_built s' = st_built s ++ [run_transaction config self ledger file r] /\
        tx_gas (tx_params (run_transaction config self ledger file r))
        = gas_limit_of config ledger /\
        successful s' = successful s + 1 /\ failed s' = failed s).
Proof.
  intros Hcb. split; [|split; [|split; [|split]]].
  - intros estimated buffered Hest Hbuf. unfold gas_limit_of.
    rewrite Hest. simpl. rewrite Hbuf. reflexivity.
  - intros e Hest. split.
    + unfold gas_limit_of. rewrite Hest. reflexivity.
    + unfold estimate_gas_limit, catch, mbind, lift, log, ret. rewrite Hest. reflexivity.
  - destruct (estimate_gas_limit_spec config ledger) as (line & _ & Hline).
    exists line. apply Hline.
  - destruct (pin_one_spec config self ledger depth now i file s Hcb)
      as (s' & logs & Hrun & _ & _ & [(r & _ & _ & _ & Hb & _)|(_ & _ & _ & _ & _ & Hb)]).
    + exists s'. split; [exact Hrun|]. right. eexists. split; [exact Hb|reflexivity].
    + exists s'. split; [exact Hrun|exact Hb].
  - intros r Hr.
    destruct (pin_one_through config self ledger depth now i file s r Hcb Hr)
      as (s' & Hrun & Hs & Hf & Hb & _).
    exists s'. repeat split; assumption.
Qed.

(** The scenario of the specification: three files, estimation fails for the
    second only. *)
Lemma gas_limit_resolution_witness :
  gas_limit_of default_config good_ledger = 120000 /\
  gas_limit_of default_config (chain_no_estimate_for_second 1) = 500000 /\
  map (fun tx => tx_gas (tx_params tx)) (st_built (fst no_estimate_run))
  = [120000; 500000; 120000] /\
  snd no_estimate_run = PinningComplete 3 0.
Proof.
  pose proof (gas_limit_resolution default_config (demo_panel "Auto") good_ledger 1000
                (demo_clock 1) 1 second_file (initial_state three_files_registry) eq_refl)
    as (Hok & _).
  pose proof (gas_limit_resolution default_config (demo_panel "Auto")
                (chain_no_estimate_for_second 1) 1000
                (demo_clock 1) 1 second_file (initial_state three_files_registry) eq_refl)
    as (_ & Hfail & _).
  split; [apply (Hok 100000 120000); reflexivity|].
  split; [apply (Hfail node_error); reflexivity|].
  split; vm_compute; reflexivity.
Defined.

(** *** Batch accounting *)




(** *** Pre-flight balance check *)



(** *** The registry invariant *)

(** C9. Each mutation of the registry keeps "a record marked pinned has a
    [pin_tx]": the creation of a record by an upload, the update made when a
    pin transaction is confirmed (alone, and along a whole pinning run), and
    the deletion of the selected records. *)
Theorem registry_mutations_preserve_pin_invariant (reg : gmap string pydict) :
  pin_invariant reg ->
  (forall (C : Encryption.Cryptography) (I : IpfsNode)
          gateway_url iterations fs urandom nonce now file_path password,
      pin_invariant (fst (upload_file_thread gateway_url iterations fs urandom nonce now
                            file_path password reg))) /\
  (forall file_id tx_hash now duration network gas_used gwei,
      pin_invariant (update_file_pinning_status file_id
                       (make_pin_info tx_hash now duration network gas_used gwei) reg)) /\
  (forall (R : Runtime) config self chain depth clock s,
      file_registry_callback self = Some gui_callback ->
      st_registry s = reg ->
      pin_invariant (st_registry (fst (execute_pinning config self chain depth clock s)))) /\
  (forall askyesno selection, pin_invariant (delete_file askyesno selection reg)).
Proof.
  intros Hinv. split; [|split; [|split]].
  - intros. apply pin_invariant_upload, Hinv.
  - intros. apply pin_invariant_update; [apply make_pin_info_pin_tx|exact Hinv].
  - intros R config self chain depth clock s Hcb Hs.
    destruct (execute_pinning_spec config self chain depth clock s Hcb)
      as (s' & done & new & Hrun & _ & _ & _ & _ & _ & _ & Hinfo & Hreg).
    rewrite Hrun. simpl. rewrite Hreg, Hs.
    apply apply_callbacks_invariant; assumption.
  - intros. apply pin_invariant_delete_loop, Hinv.
Qed.

Lemma demo_registry_invariant : pin_invariant demo_registry.
Proof.
  intros id rec Hid _. unfold demo_registry in Hid.
  apply lookup_singleton_Some in Hid as [_ <-].
  exists (VStr "5e1f"). vm_compute. reflexivity.
Qed.

Lemma registry_mutations_preserve_pin_invariant_witness :
  pin_invariant demo_registry /\
  pin_invariant (fst overwrite_run) /\
  pin_invariant (delete_file (fun _ => true) [("ba7816bf8f01cfea", "abc.txt")] demo_registry).
Proof.
  destruct (registry_mutations_preserve_pin_invariant demo_registry demo_registry_invariant)
    as (Hupload & _ & _ & Hdelete).
  split; [exact demo_registry_invariant|]. split.
  - apply Hupload.
  - apply Hdelete.
Defined.

(** *** Manual price, selection and consent *)

(** A manual gas price that parses and is not below the configured minimum is
    used as typed (spaces around it ignored), converted from Gwei to wei, and
    nothing is logged. *)
Theorem manual_gas_price_used_as_given `{Runtime}
    (config : EncryptumConfig) (self : Panel) (ledger : Ledger) (depth : nat) (s : State)
    (x : float) (wei : Z) :
  is_automatic self = false ->
  float_of_str (strip (gas_price_var self)) = Ok x ->
  PyFloat.ltb x (min_gas_price_gwei config) = false ->
  to_wei x Gwei = Ok wei ->
  get_manual_gas_price config self ledger (S depth) s = (s, Ok wei).
Proof.
  unfold is_automatic. intros Hauto Hx Hlow Hwei. simpl.
  rewrite Hauto. unfold catch_ValueError, mbind, lift, log, ret.
  rewrite Hx, Hlow, Hwei. reflexivity.
Qed.

Lemma manual_gas_price_used_as_given_witness :
  get_manual_gas_price default_config (demo_panel " 25.5 ") good_ledger 1000
    (initial_state three_files_registry)
  = (initial_state three_files_registry, Ok 25500000000).
Proof.
  apply (manual_gas_price_used_as_given default_config (demo_panel " 25.5 ") good_ledger 999
           (initial_state three_files_registry) (PyFloat.of_ratio 51 2) 25500000000);
    vm_compute; reflexivity.
Defined.

(** [pin_files] starts nothing without a selection or without the user's
    consent: with no file selected it returns at once, and when the user does
    not confirm, [execute_pinning] is never reached and only the log can have
    changed. *)
Theorem pin_files_needs_selection_and_consent `{Runtime}
    (config : EncryptumConfig) (self : Panel) (ledger : Ledger)
    (chain : nat -> Ledger) (depth : nat) (clock : nat -> string) (s : State) :
  (selected_files self = [] ->
   forall confirm, pin_files config self ledger confirm chain depth clock s = (s, NoFiles)) /\
  (forall outcome,
      snd (pin_files config self ledger false chain depth clock s) <> Started outcome) /\
  same_but_log s (fst (pin_files config self ledger false chain depth clock s)).
Proof.
  assert (Hno : forall outcome,
             snd (pin_files config self ledger false chain depth clock s) <> Started outcome).
  { intros outcome. unfold pin_files.
    destruct (selected_files self); [discriminate|].
    destruct (balance_wei <- eth_get_balance ledger;; from_wei_float balance_wei Ether);
      [|discriminate].
    destruct (quote_total_cost _ _ _ _ _) as [s1 [[total gwei]|e]]; [|discriminate].
    destruct (PyFloat.ltb _ _); discriminate. }
  split; [|split].
  - intros Hnil confirm. unfold pin_files. rewrite Hnil. reflexivity.
  - exact Hno.
  - apply pin_files_abort_frame, Hno.
Qed.

Lemma pin_files_needs_selection_and_consent_witness :
  exists s',
    pin_files default_config (demo_panel "Auto") good_ledger false
      (fun _ => good_ledger) 1000 demo_clock (initial_state three_files_registry)
    = (s', Declined) /\
    st_built s' = [] /\ st_sent s' = [] /\ st_registry s' = three_files_registry.
Proof.
  destruct (pin_files_needs_selection_and_consent default_config (demo_panel "Auto")
              good_ledger (fun _ => good_ledger) 1000 demo_clock
              (initial_state three_files_registry))
    as (_ & _ & Hreg & Hbuilt & Hsent & _).
  eexists. split; [vm_compute; reflexivity|].
  split; [exact Hbuilt|]. split; [exact Hsent|exact Hreg].
Defined.

End BlockchainFacts.

(** ** Storage on IPFS and upload errors *)

Module StorageFacts.
Import Encryption Registry.


(** Every error of [store_encrypted_file] is a plain exception whose text
    starts with "IPFS storage failed: ". *)
Lemma store_encrypted_file_error `{IpfsNode} gateway_url now encrypted metadata e :
  store_encrypted_file gateway_url now encrypted metadata = Raise e ->
  exists cause, e = Exn Exception_ ("IPFS storage failed: " +:+ cause).
Proof.
  unfold store_encrypted_file, try_except.
  destruct (ipfs_add "encrypted_file" encrypted) as [cid|e1]; simpl;
    [|intros [= <-]; eauto].
  destruct (String.eqb cid ""); [intros [= <-]; eauto|].
  destruct (ipfs_add "metadata.json" _) as [mcid|e1]; simpl; [|intros [= <-]; eauto].
  destruct (String.eqb mcid ""); [intros [= <-]; eauto|discriminate].
Qed.

(** What a successful [store_encrypted_file] went through. *)
Lemma store_encrypted_file_inv `{IpfsNode} gateway_url now encrypted metadata ir :
  store_encrypted_file gateway_url now encrypted metadata = Ok ir ->
  exists cid mcid,
    ipfs_add "encrypted_file" encrypted = Ok cid /\ cid <> "" /\
    ipfs_add "metadata.json"
      (json_dumps (<["file_cid" := VStr cid]> (<["upload_timestamp" := VStr now]> metadata)))
    = Ok mcid /\ mcid <> "" /\
    ir = <["file_cid" := VStr cid]>
         (<["metadata_cid" := VStr mcid]>
         (<["gateway_url" := VStr (gateway_url +:+ cid)]>
         (<["metadata_gateway_url" := VStr (gateway_url +:+ mcid)]>
         (<["ipfs_urls" := VDict [("file", "ipfs://" +:+ cid);
                                  ("metadata", "ipfs://" +:+ mcid)]]> ∅)))).
Proof.
  unfold store_encrypted_file, try_except.
  destruct (ipfs_add "encrypted_file" encrypted) as [cid|e] eqn:Ecid; simpl; [|discriminate].
  destruct (String.eqb cid "") eqn:Ecid0; [discriminate|].
  destruct (ipfs_add "metadata.json" _) as [mcid|e] eqn:Emcid; simpl; [|discriminate].
  destruct (String.eqb mcid "") eqn:Emcid0; [discriminate|].
  intros [= <-]. exists cid, mcid.
  apply String.eqb_neq in Ecid0, Emcid0. repeat split; assumption.
Qed.

(** [store_encrypted_file] succeeds exactly when the node returns a content
    id for the ciphertext and one for the metadata, neither of them empty.
    The metadata it stores is the caller's with [upload_timestamp] and
    [file_cid] laid over it; the result holds exactly five keys, built from
    the two ids and the gateway address. An answer without a content id is
    reported as "No CID returned from IPFS", and every error carries the
    prefix "IPFS storage failed: ". *)
Theorem store_encrypted_file_result `{IpfsNode}
    (gateway_url now : string) (encrypted : bytes) (metadata : pydict) :
  (forall ir,
      store_encrypted_file gateway_url now encrypted metadata = Ok ir <->
      exists cid mcid,
        ipfs_add "encrypted_file" encrypted = Ok cid /\ cid <> "" /\
        ipfs_add "metadata.json"
          (json_dumps (<["file_cid" := VStr cid]>
                         (<["upload_timestamp" := VStr now]> metadata)))
        = Ok mcid /\ mcid <> "" /\
        ir = <["file_cid" := VStr cid]>
             (<["metadata_cid" := VStr mcid]>
             (<["gateway_url" := VStr (gateway_url +:+ cid)]>
             (<["metadata_gateway_url" := VStr (gateway_url +:+ mcid)]>
             (<["ipfs_urls" := VDict [("file", "ipfs://" +:+ cid);
                                      ("metadata", "ipfs://" +:+ mcid)]]> ∅))))) /\
  (forall ir,
      store_encrypted_file gateway_url now encrypted metadata = Ok ir ->
      dom ir = ({["file_cid"; "metadata_cid"; "gateway_url"; "metadata_gateway_url";
                  "ipfs_urls"]} : gset string)) /\
  (ipfs_add "encrypted_file" encrypted = Ok "" ->
   store_encrypted_file gateway_url now encrypted metadata
   = Raise (Exn Exception_ "IPFS storage failed: No CID returned from IPFS")) /\
  (forall e,
      store_encrypted_file gateway_url now encrypted metadata = Raise e ->
      exists cause, e = Exn Exception_ ("IPFS storage failed: " +:+ cause)).
Proof.
  assert (Hinv := fun ir => store_encrypted_file_inv gateway_url now encrypted metadata ir).
  split; [|split; [|split]].
  - intros ir. split; [apply Hinv|].
    intros (cid & mcid & Hcid & Hne & Hmcid & Hmne & ->).
    unfold store_encrypted_file, try_except. rewrite Hcid. simpl.
    apply String.eqb_neq in Hne, Hmne. rewrite Hne, Hmcid. simpl. rewrite Hmne.
    reflexivity.
  - intros ir Hir. destruct (Hinv ir Hir) as (cid & mcid & _ & _ & _ & _ & ->).
    rewrite !dom_insert_L, dom_empty_L. set_solver.
  - intros Hcid. unfold store_encrypted_file, try_except. rewrite Hcid. reflexivity.
  - intros e. apply store_encrypted_file_error.
Qed.

Lemma store_encrypted_file_result_witness :
  dom abc_stored
  = ({["file_cid"; "metadata_cid"; "gateway_url"; "metadata_gateway_url"; "ipfs_urls"]}
     : gset string).
Proof.
  destruct (store_encrypted_file_result "https://ipfs.io/ipfs/" "2025-01-01T00:00:00"
              (encrypted_data abc_encrypted) (upload_metadata abc_encrypted))
    as (_ & Hdom & _).
  apply Hdom. vm_compute. reflexivity.
Defined.



End StorageFacts.

(** ** Retrieval and download *)

Module DownloadFacts.
Import Encryption Registry Download.

(** One byte, written as two digits by [bytes.hex], is read back by
    [bytes.fromhex]. *)
Lemma hex_digits_of_byte (b : byte) :
  let z := Z_of_byte b in
  is_hex_space (hex_digit_lower (z / 16)) = false /\
  hex_value (hex_digit_lower (z / 16)) = Some (z / 16) /\
  hex_value (hex_digit_lower (z mod 16)) = Some (z mod 16) /\
  byte_of_Z (16 * (z / 16) + z mod 16) = b.
Proof. destruct b; vm_compute; repeat split; reflexivity. Qed.

Lemma fromhex_text_hex (bs : bytes) :
  fromhex_text (hex_of_bytes (map Z_of_byte bs)) = Some bs.
Proof.
  induction bs as [|b bs IH]; [reflexivity|].
  destruct (hex_digits_of_byte b) as (Hsp & Hh & Hl & Hb).
  cbn [map hex_of_bytes fromhex_text].
  rewrite Hsp, Hh, Hl, IH, Hb. reflexivity.
Qed.

Section Facts.
Context `{Cryptography} `{IpfsGateway}.
Variable iterations : Z.
Variable repr_str : string -> string.
Variable open_wb : string -> result unit.


End Facts.




(** The entry written by an upload keeps the content ids of [ipfs_result]. *)
Lemma file_entry_keeps_cids er (ir : pydict) now :
  file_entry er ir now !! "file_cid" = ir !! "file_cid" /\
  file_entry er ir now !! "metadata_cid" = ir !! "metadata_cid".
Proof.
  unfold file_entry. split; repeat (rewrite lookup_insert_ne by discriminate); reflexivity.
Qed.

Lemma upload_metadata_salt er :
  upload_metadata er !! "salt" = Some (VStr (hex_of_bytes (map Z_of_byte (salt er)))) /\
  upload_metadata er !! "original_hash" = Some (VStr (original_hash er)).
Proof.
  unfold upload_metadata. split.
  - repeat (rewrite lookup_insert_ne by discriminate). apply lookup_insert_eq.
  - repeat (rewrite lookup_insert_ne by discriminate). apply lookup_insert_eq.
Qed.

(** What [encrypt_file] returns decrypts to the content of the file, whose
    digest it recorded. *)
Lemma encrypt_file_then_decrypt `{FernetCorrect}
    iterations (fs : gmap string bytes) urandom nonce path W er :
  encrypt_file iterations fs urandom nonce path W = Ok er ->
  exists P,
    fs !! path = Some P /\
    decrypt_file iterations (encrypted_data er) W (salt er) = Ok P /\
    original_hash er = Sha256.hexdigest P.
Proof.
  intros HE.
  destruct (EncryptionFacts.encrypt_file_inv _ _ _ _ _ _ _ HE)
    as (P & ks & f & HP & Hne & HK & HF & ->).
  exists P. simpl. split; [exact HP|]. split; [|reflexivity].
  unfold decrypt_file.
  rewrite (EncryptionFacts.generate_key_fresh_salt _ _ _ _ HK). simpl.
  rewrite HF. simpl. rewrite fernet_decrypt_encrypt. reflexivity.
Qed.

(** Upload, then download with the same password: when the node gives back
    the two blocks the upload stored and the disk accepts the write,
    [download_file_thread] for the id that the upload reported writes at
    [save_path] exactly the content of the uploaded file. *)
Theorem upload_then_download_restores_the_file `{FernetCorrect} `{IpfsNode} `{IpfsGateway}
    (gateway_url : string) (iterations : Z) (fs : gmap string bytes)
    (urandom : bytes) (nonce : fernet_nonce) (now file_path password : string)
    (reg : gmap string pydict) (er : EncryptionResult) (ir : pydict)
    (repr_str : string -> string) (open_wb : string -> result unit)
    (save_path : string) (disk : gmap string bytes) :
  encrypt_file iterations fs urandom nonce file_path password = Ok er ->
  store_encrypted_file gateway_url now (encrypted_data er) (upload_metadata er) = Ok ir ->
  serves_back ir er ->
  open_wb save_path = Ok tt ->
  exists P file_id reg',
    fs !! file_path = Some P /\
    upload_file_thread gateway_url iterations fs urandom nonce now file_path password reg
    = (reg', UploadSuccess file_id ir) /\
    download_file_thread iterations repr_str open_wb file_id password save_path reg' disk
    = (<[save_path := P]> disk, DownloadSuccess save_path).
Proof.
  intros Henc Hstore Hback Hopen.
  destruct (encrypt_file_then_decrypt _ _ _ _ _ _ _ Henc) as (P & HP & Hdec & Hhash).
  destruct Hback as (cid & mcid & r1 & r2 & metadata & Hcid & Hmcid & Hp1 & Hs1 & Hc1
                     & Hp2 & Hs2 & Hjson & Hsalt & Horig).
  destruct (upload_metadata_salt er) as (Hmsalt & Hmorig).
  destruct (file_entry_keeps_cids er ir now) as (Hecid & Hemcid).
  exists P, (take_str 16 (original_hash er)),
    (<[take_str 16 (original_hash er) := file_entry er ir now]> reg).
  split; [exact HP|]. split.
  - unfold upload_file_thread. rewrite Henc. simpl. rewrite Hstore. reflexivity.
  - unfold download_file_thread, download_attempt, and_then, getitem, of_result.
    rewrite lookup_insert_eq, Hecid, Hcid.
    unfold retrieve_file, try_except. rewrite Hp1. simpl. rewrite Hs1. simpl.
    rewrite Hemcid, Hmcid.
    unfold retrieve_metadata, try_except. rewrite Hp2. simpl. rewrite Hs2. simpl.
    rewrite Hjson. unfold index, getitem. rewrite Hsalt, Hmsalt.
    unfold fromhex. rewrite fromhex_text_hex. rewrite Hc1, Hdec.
    rewrite Horig, Hmorig, Hhash.
    unfold verify_against, verify_file_integrity. rewrite String.eqb_refl.
    rewrite Hopen. reflexivity.
Qed.

Lemma upload_then_download_restores_the_file_witness :
  exists file_id reg',
    overwrite_run = (reg', UploadSuccess file_id abc_stored) /\
    download_file_thread (H := demo_cryptography) 100000 quoted open_always
      file_id "pw" "/tmp/out.txt" reg' ∅
    = (<["/tmp/out.txt" := bytes_of_string "abc"]> ∅, DownloadSuccess "/tmp/out.txt").
Proof.
  assert (Henc : encrypt_file (H := demo_cryptography) 100000 abc_fs
                   (bytes_of_string "0123456789abcdef") tt "/tmp/abc.txt" "pw"
                 = Ok abc_encrypted)
    by (vm_compute; reflexivity).
  assert (Hstore : store_encrypted_file "https://ipfs.io/ipfs/" "2025-01-01T00:00:00"
                     (encrypted_data abc_encrypted) (upload_metadata abc_encrypted)
                   = Ok abc_stored)
    by (vm_compute; reflexivity).
  assert (Hback : serves_back abc_stored abc_encrypted).
  { exists (default VNone (abc_stored !! "file_cid")),
      (default VNone (abc_stored !! "metadata_cid")),
      {| status_code := 200; content := encrypted_data abc_encrypted; text := "" |},
      {| status_code := 200; content := json_dumps abc_metadata; text := "" |},
      abc_metadata.
    repeat split; vm_compute; reflexivity. }
  destruct (upload_then_download_restores_the_file (H0 := EncryptionFacts.demo_fernet_correct)
              "https://ipfs.io/ipfs/" 100000 abc_fs (bytes_of_string "0123456789abcdef") tt
              "2025-01-01T00:00:00" "/tmp/abc.txt" "pw" demo_registry
              abc_encrypted abc_stored quoted open_always "/tmp/out.txt" ∅
              Henc Hstore Hback eq_refl)
    as (P & file_id & reg' & HP & Hup & Hdown).
  assert (P = bytes_of_string "abc") as ->.
  { unfold abc_fs in HP. rewrite lookup_singleton_eq in HP. congruence. }
  exists file_id, reg'. split; [exact Hup|exact Hdown].
Defined.

(** [download_file] acts on the first selected row only, and only when its id
    is in the registry and both dialogs were answered; otherwise the disk is
    as it was. Whatever happens, no path other than the one chosen in the save
    dialog is written, and a file is written there only with content that
    passed the integrity check of [download_file_thread]. *)
Theorem download_file_writes_at_the_chosen_path_only `{Cryptography} `{IpfsGateway}
    (iterations : Z) (repr_str : string -> string) (open_wb : string -> result unit)
    (selection : list (string * string)) (askstring : option string)
    (asksaveasfilename : string) (reg : gmap string pydict) (fs : gmap string bytes) :
  let r := download_file iterations repr_str open_wb selection askstring
             asksaveasfilename reg fs in
  (forall path, path <> asksaveasfilename -> fst r !! path = fs !! path) /\
  (fst r = fs \/
   exists file_id name rest password P,
     selection = (file_id, name) :: rest /\ is_Some (reg !! file_id) /\
     askstring = Some password /\ password <> "" /\ asksaveasfilename <> "" /\
     download_attempt iterations repr_str open_wb file_id password asksaveasfilename reg
     = Got P /\
     r = (<[asksaveasfilename := P]> fs, Downloaded (DownloadSuccess asksaveasfilename))) /\
  (forall outcome,
      snd r = Downloaded outcome ->
      exists file_id name rest password,
        selection = (file_id, name) :: rest /\ askstring = Some password /\
        download_file_thread iterations repr_str open_wb file_id password
          asksaveasfilename reg fs = (fst r, outcome)).
Proof.
  intros r. subst r. unfold download_file.
  destruct selection as [|[file_id name] rest].
  { split; [reflexivity|]. split; [left; reflexivity|]. discriminate. }
  destruct (reg !! file_id) as [record|] eqn:Erec.
  2:{ split; [reflexivity|]. split; [left; reflexivity|]. discriminate. }
  destruct askstring as [password|].
  2:{ split; [reflexivity|]. split; [left; reflexivity|]. discriminate. }
  destruct (String.eqb password "") eqn:Epw; simpl.
  { split; [reflexivity|]. split; [left; reflexivity|]. discriminate. }
  destruct (String.eqb asksaveasfilename "") eqn:Epath; simpl.
  { split; [reflexivity|]. split; [left; reflexivity|]. discriminate. }
  apply String.eqb_neq in Epw, Epath.
  unfold download_file_thread.
  destruct (download_attempt _ _ _ _ _ _ _) as [P|error] eqn:E; simpl.
  - split; [intros path Hne; apply lookup_insert_ne; congruence|]. split.
    + right. exists file_id, name, rest, password, P.
      split; [reflexivity|]. split; [rewrite Erec; eexists; reflexivity|].
      split; [reflexivity|]. split; [exact Epw|]. split; [exact Epath|].
      split; [exact E|reflexivity].
    + intros outcome [= <-]. exists file_id, name, rest, password.
      rewrite E. repeat split.
  - split; [reflexivity|]. split; [left; reflexivity|].
    intros outcome [= <-]. exists file_id, name, rest, password.
    rewrite E. repeat split.
Qed.

End DownloadFacts.

(** ** Selection *)

Module SelectionFacts.
Import Encryption Registry Blockchain Selection.

Lemma selection_loop_acc selection (reg : gmap string pydict) acc :
  selection_loop selection reg acc
  = match selection_loop selection reg [] with
    | Selected files => Selected (acc ++ files)
    | MissingKey key => MissingKey key
    end.
Proof.
  revert acc. induction selection as [|[id name] rest IH]; intros acc; simpl.
  - rewrite app_nil_r. reflexivity.
  - destruct (reg !! id) as [info|]; [|apply IH].
    destruct (get_truthy info "blockchain_pinned"); simpl; [apply IH|].
    destruct (selected_entry id info) as [key|entry]; [reflexivity|].
    rewrite (IH (acc ++ [entry])), (IH [entry]).
    destruct (selection_loop rest reg []); [|reflexivity].
    rewrite <- app_assoc. reflexivity.
Qed.

Lemma selected_entry_inv id (info entry : pydict) :
  selected_entry id info = inr entry ->
  entry !! "file_id" = Some (VStr id) /\
  entry !! "file_cid" = info !! "file_cid" /\ is_Some (info !! "file_cid") /\
  entry !! "metadata_cid" = info !! "metadata_cid" /\ is_Some (info !! "metadata_cid") /\
  entry !! "original_size" = Some (default (VInt 0) (info !! "original_size")) /\
  entry !! "original_name" = Some (default (VStr "Unknown") (info !! "original_name")).
Proof.
  unfold selected_entry.
  destruct (info !! "file_cid") as [c|]; [|discriminate].
  destruct (info !! "metadata_cid") as [m|]; [|discriminate].
  intros [= <-].
  repeat split; try (eexists; reflexivity);
    repeat (rewrite lookup_insert_ne by discriminate); apply lookup_insert_eq.
Qed.

(** What [on_file_selection_changed] builds, and when it fails. *)
Lemma on_file_selection_changed_spec
    (selection : list (string * string)) (reg : gmap string pydict) :
  (forall files,
      on_file_selection_changed selection reg = Selected files ->
      omap (fun entry : pydict => entry !! "file_id") files
      = map VStr (List.filter (selectable reg) (map fst selection)) /\
      Forall (fun entry : pydict =>
                exists file_id file_info,
                  entry !! "file_id" = Some (VStr file_id) /\
                  reg !! file_id = Some file_info /\
                  get_truthy file_info "blockchain_pinned" = false /\
                  entry !! "file_cid" = file_info !! "file_cid" /\
                  entry !! "metadata_cid" = file_info !! "metadata_cid" /\
                  entry !! "original_size"
                  = Some (default (VInt 0) (file_info !! "original_size")) /\
                  entry !! "original_name"
                  = Some (default (VStr "Unknown") (file_info !! "original_name")))
             files) /\
  (forall key,
      on_file_selection_changed selection reg = MissingKey key ->
      exists file_id file_info,
        file_id ∈ map fst selection /\ reg !! file_id = Some file_info /\
        get_truthy file_info "blockchain_pinned" = false /\
        file_info !! key = None /\ (key = "file_cid" \/ key = "metadata_cid")) /\
  ((forall file_id file_info,
       reg !! file_id = Some file_info ->
       is_Some (file_info !! "file_cid") /\ is_Some (file_info !! "metadata_cid")) ->
   exists files, on_file_selection_changed selection reg = Selected files).
Proof.
  unfold on_file_selection_changed.
  induction selection as [|[id name] rest (IHok & IHkey & IHall)]; simpl.
  { split; [|split].
    - intros files [= <-]. split; [reflexivity|constructor].
    - discriminate.
    - intros _. exists []. reflexivity. }
  unfold selectable at 1 3.
  destruct (reg !! id) as [info|] eqn:Einfo.
  2:{ split; [exact IHok|]. split; [|exact IHall].
      intros key Hkey. destruct (IHkey key Hkey) as (i & fi & Hi & Hrest).
      exists i, fi. split; [apply elem_of_cons; right; exact Hi|exact Hrest]. }
  destruct (get_truthy info "blockchain_pinned") eqn:Epin; simpl.
  { split; [exact IHok|]. split; [|exact IHall].
    intros key Hkey. destruct (IHkey key Hkey) as (i & fi & Hi & Hrest).
    exists i, fi. split; [apply elem_of_cons; right; exact Hi|exact Hrest]. }
  destruct (selected_entry id info) as [key|entry] eqn:Eentry.
  - split; [discriminate|]. split.
    + intros key' [= <-]. exists id, info.
      split; [apply elem_of_cons; left; reflexivity|].
      split; [exact Einfo|]. split; [exact Epin|].
      unfold selected_entry in Eentry.
      destruct (info !! "file_cid") eqn:Ec.
      * destruct (info !! "metadata_cid") eqn:Em; [discriminate|].
        injection Eentry as <-. split; [exact Em|right; reflexivity].
      * injection Eentry as <-. split; [exact Ec|left; reflexivity].
    + intros Hall. destruct (Hall id info Einfo) as ([c Hc] & [m Hm]).
      unfold selected_entry in Eentry. rewrite Hc, Hm in Eentry. discriminate.
  - rewrite selection_loop_acc.
    destruct (selection_loop rest reg []) as [files|key] eqn:Erest.
    + split; [|split; [discriminate|]].
      * intros files' [= <-].
        destruct (IHok files eq_refl) as (Hids & Hall).
        destruct (selected_entry_inv _ _ _ Eentry)
          as (Hid & Hc & _ & Hm & _ & Hsize & Hname).
        split.
        -- simpl. rewrite Hid. simpl. f_equal. exact Hids.
        -- constructor; [|exact Hall].
           exists id, info. repeat split; assumption.
      * intros _. eexists. reflexivity.
    + split; [discriminate|]. split.
      * intros key' [= <-]. destruct (IHkey key eq_refl) as (i & fi & Hi & Hrest).
        exists i, fi. split; [apply elem_of_cons; right; exact Hi|exact Hrest].
      * intros Hall. destruct (IHall Hall) as (files & Hfiles). discriminate.
Qed.



Lemma selectable_after_pin_update (reg : gmap string pydict) id info other :
  get_truthy info "blockchain_pinned" = true ->
  selectable (update_file_pinning_status id info reg) other
  = if String.eqb other id then false else selectable reg other.
Proof.
  intros Hpin. unfold selectable, update_file_pinning_status.
  destruct (String.eqb_spec other id) as [->|Hne].
  - destruct (reg !! id) as [record|] eqn:E.
    + rewrite lookup_insert_eq.
      unfold get_truthy in *.
      destruct (info !! "blockchain_pinned") as [v|] eqn:Ev; [|discriminate].
      erewrite lookup_union_Some_l by exact Ev. rewrite Hpin. reflexivity.
    + rewrite E. reflexivity.
  - destruct (reg !! id) as [record|] eqn:E; [|reflexivity].
    rewrite lookup_insert_ne by congruence. reflexivity.
Qed.

Lemma selectable_after_callbacks new (reg : gmap string pydict) other :
  Forall (fun cb : string * pydict => Blockchain.is_pin_info (snd cb)) new ->
  selectable (Blockchain.apply_callbacks new reg) other
  = if bool_decide (other ∈ map fst new) then false else selectable reg other.
Proof.
  unfold Blockchain.apply_callbacks. intros Hinfo. revert reg.
  induction Hinfo as [|[id info] new Hinfo _ IH]; intros reg; simpl; [reflexivity|].
  rewrite IH.
  destruct Hinfo as (tx & now & d & net & gas & gwei & Hinfo). simpl in Hinfo.
  rewrite selectable_after_pin_update.
  2:{ unfold get_truthy. rewrite Hinfo, RegistryFacts.make_pin_info_pinned. reflexivity. }
  destruct (String.eqb_spec other id) as [->|Hne].
  - rewrite (bool_decide_eq_true_2 (id ∈ id :: map fst new)) by (left).
    destruct (bool_decide _); reflexivity.
  - destruct (bool_decide (other ∈ map fst new)) eqn:E.
    + apply bool_decide_eq_true_1 in E.
      rewrite bool_decide_eq_true_2 by (right; exact E). reflexivity.
    + apply bool_decide_eq_false_1 in E.
      rewrite bool_decide_eq_false_2; [reflexivity|].
      intros Hin. apply elem_of_cons in Hin as [?|?]; contradiction.
Qed.

(** After a pinning run, a new selection never offers a file for which the
    run made its registry callback, whatever rows are selected, and the other
    files are offered exactly as before the run. *)
Theorem pinned_files_are_not_offered_again `{Blockchain.Runtime}
    (config : Blockchain.EncryptumConfig) (self : Blockchain.Panel)
    (chain : nat -> Blockchain.Ledger) (depth : nat) (clock : nat -> string)
    (s : Blockchain.State) (selection : list (string * string)) :
  Blockchain.file_registry_callback self = Some Blockchain.gui_callback ->
  let s' := fst (Blockchain.execute_pinning config self chain depth clock s) in
  exists new,
    Blockchain.st_callbacks s' = Blockchain.st_callbacks s ++ new /\
    (forall file_id,
        selectable (Blockchain.st_registry s') file_id
        = if bool_decide (file_id ∈ map fst new) then false
          else selectable (Blockchain.st_registry s) file_id) /\
    (forall files,
        on_file_selection_changed selection (Blockchain.st_registry s') = Selected files ->
        forall entry file_id,
          entry ∈ files -> file_id ∈ map fst new ->
          entry !! "file_id" <> Some (VStr file_id)).
Proof.
  intros Hcb s'. subst s'.
  destruct (BlockchainFacts.execute_pinning_spec config self chain depth clock s Hcb)
    as (s' & done & new & Hrun & _ & _ & _ & _ & Hcbs & _ & Hinfo & Hreg).
  rewrite Hrun. simpl. exists new. split; [exact Hcbs|].
  assert (Hsel : forall file_id,
             selectable (Blockchain.st_registry s') file_id
             = if bool_decide (file_id ∈ map fst new) then false
               else selectable (Blockchain.st_registry s) file_id).
  { intros file_id. rewrite Hreg. apply selectable_after_callbacks, Hinfo. }
  split; [exact Hsel|].
  intros files Hfiles entry file_id Hentry Hnew Hid.
  destruct (on_file_selection_changed_spec selection (Blockchain.st_registry s'))
    as (Hok & _).
  destruct (Hok files Hfiles) as (_ & Hall).
  rewrite Forall_forall in Hall.
  destruct (Hall entry Hentry) as (id & info & Hid' & Hinfo' & Hpin & _).
  assert (id = file_id) as -> by congruence.
  specialize (Hsel file_id). rewrite bool_decide_eq_true_2 in Hsel by exact Hnew.
  unfold selectable in Hsel. rewrite Hinfo', Hpin in Hsel. discriminate.
Qed.

(** Three files listed and selected; the run pins the first and the third;
    selecting the three rows again offers the second only. *)
Lemma pinned_files_are_not_offered_again_witness :
  exists new,
    Blockchain.st_callbacks (fst listed_run) = [] ++ new /\
    map fst new = ["aaaa000000000001"; "cccc000000000003"] /\
    (forall file_id,
        selectable (Blockchain.st_registry (fst listed_run)) file_id
        = if bool_decide (file_id ∈ map fst new) then false
          else selectable listed_registry file_id).
Proof.
  assert (Hcb : Blockchain.file_registry_callback (Blockchain.demo_panel "Auto")
                = Some Blockchain.gui_callback) by reflexivity.
  unfold listed_run.
  destruct (pinned_files_are_not_offered_again Blockchain.default_config
              (Blockchain.demo_panel "Auto") Blockchain.chain_rejecting_second 1000
              Blockchain.demo_clock (Blockchain.initial_state listed_registry)
              listed_rows Hcb) as (new & Hcbs & Hsel & _).
  exists new. split; [exact Hcbs|]. split; [|exact Hsel].
  match type of Hcbs with
  | ?run = _ => assert (Hnew : new = run) by (symmetry; exact Hcbs)
  end.
  rewrite Hnew. vm_compute. reflexivity.
Defined.



End SelectionFacts.

(** ** The pinning loop: callbacks, receipts and the gas price field *)

Module PinningFacts.
Import Registry Blockchain Pinning RegistryFacts BlockchainFacts.

Section OneAttempt.
Context `{Runtime}.
Variable config : EncryptumConfig.
Variable self : Panel.

(** The attempt for [file] up to the receipt, when every step before it
    succeeds: what [pin_one] then does is decided by the receipt and by the
    callback. *)
Lemma pin_one_sent ledger depth now i file s
    cost nonce price gwei chain tx_cost raw tx_hash :
  calculatePinCost_call ledger = Ok cost ->
  eth_get_transaction_count ledger = Ok nonce ->
  resolved_gas_price config self ledger depth = Ok price ->
  from_wei_float price Gwei = Ok gwei ->
  eth_chain_id ledger = Ok chain ->
  pinFile_build_transaction ledger = Ok tt ->
  from_wei_float (cost + gas_limit_of config ledger * price) Ether = Ok tx_cost ->
  sign_transaction
    (transaction_for self file cost (gas_limit_of config ledger) price nonce chain)
    (signing_key self) = Ok raw ->
  eth_send_raw_transaction ledger = Ok tx_hash ->
  exists logs s1,
    st_registry s1 = st_registry s /\ st_callbacks s1 = st_callbacks s /\
    successful s1 = successful s /\ failed s1 = failed s /\
    st_built s1
    = st_built s
      ++ [transaction_for self file cost (gas_limit_of config ledger) price nonce chain] /\
    st_sent s1 = st_sent s ++ [raw] /\
    st_log s1 = st_log s ++ logs /\
    pin_one config self ledger depth now i file s
    = catch
        (receipt <~ lift (eth_wait_for_transaction_receipt ledger) ;;
         if status receipt =? 1 then
           let actual_gas_used := gasUsed receipt in
           actual_gas_cost <~ lift (from_wei_float (actual_gas_used * price) Ether) ;;
           log Success (MsgPinned actual_gas_used actual_gas_cost) ;;;
           incr_successful ;;;
           match file_registry_callback self with
           | Some cb =>
               call_registry_callback cb (file_id file)
                 (make_pin_info tx_hash now (duration_var self) (network_var self)
                    actual_gas_used gwei)
           | None => ret tt
           end
         else
           log Error (MsgTransactionFailed (original_name file)) ;;;
           incr_failed)
        (fun e =>
           let error_msg := str_exn e in
           log Error (MsgFailedToPin (original_name file) error_msg) ;;;
           log_hint error_msg ;;;
           incr_failed)
        s1.
Proof.
  intros Ecost Enonce Eprice Egwei Echain Ebuild Etxcost Esign Esend.
  destruct (get_manual_gas_price_frame config self ledger depth) as (glogs & Hgq & Hg).
  destruct (estimate_gas_limit_spec config ledger) as (eline & Heq & He).
  unfold pin_one, pin_attempt, catch.
  unfold mbind at 1. unfold log at 1. cbn beta iota.
  unfold mbind at 1. unfold lift at 1. rewrite Ecost. cbn beta iota.
  unfold mbind at 1. unfold lift at 1. rewrite Enonce. cbn beta iota.
  unfold mbind at 1. rewrite Hg, Eprice. cbn beta iota.
  unfold mbind at 1. unfold lift at 1. rewrite Egwei. cbn beta iota.
  unfold mbind at 1. unfold log at 1. cbn beta iota.
  unfold mbind at 1. rewrite He. cbn beta iota.
  unfold mbind at 1. unfold lift at 1. rewrite Echain. cbn beta iota.
  unfold mbind at 1. unfold lift at 1. rewrite Ebuild. cbn beta iota.
  unfold mbind at 1. unfold record_built at 1. cbn beta iota.
  unfold mbind at 1. unfold lift at 1. rewrite Etxcost. cbn beta iota.
  unfold mbind at 1. unfold log at 1. cbn beta iota.
  unfold mbind at 1. cbn beta iota.
  unfold mbind at 1. unfold lift at 1.
  fold (signing_key self).
  fold (transaction_for self file cost (gas_limit_of config ledger) price nonce chain).
  rewrite Esign. cbn beta iota.
  unfold mbind at 1. unfold record_sent at 1. cbn beta iota.
  unfold mbind at 1. unfold lift at 1. rewrite Esend. cbn beta iota.
  unfold mbind at 1. unfold log at 1. cbn beta iota. unfold ret at 1. cbn beta iota.
  unfold mbind at 1. unfold log at 1. cbn beta iota.
  do 2 eexists.
  split; [|split; [|split; [|split; [|split; [|split; [|split]]]]]].
  8: reflexivity.
  all: simpl; rewrite <- ?app_assoc; reflexivity.
Qed.

(** The handler of [pin_one], run after the attempt raised [e]. *)
Lemma pin_one_handler (file : FileSel) e s1 :
  exists s',
    (log Error (MsgFailedToPin (original_name file) (str_exn e)) ;;;
     log_hint (str_exn e) ;;;
     incr_failed) s1 = (s', Ok tt) /\
    st_registry s' = st_registry s1 /\ st_callbacks s' = st_callbacks s1 /\
    st_built s' = st_built s1 /\ st_sent s' = st_sent s1 /\
    successful s' = successful s1 /\ failed s' = failed s1 + 1.
Proof.
  destruct (log_hint_spec (str_exn e)) as (hl & _ & Hh).
  unfold mbind, log, incr_failed. rewrite Hh.
  eexists. split; [reflexivity|]. repeat split.
Qed.

End OneAttempt.



(** A transaction that was handed to the node but is not confirmed (no
    receipt in time, or a receipt whose status is not 1) leaves the file
    counted as failed and its record as it was: nothing in the registry tells
    that a transaction for it was sent. *)
Theorem unconfirmed_transaction_is_counted_as_failed `{Runtime}
    (config : EncryptumConfig) (self : Panel) (ledger : Ledger) (depth : nat)
    (now : string) (i : nat) (file : FileSel) (s : State) (raw : bytes) :
  handed_to_node config self ledger depth file raw ->
  (exists e, eth_wait_for_transaction_receipt ledger = Raise e) \/
  (exists receipt,
      eth_wait_for_transaction_receipt ledger = Ok receipt /\ status receipt <> 1) ->
  exists s',
    pin_one config self ledger depth now i file s = (s', Ok tt) /\
    successful s' = successful s /\ failed s' = failed s + 1 /\
    st_sent s' = st_sent s ++ [raw] /\
    st_registry s' = st_registry s /\ st_callbacks s' = st_callbacks s.
Proof.
  intros (cost & nonce & price & gwei & chain & tx_cost & tx_hash
          & H1 & H2 & H3 & H4 & H5 & H6 & H7 & H8 & H9) Hreceipt.
  destruct (pin_one_sent config self ledger depth now i file s _ _ _ _ _ _ _ _
              H1 H2 H3 H4 H5 H6 H7 H8 H9)
    as (logs & s1 & Hreg & Hcbs & Hsucc & Hfail & _ & Hsent & _ & Hrun).
  rewrite Hrun.
  destruct Hreceipt as [(e & He)|(receipt & Hr & Hst)].
  - unfold catch, mbind at 1, lift. rewrite He.
    destruct (pin_one_handler file e s1) as (s' & Hh & Hr' & Hc' & _ & Hs' & Hsu' & Hf').
    rewrite Hh. exists s'. split; [reflexivity|].
    rewrite Hsu', Hf', Hs', Hr', Hc', Hsucc, Hfail, Hsent, Hreg, Hcbs. repeat split.
  - apply Z.eqb_neq in Hst.
    unfold catch, mbind, lift. rewrite Hr. rewrite Hst.
    unfold log, incr_failed. eexists. split; [reflexivity|]. simpl.
    rewrite ?Hsucc, ?Hfail, ?Hsent, ?Hreg, ?Hcbs. repeat split.
Qed.

Lemma unconfirmed_transaction_is_counted_as_failed_witness :
  exists s',
    pin_one default_config (demo_panel "Auto") silent_ledger 1000
      "2025-01-01T00:00:00" 1 second_file (initial_state three_files_registry)
    = (s', Ok tt) /\
    failed s' = 0 + 1 /\ st_sent s' = [] ++ [run_raw second_run] /\
    st_registry s' = three_files_registry.
Proof.
  assert (Hsent : handed_to_node default_config (demo_panel "Auto") silent_ledger 1000
                    second_file (run_raw second_run)).
  { exists (run_cost second_run), (run_nonce second_run), (run_price second_run),
      (run_gwei second_run), (run_chain second_run), (run_tx_cost second_run),
      (run_hash second_run).
    repeat split; vm_compute; reflexivity. }
  destruct (unconfirmed_transaction_is_counted_as_failed default_config (demo_panel "Auto")
              silent_ledger 1000 "2025-01-01T00:00:00" 1 second_file
              (initial_state three_files_registry) (run_raw second_run) Hsent)
    as (s' & Hrun & _ & Hf & Hs & Hreg & _).
  { left. eexists. reflexivity. }
  exists s'. split; [exact Hrun|]. split; [exact Hf|]. split; [exact Hs|exact Hreg].
Defined.

Section InvalidGasPrice.
Context `{Runtime}.
Variable config : EncryptumConfig.
Variable self : Panel.
Variable msg : string.
Hypothesis Hmanual : is_automatic self = false.
Hypothesis Hinvalid : float_of_str (strip (gas_price_var self)) = Raise (Exn ValueError msg).

(** With a gas price field that is not a number, the attempt for a file ends
    before a transaction is built. *)
Lemma pin_one_invalid_gas_price ledger depth now i file s :
  exists s',
    pin_one config self ledger depth now i file s = (s', Ok tt) /\
    st_registry s' = st_registry s /\ st_callbacks s' = st_callbacks s /\
    st_built s' = st_built s /\ st_sent s' = st_sent s /\
    successful s' = successful s /\ failed s' = failed s + 1.
Proof.
  unfold pin_one, pin_attempt, catch.
  unfold mbind at 1. unfold log at 1. cbn beta iota.
  unfold mbind at 1. unfold lift at 1.
  destruct (calculatePinCost_call ledger) as [cost|e]; cbn beta iota.
  2:{ match goal with
      | |- context [(log Error _ ;;; log_hint _ ;;; incr_failed) ?s1] =>
          destruct (pin_one_handler file e s1) as (s' & Hh & Hr & Hc & Hb & Hs & Hsu & Hf)
      end.
      rewrite Hh. exists s'. split; [reflexivity|].
      rewrite Hr, Hc, Hb, Hs, Hsu, Hf. repeat split. }
  unfold mbind at 1. unfold lift at 1.
  destruct (eth_get_transaction_count ledger) as [nonce|e]; cbn beta iota.
  2:{ match goal with
      | |- context [(log Error _ ;;; log_hint _ ;;; incr_failed) ?s1] =>
          destruct (pin_one_handler file e s1) as (s' & Hh & Hr & Hc & Hb & Hs & Hsu & Hf)
      end.
      rewrite Hh. exists s'. split; [reflexivity|].
      rewrite Hr, Hc, Hb, Hs, Hsu, Hf. repeat split. }
  unfold mbind at 1.
  rewrite (get_manual_gas_price_unparsable config self ledger msg Hmanual Hinvalid).
  cbn beta iota.
  match goal with
  | |- context [(log Error _ ;;; log_hint _ ;;; incr_failed) ?s1] =>
      destruct (pin_one_handler file
                  (Exn RecursionError "maximum recursion depth exceeded") s1)
        as (s' & Hh & Hr & Hc & Hb & Hs & Hsu & Hf)
  end.
  rewrite Hh. exists s'. split; [reflexivity|].
  rewrite Hr, Hc, Hb, Hs, Hsu, Hf. repeat split.
Qed.

Lemma pin_loop_invalid_gas_price chain depth clock files :
  forall i s,
  exists s',
    pin_loop config self chain depth clock i files s = (s', Ok tt) /\
    st_registry s' = st_registry s /\ st_callbacks s' = st_callbacks s /\
    st_built s' = st_built s /\ st_sent s' = st_sent s /\
    successful s' = successful s /\ failed s' = failed s + Z.of_nat (length files).
Proof.
  induction files as [|file rest IH]; intros i s.
  - exists s. simpl. unfold ret. rewrite Z.add_0_r. repeat split.
  - simpl pin_loop. unfold mbind.
    destruct (pin_one_invalid_gas_price (chain i) depth (clock i) i file s)
      as (s1 & Hone & Hr1 & Hc1 & Hb1 & Hs1 & Hsu1 & Hf1).
    rewrite Hone.
    destruct (IH (S i) s1) as (s' & Hloop & Hr & Hc & Hb & Hs & Hsu & Hf).
    rewrite Hloop. exists s'. split; [reflexivity|].
    rewrite Hr, Hc, Hb, Hs, Hsu, Hf, Hr1, Hc1, Hb1, Hs1, Hsu1, Hf1.
    repeat split. simpl length. lia.
Qed.

End InvalidGasPrice.

(** With a gas price field that is neither "auto", empty nor a number, nothing
    can be pinned: [pin_files] never reaches [execute_pinning] (it reports a
    failed balance query or "Failed to estimate cost"), and a run of
    [execute_pinning] counts every selected file as failed without building or
    sending a transaction, making a callback or touching the registry. *)
Theorem invalid_gas_price_blocks_pinning `{Runtime}
    (config : EncryptumConfig) (self : Panel) (msg : string)
    (chain : nat -> Ledger) (depth : nat) (clock : nat -> string) (s : State) :
  is_automatic self = false ->
  float_of_str (strip (gas_price_var self)) = Raise (Exn ValueError msg) ->
  (forall ledger confirm outcome,
      snd (pin_files config self ledger confirm chain depth clock s) <> Started outcome) /\
  (exists s',
      execute_pinning config self chain depth clock s
      = (s', PinningComplete 0 (Z.of_nat (length (selected_files self)))) /\
      st_built s' = st_built s /\ st_sent s' = st_sent s /\
      st_callbacks s' = st_callbacks s /\ st_registry s' = st_registry s).
Proof.
  intros Hmanual Hinvalid. split.
  - intros ledger confirm outcome. unfold pin_files.
    destruct (selected_files self); [discriminate|].
    destruct (balance_wei <- eth_get_balance ledger;; from_wei_float balance_wei Ether);
      [|discriminate].
    unfold quote_total_cost, mbind at 1, lift at 1.
    destruct (calculatePinCost_call ledger) as [cost|e]; [|discriminate].
    unfold mbind at 1, lift at 1.
    destruct (from_wei_float cost Ether) as [cost_eth|e]; [|discriminate].
    unfold mbind at 1.
    rewrite (get_manual_gas_price_unparsable config self ledger msg Hmanual Hinvalid).
    discriminate.
  - unfold execute_pinning.
    match goal with
    | |- context [pin_loop _ _ _ _ _ _ _ ?s0] =>
        destruct (pin_loop_invalid_gas_price config self msg Hmanual Hinvalid
                    chain depth clock (selected_files self) 0%nat s0)
          as (s1 & Hloop & Hr & Hc & Hb & Hs & Hsu & Hf)
    end.
    rewrite Hloop. simpl in Hr, Hc, Hb, Hs, Hsu, Hf.
    unfold log. eexists. split.
    + rewrite Hsu, Hf. reflexivity.
    + simpl. rewrite Hb, Hs, Hc, Hr. repeat split.
Qed.

Lemma invalid_gas_price_blocks_pinning_witness :
  exists s',
    execute_pinning default_config (demo_panel "abc") (fun _ => good_ledger) 1000
      demo_clock (initial_state three_files_registry)
    = (s', PinningComplete 0 (Z.of_nat (length (selected_files (demo_panel "abc"))))) /\
    st_built s' = [] /\ st_sent s' = [] /\ st_registry s' = three_files_registry.
Proof.
  assert (Hmanual : is_automatic (demo_panel "abc") = false) by reflexivity.
  assert (Hinvalid : float_of_str (strip (gas_price_var (demo_panel "abc")))
                     = Raise (Exn ValueError "could not convert string to float"))
    by (vm_compute; reflexivity).
  destruct (invalid_gas_price_blocks_pinning default_config (demo_panel "abc")
              "could not convert string to float" (fun _ => good_ledger) 1000 demo_clock
              (initial_state three_files_registry) Hmanual Hinvalid)
    as (_ & s' & Hrun & Hb & Hs & _ & Hr).
  exists s'. split; [exact Hrun|]. split; [exact Hb|]. split; [exact Hs|exact Hr].
Defined.

End PinningFacts.

(** ** The wallet *)

Module WalletFacts.
Import Blockchain Wallet.

Lemma substring_all (k : string) : String.substring 0 (String.length k) k = k.
Proof. induction k as [|c k IH]; simpl; [reflexivity|]. rewrite IH. reflexivity. Qed.

Lemma drop2_0x (k : string) : drop2 ("0x" +:+ k) = k.
Proof.
  unfold drop2.
  change (String.length ("0x" +:+ k)) with (S (S (String.length k))).
  change (S (S (String.length k)) - 2)%nat with (String.length k - 0)%nat.
  rewrite Nat.sub_0_r. apply substring_all.
Qed.

Lemma startswith_0x (k : string) : startswith "0x" ("0x" +:+ k) = true.
Proof. apply String.prefix_correct. destruct k; reflexivity. Qed.

Section Facts.
Context `{Runtime}.
Variable from_key : string -> result string.
Variable eth_get_balance_of : string -> result Z.

(** The wallet changes only when the key has 64 characters after its
    optional "0x" and [Account.from_key] accepts it. *)
Lemma import_private_key_cases connected askstring w :
  let r := import_private_key from_key eth_get_balance_of connected askstring w in
  fst r = w \/
  exists key address,
    (askstring = Some key \/ askstring = Some ("0x" +:+ key)) /\
    String.length key = 64%nat /\ from_key key = Ok address /\
    fst r = {| wallet_account := Some address;
               wallet_private_key := Some ("0x" +:+ key) |}.
Proof.
  intros r. subst r. unfold import_private_key.
  destruct connected; simpl; [|left; reflexivity].
  destruct askstring as [pk|]; [|left; reflexivity].
  destruct (String.eqb pk ""); [left; reflexivity|].
  destruct (startswith "0x" pk) eqn:E0x.
  - destruct (String.length (drop2 pk) =? 64)%nat eqn:Elen; simpl; [|left; reflexivity].
    destruct (from_key (drop2 pk)) as [address|e] eqn:Ekey; [|left; reflexivity].
    right. exists (drop2 pk), address.
    split.
    { right. f_equal. unfold startswith in E0x.
      apply String.prefix_correct in E0x.
      destruct pk as [|c1 [|c2 pk]]; try discriminate.
      simpl in E0x. injection E0x as -> ->.
      change (String "0" (String "x" pk)) with ("0x" +:+ pk).
      rewrite drop2_0x. reflexivity. }
    split; [apply Nat.eqb_eq, Elen|]. split; [exact Ekey|].
    destruct (balance_wei <- eth_get_balance_of address;; from_wei_float balance_wei Ether);
      reflexivity.
  - destruct (String.length pk =? 64)%nat eqn:Elen; simpl; [|left; reflexivity].
    destruct (from_key pk) as [address|e] eqn:Ekey; [|left; reflexivity].
    right. exists pk, address.
    split; [left; reflexivity|].
    split; [apply Nat.eqb_eq, Elen|]. split; [exact Ekey|].
    destruct (balance_wei <- eth_get_balance_of address;; from_wei_float balance_wei Ether);
      reflexivity.
Qed.

End Facts.

(** [import_private_key] either leaves the wallet as it was or loads a key
    that has 64 characters after its optional "0x" and that
    [Account.from_key] accepts. The key is stored with exactly one "0x" in
    front, whether it was typed with the prefix or without, and for a panel
    holding the stored key the pinning loop signs with that same text. *)
Theorem wallet_import_normalises_the_key `{Runtime}
    (from_key : string -> result string) (eth_get_balance_of : string -> result Z)
    (connected : bool) (askstring : option string) (w : wallet) :
  (fst (import_private_key from_key eth_get_balance_of connected askstring w) = w \/
   exists key address,
     (askstring = Some key \/ askstring = Some ("0x" +:+ key)) /\
     String.length key = 64%nat /\ from_key key = Ok address /\
     fst (import_private_key from_key eth_get_balance_of connected askstring w)
     = {| wallet_account := Some address;
          wallet_private_key := Some ("0x" +:+ key) |} /\
     (forall self : Panel,
         private_key self = "0x" +:+ key -> signing_key self = "0x" +:+ key)) /\
  (forall key,
      key <> "" -> startswith "0x" key = false ->
      import_private_key from_key eth_get_balance_of connected (Some ("0x" +:+ key)) w
      = import_private_key from_key eth_get_balance_of connected (Some key) w).
Proof.
  split.
  - destruct (import_private_key_cases from_key eth_get_balance_of connected askstring w)
      as [Hsame|(key & address & Hask & Hlen & Hkey & Hw)]; [left; exact Hsame|].
    right. exists key, address. repeat split; try assumption.
    intros self Hpk. unfold signing_key. rewrite Hpk, startswith_0x. reflexivity.
  - intros key Hne Hno. destruct key as [|c key]; [contradiction|].
    unfold import_private_key.
    destruct connected; [|reflexivity]. cbn [negb].
    rewrite startswith_0x, Hno, drop2_0x.
    assert (String.eqb ("0x" +:+ String c key) "" = false) as -> by reflexivity.
    assert (String.eqb (String c key) "" = false) as -> by reflexivity.
    reflexivity.
Qed.

Lemma wallet_import_normalises_the_key_witness :
  import_private_key demo_from_key (fun _ => Ok (10 ^ 18)) true
    (Some ("0x" +:+ demo_key)) no_wallet
  = import_private_key demo_from_key (fun _ => Ok (10 ^ 18)) true (Some demo_key) no_wallet.
Proof.
  destruct (wallet_import_normalises_the_key demo_from_key (fun _ => Ok (10 ^ 18)) true
              (Some demo_key) no_wallet) as (_ & Hsame).
  apply (Hsame demo_key); [discriminate|reflexivity].
Defined.

(** The wallet is replaced as soon as [Account.from_key] has accepted the
    key: when the balance query that follows fails, the import is reported as
    failed, yet the account and the key of the panel are the new ones. *)
Theorem wallet_is_replaced_before_the_balance_query `{Runtime}
    (from_key : string -> result string) (eth_get_balance_of : string -> result Z)
    (key address : string) (e : exn) (w : wallet) :
  key <> "" ->
  startswith "0x" key = false ->
  String.length key = 64%nat ->
  from_key key = Ok address ->
  eth_get_balance_of address = Raise e ->
  import_private_key from_key eth_get_balance_of true (Some key) w
  = ({| wallet_account := Some address; wallet_private_key := Some ("0x" +:+ key) |},
     ImportError (str_exn e)).
Proof.
  intros Hne Hno Hlen Hkey Hbal. unfold import_private_key. simpl negb. cbn iota.
  apply String.eqb_neq in Hne. rewrite Hne, Hno, Hlen. simpl. rewrite Hkey, Hbal.
  reflexivity.
Qed.

Lemma wallet_is_replaced_before_the_balance_query_witness :
  import_private_key demo_from_key no_balance true (Some demo_key) no_wallet
  = ({| wallet_account := Some ("0x" +:+ take_str 8 demo_key);
        wallet_private_key := Some ("0x" +:+ demo_key) |},
     ImportError "connection refused").
Proof.
  apply (wallet_is_replaced_before_the_balance_query demo_from_key no_balance demo_key
           ("0x" +:+ take_str 8 demo_key) (Exn ConnectionError_ "connection refused")
           no_wallet); try reflexivity.
  discriminate.
Defined.

End WalletFacts.

(** ** Choosing a file *)

Module FilesFacts.
Import Encryption Registry Files.

Example splitext_archive : splitext "/home/u/backup.tar.gz" = ("/home/u/backup.tar", ".gz").
Proof. reflexivity. Qed.

Example splitext_dotfile : splitext "/home/u/.bashrc" = ("/home/u/.bashrc", "").
Proof. reflexivity. Qed.

Example splitext_dot_in_directory : splitext "/home/u.d/notes" = ("/home/u.d/notes", "").
Proof. reflexivity. Qed.

Lemma lower_ascii_idempotent (c : ascii) : lower_ascii (lower_ascii c) = lower_ascii c.
Proof. destruct c as [[] [] [] [] [] [] [] []]; reflexivity. Qed.

Lemma lower_idempotent (s : string) : lower (lower s) = lower s.
Proof.
  induction s as [|c s IH]; simpl; [reflexivity|].
  rewrite lower_ascii_idempotent, IH. reflexivity.
Qed.

Lemma rfind_from_bounds c s i found :
  -1 <= found < i -> 0 <= i ->
  -1 <= rfind_from c s i found < i + Z.of_nat (String.length s).
Proof.
  revert i found. induction s as [|a s IH]; intros i found Hf Hi; simpl.
  - lia.
  - destruct (Ascii.eqb a c).
    + specialize (IH (i + 1) i). lia.
    + specialize (IH (i + 1) found). lia.
Qed.

Lemma rfind_bounds c s : -1 <= rfind c s < Z.of_nat (String.length s).
Proof. unfold rfind. pose proof (rfind_from_bounds c s 0 (-1)). lia. Qed.

Lemma substring_split (s : string) (n : nat) :
  (n <= String.length s)%nat ->
  String.substring 0 n s +:+ String.substring n (String.length s - n) s = s.
Proof.
  revert n. induction s as [|a s IH]; intros n Hn.
  - destruct n; [reflexivity|simpl in Hn; lia].
  - destruct n as [|n].
    + rewrite Nat.sub_0_r, WalletFacts.substring_all. reflexivity.
    + simpl in Hn. simpl.
      change (String a (String.substring 0 n s
                        +:+ String.substring n (String.length s - n) s) = String a s).
      f_equal. apply IH. lia.
Qed.

(** [root + ext == path] *)
Lemma splitext_joins (p : string) : fst (splitext p) +:+ snd (splitext p) = p.
Proof.
  unfold splitext.
  destruct ((rfind "/" p <? rfind "." p)
            && has_non_dot (slice p (rfind "/" p + 1) (rfind "." p))) eqn:E; simpl.
  - apply andb_prop in E as [Hlt _]. apply Z.ltb_lt in Hlt.
    pose proof (rfind_bounds "/" p). pose proof (rfind_bounds "." p).
    unfold slice. rewrite Z.sub_0_r.
    replace (Z.to_nat 0) with 0%nat by reflexivity.
    replace (Z.to_nat (Z.of_nat (String.length p) - rfind "." p))
      with (String.length p - Z.to_nat (rfind "." p))%nat by lia.
    apply substring_split. lia.
  - clear. induction p as [|a p IH]; [reflexivity|].
    change (String a (p +:+ "") = String a p). f_equal. exact IH.
Qed.


Lemma contains_char_cons (c a : ascii) (s : string) :
  contains (String c "") (String a s) = Ascii.eqb a c || contains (String c "") s.
Proof.
  cbn [contains]. f_equal.
  destruct (String.prefix (String c "") (String a s)) eqn:E.
  - apply String.prefix_correct in E. simpl in E.
    destruct s; injection E as ->; symmetry; apply Ascii.eqb_refl.
  - destruct (Ascii.eqb_spec a c) as [->|Hne]; [|reflexivity].
    assert (Hp : String.prefix (String c "") (String c s) = true)
      by (apply String.prefix_correct; destruct s; reflexivity).
    congruence.
Qed.

Lemma rfind_from_absent c s i found :
  contains (String c "") s = false -> rfind_from c s i found = found.
Proof.
  revert i found. induction s as [|a s IH]; intros i found Hno; [reflexivity|].
  rewrite contains_char_cons in Hno. apply orb_false_elim in Hno as [Ha Hs].
  simpl. rewrite Ha. apply IH, Hs.
Qed.

Lemma is_supported_file_type_ext (p : string) :
  is_supported_file_type p = true <-> snd (splitext (lower p)) ∈ get_supported_file_types.
Proof.
  unfold is_supported_file_type. rewrite existsb_exists. split.
  - intros (x & Hin & Heq). apply String.eqb_eq in Heq. subst x.
    apply list_elem_of_In. exact Hin.
  - intros Hin. exists (snd (splitext (lower p))).
    split; [apply list_elem_of_In; exact Hin|apply String.eqb_refl].
Qed.

(** Whether a file type is supported is decided by the extension of the
    path in lower case: the answer does not change with the case of the
    letters; a supported path ends, in lower case, with one of the listed
    extensions; and a path without a dot is not supported. *)
Theorem supported_type_is_decided_by_the_extension (file_path : string) :
  is_supported_file_type (lower file_path) = is_supported_file_type file_path /\
  (is_supported_file_type file_path = true ->
   exists root ext,
     ext ∈ get_supported_file_types /\ lower file_path = root +:+ ext) /\
  (contains "." file_path = false -> is_supported_file_type file_path = false).
Proof.
  split; [|split].
  - unfold is_supported_file_type. rewrite lower_idempotent. reflexivity.
  - intros Hs. apply is_supported_file_type_ext in Hs.
    exists (fst (splitext (lower file_path))), (snd (splitext (lower file_path))).
    split; [exact Hs|]. symmetry. apply splitext_joins.
  - intros Hno.
    assert (Hlow : contains "." (lower file_path) = false).
    { revert Hno. clear. induction file_path as [|a p IH]; [reflexivity|].
      simpl lower. rewrite !contains_char_cons. intros Hno.
      apply orb_false_elim in Hno as [Ha Hp]. rewrite (IH Hp), orb_false_r.
      revert Ha. clear. destruct a as [[] [] [] [] [] [] [] []]; intros Ha;
        try reflexivity; discriminate Ha. }
    unfold is_supported_file_type, splitext.
    unfold rfind at 2. rewrite (rfind_from_absent _ _ _ _ Hlow).
    pose proof (rfind_bounds "/" (lower file_path)) as Hb.
    assert (Hlt : (rfind "/" (lower file_path) <? -1) = false) by (apply Z.ltb_ge; lia).
    rewrite Hlt. reflexivity.
Qed.

Lemma supported_type_is_decided_by_the_extension_witness :
  exists root ext,
    ext ∈ get_supported_file_types /\ lower "/Docs/Report.PDF" = root +:+ ext.
Proof.
  destruct (supported_type_is_decided_by_the_extension "/Docs/Report.PDF") as (_ & Hs & _).
  apply Hs. reflexivity.
Defined.

(** [select_and_upload_file] starts an upload only for a path that exists on
    disk and holds at most [max_file_size_mb] MiB, of a supported type or with
    the user's consent, and with a password that is not empty. A path that
    does not exist is answered like a file that is too large. *)
Theorem upload_starts_only_within_the_size_limit
    (max_file_size_mb : Z) (fs : gmap string bytes)
    (askopenfilename : string) (askyesno : bool) (askstring : option string) :
  (forall file_path password,
      select_and_upload_file max_file_size_mb fs askopenfilename askyesno askstring
      = UploadStarted file_path password <->
      file_path = askopenfilename /\ file_path <> "" /\
      (exists data,
          fs !! file_path = Some data /\
          Z.of_nat (length data) <= max_file_size_mb * 1048576) /\
      (is_supported_file_type file_path = true \/ askyesno = true) /\
      askstring = Some password /\ password <> "") /\
  (askopenfilename <> "" -> fs !! askopenfilename = None ->
   select_and_upload_file max_file_size_mb fs askopenfilename askyesno askstring
   = FileTooLarge).
Proof.
  unfold select_and_upload_file, validate_file_size, max_file_size_bytes. split.
  - intros file_path password. split.
    + destruct (String.eqb_spec askopenfilename "") as [|Hne]; [discriminate|].
      destruct (fs !! askopenfilename) as [data|] eqn:Efs; simpl; [|discriminate].
      destruct (Z.leb_spec (Z.of_nat (length data)) (max_file_size_mb * 1024 * 1024))
        as [Hle|]; simpl; [|discriminate].
      destruct (is_supported_file_type askopenfilename) eqn:Esup; simpl.
      * destruct askstring as [pw|]; [|discriminate].
        destruct (String.eqb_spec pw "") as [|Hpw]; [discriminate|].
        intros [= <- <-]. repeat split; try assumption.
        -- exists data. split; [exact Efs|lia].
        -- left. exact Esup.
      * destruct askyesno; simpl; [|discriminate].
        destruct askstring as [pw|]; [|discriminate].
        destruct (String.eqb_spec pw "") as [|Hpw]; [discriminate|].
        intros [= <- <-]. repeat split; try assumption.
        -- exists data. split; [exact Efs|lia].
        -- right. reflexivity.
    + intros (-> & Hne & (data & Hfs & Hle) & Hok & -> & Hpw).
      apply String.eqb_neq in Hne, Hpw. rewrite Hne, Hfs, Hpw.
      assert (Hz : (Z.of_nat (length data) <=? max_file_size_mb * 1024 * 1024) = true)
        by (apply Z.leb_le; lia).
      rewrite Hz. simpl.
      destruct Hok as [->| ->]; simpl; [reflexivity|].
      rewrite andb_false_r. reflexivity.
  - intros Hne Hfs. apply String.eqb_neq in Hne. rewrite Hne, Hfs. reflexivity.
Qed.

Lemma upload_starts_only_within_the_size_limit_witness :
  select_and_upload_file 100 abc_fs "/tmp/abc.txt" false (Some "pw")
  = UploadStarted "/tmp/abc.txt" "pw" /\
  select_and_upload_file 100 abc_fs "/tmp/none.txt" false (Some "pw") = FileTooLarge.
Proof.
  destruct (upload_starts_only_within_the_size_limit 100 abc_fs "/tmp/abc.txt" false
              (Some "pw")) as (Hiff & _).
  destruct (upload_starts_only_within_the_size_limit 100 abc_fs "/tmp/none.txt" false
              (Some "pw")) as (_ & Hmissing).
  split.
  - apply Hiff. split; [reflexivity|]. split; [discriminate|]. split.
    + exists (bytes_of_string "abc"). split; [reflexivity|]. vm_compute. discriminate.
    + split; [left; reflexivity|]. split; [reflexivity|discriminate].
  - apply Hmissing; [discriminate|reflexivity].
Defined.

(** Every record that an upload started by [select_and_upload_file] adds to
    the registry has a size of at least one byte and at most
    [max_file_size_mb] MiB: the size check lets empty files through, and
    [encrypt_file] then refuses them. *)
Theorem uploaded_size_is_within_limits `{Cryptography} `{IpfsNode}
    (max_file_size_mb : Z) (fs : gmap string bytes)
    (askopenfilename : string) (askyesno : bool) (askstring : option string)
    (file_path password gateway_url : string) (iterations : Z)
    (urandom : bytes) (nonce : fernet_nonce) (now : string)
    (reg reg' : gmap string pydict) (file_id : string) (ir : pydict) :
  select_and_upload_file max_file_size_mb fs askopenfilename askyesno askstring
  = UploadStarted file_path password ->
  upload_file_thread gateway_url iterations fs urandom nonce now file_path password reg
  = (reg', UploadSuccess file_id ir) ->
  exists record size,
    reg' !! file_id = Some record /\
    record !! "original_size" = Some (VInt size) /\
    1 <= size <= max_file_size_mb * 1048576.
Proof.
  intros Hgate Hup.
  assert (Hdata : exists data, fs !! file_path = Some data /\
                               Z.of_nat (length data) <= max_file_size_mb * 1048576).
  { revert Hgate.
    unfold select_and_upload_file, validate_file_size, max_file_size_bytes.
    destruct (String.eqb askopenfilename ""); [discriminate|].
    destruct (fs !! askopenfilename) as [data|] eqn:Efs; simpl; [|discriminate].
    destruct (Z.leb_spec (Z.of_nat (length data)) (max_file_size_mb * 1024 * 1024))
      as [Hle|]; simpl; [|discriminate].
    destruct (negb (is_supported_file_type askopenfilename) && negb askyesno);
      [discriminate|].
    destruct askstring as [pw|]; [|discriminate].
    destruct (String.eqb pw ""); [discriminate|].
    intros [= <- <-]. exists data. split; [exact Efs|lia]. }
  destruct Hdata as (data & Hfs & Hle).
  revert Hup. unfold upload_file_thread.
  destruct (encrypt_file iterations fs urandom nonce file_path password) as [er|e] eqn:Henc;
    simpl; [|discriminate].
  destruct (store_encrypted_file _ _ _ _) as [ir'|e]; simpl; [|discriminate].
  intros [= <- <- <-].
  destruct (EncryptionFacts.encrypt_file_inv _ _ _ _ _ _ _ Henc)
    as (P & ks & f & HP & Hne & _ & _ & Her).
  assert (P = data) as -> by congruence.
  exists (file_entry er ir' now), (Encryption.original_size er).
  split; [apply lookup_insert_eq|]. split.
  - unfold file_entry. repeat (rewrite lookup_insert_ne by discriminate).
    apply lookup_insert_eq.
  - rewrite Her. simpl. destruct data; [contradiction|]. simpl length in *. lia.
Qed.

Lemma uploaded_size_is_within_limits_witness :
  exists record size,
    fst overwrite_run !! "ba7816bf8f01cfea" = Some record /\
    record !! "original_size" = Some (VInt size) /\ 1 <= size <= 100 * 1048576.
Proof.
  assert (Hgate : select_and_upload_file 100 abc_fs "/tmp/abc.txt" false (Some "pw")
                  = UploadStarted "/tmp/abc.txt" "pw") by reflexivity.
  assert (Hup : overwrite_run
                = (fst overwrite_run, UploadSuccess "ba7816bf8f01cfea" abc_stored))
    by (vm_compute; reflexivity).
  unfold overwrite_run in Hup at 1.
  exact (uploaded_size_is_within_limits 100 abc_fs "/tmp/abc.txt" false (Some "pw")
           "/tmp/abc.txt" "pw" "https://ipfs.io/ipfs/" 100000
           (bytes_of_string "0123456789abcdef") tt "2025-01-01T00:00:00"
           demo_registry (fst overwrite_run) "ba7816bf8f01cfea" abc_stored Hgate Hup).
Defined.

End FilesFacts.

(** ** The life of a record: upload, pin, upload again, delete *)

Module LifecycleFacts.
Import Encryption Registry Blockchain Download Selection.





End LifecycleFacts.
